(** * Availability and booking orchestration of the service chatbot backend

    A shallow embedding of
      - [app/google_calendar.py]   ([compute_free_slots_from_freebusy]),
      - [app/models.py]            ([Booking]),
      - [app/crud.py]              (the booking functions),
      - [app/db.py]                ([get_session]),
      - [app/routers/schedule_routes.py] (the scheduling handlers),
    followed by the properties their specification states.

    Conventions of the embedding.
      - A Python [datetime] is a wall-clock reading in microseconds together
        with an optional UTC offset; ordering a naive against an aware value
        raises [TypeError], and a sum that leaves the years 1 to 9999 raises
        [OverflowError], as in Python.
      - The datetime columns of the booking table have no time zone: a
        stored value is the wall reading of what was written.
      - A handler is embedded as written ([book], ...), where its session
        loop iterates over the context manager [get_session()], and as it
        runs once a session is at hand ([book_body], ...).
      - Python code that can raise returns a [result]; code that also talks to
        the calendar service or to the database runs in the monad [M], a state
        monad over [World] whose state survives an exception.
      - The calendar service, the database faults and the clock are an
        environment [Env] of functions of the current [World]: every theorem
        holds for every behaviour of these collaborators. *)

From Stdlib Require Import ZArith List String Ascii Bool Lia.
From Stdlib Require Import Sorting.Sorted Sorting.Permutation.
From Stdlib Require Import Numbers.DecimalString.
Import ListNotations.

Local Open Scope Z_scope.
Set Warnings "-register-all".

(* ===================================================================== *)
(** * Python values and exceptions                                         *)
(* ===================================================================== *)

Module Py.

Inductive exn : Type :=
| TypeError
| ValueError
| AttributeError
| KeyError
| IntegrityError
| OverflowError
| RemoteError (msg : string).

(** Outcome of running a piece of Python: a value, an exception, or no
    outcome at all (a loop that never exits). *)
Inductive result (A : Type) : Type :=
| Ok (a : A)
| Raise (e : exn)
| Diverge.

Arguments Ok {A} a.
Arguments Raise {A} e.
Arguments Diverge {A}.

Definition bind {A B : Type} (r : result A) (k : A -> result B) : result B :=
  match r with
  | Ok a => k a
  | Raise e => Raise e
  | Diverge => Diverge
  end.

(** [try: r  except Exception: h] *)
Definition try_except {A : Type} (r : result A) (h : exn -> result A) : result A :=
  match r with
  | Ok a => Ok a
  | Raise e => h e
  | Diverge => Diverge
  end.

(** Truth value of an optional string ([None] and [""] are falsy). *)
Definition truthy (s : option string) : bool :=
  match s with
  | Some EmptyString => false
  | Some _ => true
  | None => false
  end.

(** [a or b] on optional strings. *)
Definition or_else (a b : option string) : option string :=
  if truthy a then a else b.

(** [str(x)] of an optional string. *)
Definition str_of (s : option string) : string :=
  match s with
  | Some v => v
  | None => "None"%string
  end.

(** [str(n)] of an integer. *)
Definition str_of_int (n : Z) : string := NilZero.string_of_int (Z.to_int n).

(** [s.replace("Z", "+00:00")] *)
Fixpoint replace_Z (s : string) : string :=
  match s with
  | EmptyString => EmptyString
  | String c s' =>
      if Ascii.eqb c "Z"%char then String.append "+00:00" (replace_Z s')
      else String c (replace_Z s')
  end.

End Py.

Import Py.

Declare Scope py_scope.
Delimit Scope py_scope with py.
Notation "x <- r ;; k" := (Py.bind r (fun x => k))
  (at level 100, r at next level, right associativity) : py_scope.

(* ===================================================================== *)
(** * datetime                                                             *)
(* ===================================================================== *)

Module Datetime.

(** [wall]: microseconds since 0001-01-01T00:00:00 read off the date and
    time fields; [utcoffset]: [None] for a naive value, [Some o] (in
    microseconds) for an aware one. *)
Record datetime : Type := mk_datetime { wall : Z; utcoffset : option Z }.

Definition us_per_minute : Z := 60000000.
Definition us_per_hour : Z := 3600000000.
Definition us_per_day : Z := 86400000000.

Definition is_aware (d : datetime) : bool :=
  match utcoffset d with Some _ => true | None => false end.

(** The instant two values of the same kind are ordered by. *)
Definition utc_key (d : datetime) : Z :=
  match utcoffset d with
  | Some o => wall d - o
  | None => wall d
  end.

Definition comparable (a b : datetime) : bool :=
  Bool.eqb (is_aware a) (is_aware b).

(** [a < b], [a <= b], [a > b]: [TypeError] between naive and aware. *)
Definition dt_lt (a b : datetime) : result bool :=
  if comparable a b then Ok (utc_key a <? utc_key b) else Raise TypeError.

Definition dt_le (a b : datetime) : result bool :=
  if comparable a b then Ok (utc_key a <=? utc_key b) else Raise TypeError.

Definition dt_gt (a b : datetime) : result bool :=
  if comparable a b then Ok (utc_key b <? utc_key a) else Raise TypeError.

(** [max(a, b)]: the first argument unless the second is greater. *)
Definition dt_max (a b : datetime) : result datetime :=
  (gt <- dt_gt b a ;; Ok (if gt then b else a))%py.

(** [datetime.min] is reading 0 and [datetime.max] the last microsecond of
    9999-12-31, day 3652059 of the calendar. *)
Definition max_wall : Z := 3652059 * us_per_day.

(** The readings a [datetime] can hold. *)
Definition in_range (d : datetime) : bool := (0 <=? wall d) && (wall d <? max_wall).

(** The reading [m] minutes after [t], with the offset of [t]. *)
Definition plus_minutes (t : datetime) (m : Z) : datetime :=
  {| wall := wall t + m * us_per_minute; utcoffset := utcoffset t |}.

(** [t + timedelta(minutes=m)]: [OverflowError] when the sum is not a
    reading a [datetime] can hold (a [timedelta] too large to build leaves
    that range as well). *)
Definition add_minutes (t : datetime) (m : Z) : result datetime :=
  if in_range (plus_minutes t m) then Ok (plus_minutes t m) else Raise OverflowError.

(** [datetime(date.year, date.month, date.day, hour)]: a naive value;
    [ValueError] unless [hour] is in 0..23. *)
Definition at_hour (date : datetime) (hour : Z) : result datetime :=
  if (0 <=? hour) && (hour <=? 23)
  then Ok {| wall := (wall date / us_per_day) * us_per_day + hour * us_per_hour;
             utcoffset := None |}
  else Raise ValueError.

(** [datetime.fromisoformat] belongs to the Python library; the embedding
    is parametric in it ([None]: [ValueError]).  What it returns is a
    [datetime], so a reading in range. *)
Class IsoParser : Type := {
  fromisoformat : string -> option datetime;
  fromisoformat_in_range :
    forall s d, fromisoformat s = Some d -> in_range d = true
}.

End Datetime.

Import Datetime.

(* ===================================================================== *)
(** * JSON values as Python objects                                        *)
(* ===================================================================== *)

Module Json.

(** A decoded JSON document: [JObj] is a dict in insertion order. *)
Inductive json : Type :=
| JNull
| JBool (b : bool)
| JNum (n : Z)
| JStr (s : string)
| JArr (items : list json)
| JObj (fields : list (string * json)).

(** [bool(v)] *)
Definition truthy (v : json) : bool :=
  match v with
  | JNull => false
  | JBool b => b
  | JNum n => negb (n =? 0)
  | JStr s => negb (String.eqb s "")
  | JArr items => match items with [] => false | _ => true end
  | JObj fields => match fields with [] => false | _ => true end
  end.

Fixpoint lookup (k : string) (fields : list (string * json)) : option json :=
  match fields with
  | [] => None
  | (k', v) :: rest => if String.eqb k k' then Some v else lookup k rest
  end.

(** [v.get(k, default)]: [AttributeError] unless [v] is a dict. *)
Definition get (v : json) (k : string) (default : json) : result json :=
  match v with
  | JObj fields =>
      Ok (match lookup k fields with Some x => x | None => default end)
  | _ => Raise AttributeError
  end.

(** [v.items()] *)
Definition items (v : json) : result (list (string * json)) :=
  match v with
  | JObj fields => Ok fields
  | _ => Raise AttributeError
  end.

Fixpoint chars (s : string) : list json :=
  match s with
  | EmptyString => []
  | String c s' => JStr (String c EmptyString) :: chars s'
  end.

(** The sequence [for b in v] runs over: list elements, the characters of
    a string, the keys of a dict; [TypeError] for the rest. *)
Definition iterate (v : json) : result (list json) :=
  match v with
  | JArr l => Ok l
  | JStr s => Ok (chars s)
  | JObj fields => Ok (map (fun kv => JStr (fst kv)) fields)
  | _ => Raise TypeError
  end.

(** [int(s)] of a string belongs to the Python library; the embedding is
    parametric in it ([None]: [ValueError]). *)
Class IntParser : Type := int_of_str : string -> option Z.

(** [int(v)] of a decoded JSON value (numbers with a fraction are not
    represented). *)
Definition py_int {ints : IntParser} (v : json) : result Z :=
  match v with
  | JNum n => Ok n
  | JBool b => Ok (if b then 1 else 0)
  | JStr s =>
      match int_of_str s with
      | Some n => Ok n
      | None => Raise ValueError
      end
  | JNull | JArr _ | JObj _ => Raise TypeError
  end.

(** [int(payload.get(k, default))]: [None] stands for an absent key. *)
Definition int_or {ints : IntParser} (default : Z) (v : option json) : result Z :=
  match v with
  | Some x => py_int x
  | None => Ok default
  end.

End Json.

Import Json.

(* ===================================================================== *)
(** * app/google_calendar.py                                               *)
(* ===================================================================== *)

Module GoogleCalendar.

Section Slots.

Context {parser : IsoParser}.

(** A busy interval [(bstart, bend)]. *)
Definition interval : Type := (datetime * datetime)%type.

(** A slot [{"start": t.isoformat() + "Z", "end": ...}], kept as the two
    values that are rendered. *)
Record Slot : Type := mk_slot { slot_start : datetime; slot_end : datetime }.

(** [datetime.fromisoformat(b[k].replace("Z", "+00:00")) if b.get(k) else None] *)
Definition busy_field (b : json) (k : string) : result (option datetime) :=
  (v <- Json.get b k JNull ;;
   if Json.truthy v then
     match v with
     | JStr s =>
         match fromisoformat (replace_Z s) with
         | Some d => Ok (Some d)
         | None => Raise ValueError
         end
     | _ => Raise AttributeError
     end
   else Ok None)%py.

(** Body of the inner loop: the intervals one busy entry adds. *)
Definition parse_busy_entry (b : json) : result (list interval) :=
  try_except
    (bstart <- busy_field b "start" ;;
     bend <- busy_field b "end" ;;
     match bstart, bend with
     | Some s, Some e => Ok [(s, e)]
     | _, _ => Ok []
     end)%py
    (fun _ => Ok []).

Fixpoint parse_busy_entries (busy_intervals : list interval) (entries : list json)
  : result (list interval) :=
  match entries with
  | [] => Ok busy_intervals
  | b :: rest =>
      (found <- parse_busy_entry b ;;
       parse_busy_entries (busy_intervals ++ found) rest)%py
  end.

(** The loop over [calendars.items()]. *)
Fixpoint aggregate_calendars (busy_intervals : list interval)
         (calendars : list (string * json)) : result (list interval) :=
  match calendars with
  | [] => Ok busy_intervals
  | (_, cal_data) :: rest =>
      (busy <- Json.get cal_data "busy" (JArr []) ;;
       entries <- Json.iterate busy ;;
       busy_intervals' <- parse_busy_entries busy_intervals entries ;;
       aggregate_calendars busy_intervals' rest)%py
  end.

(** Lines 188-200: the busy intervals of all calendars. *)
Definition aggregate_busy (freebusy_resp : json) : result (list interval) :=
  (found <- Json.get freebusy_resp "calendars" (JObj []) ;;
   let calendars := if Json.truthy found then found else JObj [] in
   cals <- Json.items calendars ;;
   aggregate_calendars [] cals)%py.

(** [busy_intervals.sort(key=lambda x: x[0])]: a stable sort that uses
    [<] on the keys only.  Ordering a naive key against an aware one
    raises [TypeError], and a sort of a list that holds both has to
    order one such pair. *)
Fixpoint sort_insert (x : interval) (sorted : list interval) : list interval :=
  match sorted with
  | [] => [x]
  | y :: rest =>
      if utc_key (fst y) <? utc_key (fst x) then y :: sort_insert x rest
      else x :: sorted
  end.

Fixpoint stable_sort (l : list interval) : list interval :=
  match l with
  | [] => []
  | x :: rest => sort_insert x (stable_sort rest)
  end.

Definition keys_comparable (l : list interval) : bool :=
  match l with
  | [] => true
  | x :: rest => forallb (fun y => comparable (fst x) (fst y)) rest
  end.

Definition sort_by_start (l : list interval) : result (list interval) :=
  if keys_comparable l then Ok (stable_sort l) else Raise TypeError.

(** [merged[-1]] and [merged[-1] = v] *)
Definition last_of (merged : list interval) : option interval :=
  match rev merged with
  | [] => None
  | x :: _ => Some x
  end.

Definition set_last (merged : list interval) (v : interval) : list interval :=
  removelast merged ++ [v].

(** Lines 205-214: the merge loop over the sorted intervals. *)
Fixpoint merge_loop (merged : list interval) (sorted : list interval)
  : result (list interval) :=
  match sorted with
  | [] => Ok merged
  | interval :: rest =>
      match last_of merged with
      | None => merge_loop (merged ++ [interval]) rest
      | Some last =>
          (overlap <- dt_le (fst interval) (snd last) ;;
           if overlap : bool then
             (hi <- dt_max (snd last) (snd interval) ;;
              merge_loop (set_last merged (fst last, hi)) rest)
           else merge_loop (merged ++ [interval]) rest)%py
      end
  end.

(** Lines 202-214: the interval merger. *)
Definition merge_busy (busy_intervals : list interval) : result (list interval) :=
  (sorted <- sort_by_start busy_intervals ;;
   merge_loop [] sorted)%py.

(** [while t + timedelta(minutes=d) <= bound: slots.append(...); t = t + ...]
    run for at most [fuel] tests of the condition. *)
Fixpoint pack_loop (fuel : nat) (d : Z) (bound : datetime)
         (slots : list Slot) (t : datetime) : result (list Slot) :=
  match fuel with
  | O => Diverge
  | S fuel' =>
      (next <- add_minutes t d ;;
       fits <- dt_le next bound ;;
       if fits : bool then
         pack_loop fuel' d bound (slots ++ [mk_slot t next]) next
       else Ok slots)%py
  end.

(** Tests of the condition the loop needs at most: with a positive step
    until the sum passes the bound, with a negative step until it falls
    below [datetime.min]. *)
Definition pack_fuel (d : Z) (bound t : datetime) : nat :=
  S (Z.to_nat (if 0 <? d
               then (utc_key bound - utc_key t) / (d * us_per_minute)
               else wall t / (- d * us_per_minute))).

(** The [while] loop itself.  With a duration other than zero it ends
    (lemma [pack_adequate]): by its condition, or by the [OverflowError] of
    the sum; with a duration of zero the condition, once true, stays
    true. *)
Definition pack (d : Z) (bound : datetime) (slots : list Slot) (t : datetime)
  : result (list Slot) :=
  if d =? 0
  then (next <- add_minutes t 0 ;;
        fits <- dt_le next bound ;;
        if fits : bool then Diverge else Ok slots)%py
  else pack_loop (pack_fuel d bound t) d bound slots t.

(** Lines 219-228: the loop over the merged intervals. *)
Fixpoint walk_busy (d : Z) (merged : list interval)
         (slots : list Slot) (current : datetime)
  : result (list Slot * datetime) :=
  match merged with
  | [] => Ok (slots, current)
  | (bstart, bend) :: rest =>
      (before <- dt_gt bstart current ;;
       slots' <- (if before : bool then pack d bstart slots current else Ok slots) ;;
       current' <- dt_max current bend ;;
       walk_busy d rest slots' current')%py
  end.

(** Lines 216-237: the slot generator. *)
Definition generate_slots (merged : list interval) (start_dt end_dt : datetime)
           (duration_minutes : Z) : result (list Slot) :=
  (st <- walk_busy duration_minutes merged [] start_dt ;;
   pack duration_minutes end_dt (fst st) (snd st))%py.

Definition compute_free_slots_from_freebusy
           (freebusy_resp : json) (date_str : string)
           (duration_minutes work_start work_end : Z) : result (list Slot) :=
  (date <- match fromisoformat date_str with
           | Some d => Ok d
           | None => Raise ValueError
           end ;;
   start_dt <- at_hour date work_start ;;
   end_dt <- at_hour date work_end ;;
   busy_intervals <- aggregate_busy freebusy_resp ;;
   merged <- merge_busy busy_intervals ;;
   generate_slots merged start_dt end_dt duration_minutes)%py.

End Slots.

End GoogleCalendar.

Import GoogleCalendar.

(* ===================================================================== *)
(** * A parser for the examples                                            *)
(* ===================================================================== *)

(** The part of [datetime.fromisoformat] that the examples below exercise:
    [YYYY-MM-DD] and [YYYY-MM-DDTHH:MM:SS], the latter with an optional
    [+HH:MM] or [-HH:MM].  It is used for closed examples only; the
    theorems hold for every [IsoParser]. *)
Module IsoFragment.

Definition digit (c : ascii) : option Z :=
  let n := Z.of_N (N_of_ascii c) in
  if (48 <=? n) && (n <=? 57) then Some (n - 48) else None.

Definition two_digits (a b : ascii) : option Z :=
  match digit a, digit b with
  | Some x, Some y => Some (10 * x + y)
  | _, _ => None
  end.

Definition four_digits (a b c d : ascii) : option Z :=
  match two_digits a b, two_digits c d with
  | Some x, Some y => Some (100 * x + y)
  | _, _ => None
  end.

Definition is_leap (y : Z) : bool :=
  ((y mod 4 =? 0) && negb (y mod 100 =? 0)) || (y mod 400 =? 0).

Definition days_in_month (y m : Z) : Z :=
  if m =? 2 then (if is_leap y then 29 else 28)
  else if (m =? 4) || (m =? 6) || (m =? 9) || (m =? 11) then 30
  else 31.

Definition days_before_year (y : Z) : Z :=
  let p := y - 1 in p * 365 + p / 4 - p / 100 + p / 400.

(** Days of the months before month [m] (January is 1). *)
Fixpoint days_before_month (y : Z) (m : nat) : Z :=
  match m with
  | O => 0
  | S O => 0
  | S m' => days_before_month y m' + days_in_month y (Z.of_nat m')
  end.

(** Days from 0001-01-01 to the given date, if it is a date. *)
Definition days_of_date (y m d : Z) : option Z :=
  if (1 <=? y) && (y <=? 9999) && (1 <=? m) && (m <=? 12)
     && (1 <=? d) && (d <=? days_in_month y m)
  then Some (days_before_year y + days_before_month y (Z.to_nat m) + (d - 1))
  else None.

Definition time_of_day (h mi s : Z) : option Z :=
  if (h <=? 23) && (mi <=? 59) && (s <=? 59)
  then Some (h * us_per_hour + mi * us_per_minute + s * 1000000)
  else None.

Definition parse_date (l : list ascii) : option (Z * list ascii) :=
  match l with
  | y1 :: y2 :: y3 :: y4 :: s1 :: m1 :: m2 :: s2 :: d1 :: d2 :: rest =>
      if Ascii.eqb s1 "-" && Ascii.eqb s2 "-" then
        match four_digits y1 y2 y3 y4, two_digits m1 m2, two_digits d1 d2 with
        | Some y, Some m, Some d =>
            match days_of_date y m d with
            | Some n => Some (n * us_per_day, rest)
            | None => None
            end
        | _, _, _ => None
        end
      else None
  | _ => None
  end.

Definition parse_hms (l : list ascii) : option (Z * list ascii) :=
  match l with
  | h1 :: h2 :: s1 :: m1 :: m2 :: s2 :: c1 :: c2 :: rest =>
      if Ascii.eqb s1 ":" && Ascii.eqb s2 ":" then
        match two_digits h1 h2, two_digits m1 m2, two_digits c1 c2 with
        | Some h, Some mi, Some s =>
            match time_of_day h mi s with
            | Some t => Some (t, rest)
            | None => None
            end
        | _, _, _ => None
        end
      else None
  | _ => None
  end.

Definition parse_offset (l : list ascii) : option (option Z) :=
  match l with
  | [] => Some None
  | [sg; h1; h2; s1; m1; m2] =>
      if Ascii.eqb s1 ":" then
        match two_digits h1 h2, two_digits m1 m2 with
        | Some h, Some mi =>
            match time_of_day h mi 0 with
            | Some o =>
                if Ascii.eqb sg "+" then Some (Some o)
                else if Ascii.eqb sg "-" then Some (Some (- o))
                else None
            | None => None
            end
        | _, _ => None
        end
      else None
  | _ => None
  end.

Definition scan (s : string) : option datetime :=
  match parse_date (list_ascii_of_string s) with
  | Some (day, []) => Some {| wall := day; utcoffset := None |}
  | Some (day, sep :: rest) =>
      if Ascii.eqb sep "T" then
        match parse_hms rest with
        | Some (t, rest') =>
            match parse_offset rest' with
            | Some off => Some {| wall := day + t; utcoffset := off |}
            | None => None
            end
        | None => None
        end
      else None
  | None => None
  end.

(** Only readings a [datetime] can hold are answered. *)
Definition parse (s : string) : option datetime :=
  match scan s with
  | Some d => if in_range d then Some d else None
  | None => None
  end.

Definition parse_in_range (s : string) (d : datetime) :
  parse s = Some d -> in_range d = true.
Proof.
  unfold parse. destruct (scan s) as [x|]; [|discriminate].
  destruct (in_range x) eqn:E; [|discriminate].
  intros H. inversion H; subst x. exact E.
Defined.

#[export] Instance iso_fragment : IsoParser :=
  {| fromisoformat := parse; fromisoformat_in_range := parse_in_range |}.

(** The part of [int] on strings the examples exercise: decimal digits. *)
Fixpoint digits (acc : Z) (l : list ascii) : option Z :=
  match l with
  | [] => Some acc
  | c :: rest =>
      match digit c with
      | Some n => digits (10 * acc + n) rest
      | None => None
      end
  end.

Definition decimal (s : string) : option Z :=
  match list_ascii_of_string s with
  | [] => None
  | l => digits 0 l
  end.

#[export] Instance decimal_int : IntParser := decimal.

(** [datetime(y, m, d, h, mi)] for a valid date, naive. *)
Definition naive (y m d h mi : Z) : datetime :=
  {| wall := match days_of_date y m d with Some n => n | None => 0 end * us_per_day
             + h * us_per_hour + mi * us_per_minute;
     utcoffset := None |}.

(** The same reading with [tzinfo=timezone.utc]. *)
Definition utc (y m d h mi : Z) : datetime :=
  {| wall := wall (naive y m d h mi); utcoffset := Some 0 |}.

End IsoFragment.

(* ===================================================================== *)
(** * app/models.py                                                        *)
(* ===================================================================== *)

Module Models.

(** A stored row of the [booking] table. *)
Record Booking : Type := mk_booking {
  id : Z;
  booking_ref : string;
  idempotency_key : option string;
  customer_id : option string;
  agent_id : option string;
  calendar_id : string;
  event_id : string;
  service_id : string;
  start : datetime;
  end_ : datetime;
  status : string;
  paid : bool;
  created_at : datetime;
  updated_at : option datetime
}.

(** The datetime columns are [DateTime] columns without time zone: what
    such a column keeps of a value is its wall reading.  (A driver may
    refuse an aware value instead, as asyncpg does; the statement then
    fails, see [Collab.db_fault].) *)
Definition to_column (d : datetime) : datetime :=
  {| wall := wall d; utcoffset := None |}.

(** The row an [INSERT] of [b] leaves in the table. *)
Definition as_stored (b : Booking) : Booking :=
  {| id := id b; booking_ref := booking_ref b; idempotency_key := idempotency_key b;
     customer_id := customer_id b; agent_id := agent_id b;
     calendar_id := calendar_id b; event_id := event_id b;
     service_id := service_id b;
     start := to_column (start b); end_ := to_column (end_ b);
     status := status b; paid := paid b;
     created_at := to_column (created_at b);
     updated_at := option_map to_column (updated_at b) |}.

Definition set_status (s : string) (now : datetime) (b : Booking) : Booking :=
  {| id := id b; booking_ref := booking_ref b; idempotency_key := idempotency_key b;
     customer_id := customer_id b; agent_id := agent_id b;
     calendar_id := calendar_id b; event_id := event_id b;
     service_id := service_id b; start := start b; end_ := end_ b;
     status := s; paid := paid b;
     created_at := created_at b; updated_at := Some now |}.

Definition set_schedule (new_start new_end : datetime) (s : string) (now : datetime)
           (b : Booking) : Booking :=
  {| id := id b; booking_ref := booking_ref b; idempotency_key := idempotency_key b;
     customer_id := customer_id b; agent_id := agent_id b;
     calendar_id := calendar_id b; event_id := event_id b;
     service_id := service_id b; start := new_start; end_ := new_end;
     status := s; paid := paid b;
     created_at := created_at b; updated_at := Some now |}.

(** The attributes an update assigned before its commit: always [status]
    and [updated_at], and [start] and [end] when it is a reschedule. *)
Record Changes : Type := mk_changes {
  new_range : option (datetime * datetime);
  new_status : string;
  new_updated_at : datetime
}.

(** The row an [UPDATE] of these attributes leaves: the other columns are
    not written. *)
Definition written (c : Changes) (b : Booking) : Booking :=
  match new_range c with
  | None => set_status (new_status c) (to_column (new_updated_at c)) b
  | Some (s, e) =>
      set_schedule (to_column s) (to_column e) (new_status c)
                   (to_column (new_updated_at c)) b
  end.

End Models.

Import Models.

(* ===================================================================== *)
(** * The two systems of record and the collaborators                      *)
(* ===================================================================== *)

Module Collab.

(** The part of a created event the handlers read: [evt.get("id")]. *)
Record Event : Type := mk_event { ev_id : option string }.

Inductive DbOp : Type := Select | Commit | Refresh.

(** What a handler did to the outside, in order. *)
Inductive Effect : Type :=
| CalFreebusy (calendar_ids : list string) (time_min time_max : string)
              (raised : option exn)
| CalCreateEvent (calendar_id : string) (event_body : json) (outcome : exn + Event)
| CalUpdateEvent (calendar_id event_id : string) (event_body : json)
                 (raised : option exn)
| CalDeleteEvent (calendar_id : string) (event_id : option string)
                 (raised : option exn)
| Db (op : DbOp) (raised : option exn)
| Log (message : string)
| EmailTask (to_email : option string) (booking_ref : string).

(** The booking table, the sequence behind its primary key, and the
    effects so far (oldest first). *)
Record World : Type := mk_world {
  rows : list Booking;
  next_id : Z;
  trace : list Effect
}.

(** The collaborators.  Each is a function of the [World] at the moment of
    the call, so its behaviour may depend on everything that happened
    before.  [inl e] and [Some e] stand for a raised exception. *)
Record Env : Type := mk_env {
  gcal_freebusy : World -> list string -> string -> string -> exn + json;
  gcal_create_event : World -> string -> json -> exn + Event;
  gcal_update_event : World -> string -> string -> json -> option exn;
  gcal_delete_event : World -> string -> option string -> option exn;
  (** a database statement that fails for a reason of its own: the
      connection, a constraint the model does not track, or a driver that
      refuses a value (asyncpg refuses an aware [datetime] for a column
      without time zone, so there every update of [updated_at] and every
      insert of an aware [start] fails) *)
  db_fault : World -> DbOp -> option exn;
  (** [datetime.utcnow()] / [datetime.now(timezone.utc)], as a wall reading *)
  clock : World -> Z;
  (** [int(datetime.utcnow().timestamp())] *)
  utcnow_timestamp : World -> Z;
  (** [uuid4().hex[:12]] *)
  uuid4_hex12 : World -> string
}.

(** Handlers: state over [World], with exceptions. *)
Definition M (A : Type) : Type := World -> result A * World.

Definition ret {A : Type} (a : A) : M A := fun w => (Ok a, w).

Definition raise {A : Type} (e : exn) : M A := fun w => (Raise e, w).

Definition bind {A B : Type} (m : M A) (k : A -> M B) : M B :=
  fun w =>
    match m w with
    | (Ok a, w') => k a w'
    | (Raise e, w') => (Raise e, w')
    | (Diverge, w') => (Diverge, w')
    end.

(** [try: m  except Exception as e: h e] *)
Definition try_except {A : Type} (m : M A) (h : exn -> M A) : M A :=
  fun w =>
    match m w with
    | (Ok a, w') => (Ok a, w')
    | (Raise e, w') => h e w'
    | (Diverge, w') => (Diverge, w')
    end.

Definition lift {A : Type} (r : result A) : M A := fun w => (r, w).

Definition emit (e : Effect) : M unit :=
  fun w => (Ok tt, {| rows := rows w; next_id := next_id w; trace := trace w ++ [e] |}).

Definition read {A : Type} (f : World -> A) : M A := fun w => (Ok (f w), w).

End Collab.

Import Collab.

Declare Scope io_scope.
Delimit Scope io_scope with io.
Notation "x <- m ;; k" := (Collab.bind m (fun x => k))
  (at level 100, m at next level, right associativity) : io_scope.
Notation "m ;;; k" := (Collab.bind m (fun _ => k))
  (at level 100, right associativity) : io_scope.

(** ** Calls to the calendar service (the [_..._async] helpers) *)

Module Calendar.

Definition freebusy (env : Env) (calendar_ids : list string) (time_min time_max : string)
  : M json :=
  fun w =>
    match gcal_freebusy env w calendar_ids time_min time_max with
    | inr resp => (emit (CalFreebusy calendar_ids time_min time_max None) ;;; ret resp)%io w
    | inl e => (emit (CalFreebusy calendar_ids time_min time_max (Some e)) ;;; raise e)%io w
    end.

Definition create_event (env : Env) (calendar_id : string) (event_body : json) : M Event :=
  fun w =>
    match gcal_create_event env w calendar_id event_body with
    | inr evt => (emit (CalCreateEvent calendar_id event_body (inr evt)) ;;; ret evt)%io w
    | inl e => (emit (CalCreateEvent calendar_id event_body (inl e)) ;;; raise e)%io w
    end.

Definition update_event (env : Env) (calendar_id event_id : string) (event_body : json)
  : M unit :=
  fun w =>
    match gcal_update_event env w calendar_id event_id event_body with
    | None => emit (CalUpdateEvent calendar_id event_id event_body None) w
    | Some e => (emit (CalUpdateEvent calendar_id event_id event_body (Some e)) ;;; raise e)%io w
    end.

Definition delete_event (env : Env) (calendar_id : string) (event_id : option string)
  : M unit :=
  fun w =>
    match gcal_delete_event env w calendar_id event_id with
    | None => emit (CalDeleteEvent calendar_id event_id None) w
    | Some e => (emit (CalDeleteEvent calendar_id event_id (Some e)) ;;; raise e)%io w
    end.

End Calendar.

(* ===================================================================== *)
(** * app/crud.py (bookings)                                               *)
(* ===================================================================== *)

Module Crud.

(** One statement sent to the database: it raises when the environment
    makes it fail. *)
Definition statement (env : Env) (op : DbOp) : M unit :=
  fun w =>
    match db_fault env w op with
    | None => emit (Db op None) w
    | Some e => (emit (Db op (Some e)) ;;; raise e)%io w
    end.

Definition has_ref (booking_ref0 : string) (b : Booking) : bool :=
  String.eqb (booking_ref b) booking_ref0.

Definition has_id (id0 : Z) (b : Booking) : bool := id b =? id0.

(** [select(Booking).where(Booking.booking_ref == booking_ref)], [.first()] *)
Definition get_booking_by_ref (env : Env) (booking_ref0 : string) : M (option Booking) :=
  (statement env Select ;;;
   read (fun w => find (has_ref booking_ref0) (rows w)))%io.

(** [session.refresh(b)]: the row behind the object, as the table holds it. *)
Definition refresh (env : Env) (id0 : Z) : M Booking :=
  (statement env Refresh ;;;
   found <- read (fun w => find (has_id id0) (rows w)) ;;
   match found with
   | Some b => ret b
   | None => raise KeyError
   end)%io.

(** [session.add(b); session.commit()] for a new row.  [booking_ref] is
    unique and [event_id] is not nullable; the datetime columns keep wall
    readings. *)
Definition commit_insert (env : Env) (b : Z -> Booking) (event_id0 : option string)
  : M Z :=
  fun w =>
    match db_fault env w Commit with
    | Some e => (emit (Db Commit (Some e)) ;;; raise e)%io w
    | None =>
        let new := as_stored (b (next_id w)) in
        if existsb (has_ref (booking_ref new)) (rows w)
           || match event_id0 with None => true | Some _ => false end
        then (emit (Db Commit (Some IntegrityError)) ;;; raise IntegrityError)%io w
        else (Ok (next_id w),
              {| rows := rows w ++ [new];
                 next_id := next_id w + 1;
                 trace := trace w ++ [Db Commit None] |})
    end.

(** [session.add(b); session.commit()] for a changed object: an [UPDATE]
    of the assigned columns of the row with the object's primary key; the
    datetime columns keep wall readings. *)
Definition commit_update (env : Env) (id0 : Z) (changes : Changes) : M unit :=
  fun w =>
    match db_fault env w Commit with
    | Some e => (emit (Db Commit (Some e)) ;;; raise e)%io w
    | None =>
        (Ok tt,
         {| rows := map (fun r => if has_id id0 r then written changes r else r) (rows w);
            next_id := next_id w;
            trace := trace w ++ [Db Commit None] |})
    end.

Definition create_booking (env : Env)
           (booking_ref0 : option string) (customer_id0 agent_id0 : option string)
           (calendar_id0 : string) (event_id0 : option string) (service_id0 : string)
           (start0 end0 : datetime) (status0 : string)
           (idempotency_key0 : option string) (paid0 : bool) : M Booking :=
  (ref <- match booking_ref0 with
          | Some r => ret r
          | None => read (fun w => String.append "BK-" (uuid4_hex12 env w))
          end ;;
   created <- read (fun w => {| wall := clock env w; utcoffset := None |}) ;;
   new_id <- commit_insert env
     (fun id0 =>
        {| id := id0; booking_ref := ref; idempotency_key := idempotency_key0;
           customer_id := customer_id0; agent_id := agent_id0;
           calendar_id := calendar_id0;
           event_id := match event_id0 with Some e => e | None => EmptyString end;
           service_id := service_id0; start := start0; end_ := end0;
           status := status0; paid := paid0;
           created_at := created; updated_at := None |})
     event_id0 ;;
   refresh env new_id)%io.

Definition update_booking_status (env : Env) (booking_ref0 : string) (status0 : string)
  : M (option Booking) :=
  (found <- get_booking_by_ref env booking_ref0 ;;
   match found with
   | None => ret None
   | Some b =>
       now <- read (fun w => {| wall := clock env w; utcoffset := Some 0 |}) ;;
       commit_update env (id b)
         {| new_range := None; new_status := status0; new_updated_at := now |} ;;;
       b' <- refresh env (id b) ;;
       ret (Some b')
   end)%io.

Definition reschedule_booking (env : Env) (booking_ref0 : string)
           (new_start new_end : datetime) : M (option Booking) :=
  (found <- get_booking_by_ref env booking_ref0 ;;
   match found with
   | None => ret None
   | Some b =>
       now <- read (fun w => {| wall := clock env w; utcoffset := Some 0 |}) ;;
       commit_update env (id b)
         {| new_range := Some (new_start, new_end); new_status := "rescheduled";
            new_updated_at := now |} ;;;
       b' <- refresh env (id b) ;;
       ret (Some b')
   end)%io.

Definition cancel_booking (env : Env) (booking_ref0 : string) : M (option Booking) :=
  update_booking_status env booking_ref0 "cancelled".

End Crud.

(* ===================================================================== *)
(** * app/db.py (the session provider)                                     *)
(* ===================================================================== *)

Module Db.

(** What stands after [in] in [async for session in ...]: an async
    generator, which has [__aiter__], or the context manager that a
    function decorated with [@asynccontextmanager] returns, which has
    none. *)
Inductive SessionSource : Type :=
| AsyncGenerator
| AsyncContextManager.

(** [get_session] is decorated with [@asynccontextmanager] (lines 104-107):
    a call returns the context manager; nothing of its body runs. *)
Definition get_session : SessionSource := AsyncContextManager.

(** [async for session in source: body], for a body that returns in its
    first round: [TypeError] when the source has no [__aiter__]. *)
Definition async_for {A : Type} (source : SessionSource) (body : M A) : M A :=
  match source with
  | AsyncGenerator => body
  | AsyncContextManager => raise TypeError
  end.

End Db.

Import Db.

(* ===================================================================== *)
(** * app/routers/schedule_routes.py                                       *)
(* ===================================================================== *)

(** The handlers are embedded from the point where the JSON body has been
    read.  Each handler that uses the database reaches the statements that
    do so through [async for session in get_session()]; it is embedded
    with the source of that loop as a parameter ([book_with], ...), and
    then twice: as written, with [get_session] ([book], ...), and as it
    runs once a session is at hand, with an async generator that yields one
    ([book_body], ...).  The scheduling of tasks and the object identity of
    ORM instances are outside the model. *)
Module ScheduleRoutes.

Section Handlers.

Context {parser : IsoParser}.
Context {ints : IntParser}.

(** The body of a response, before [jsonify]. *)
Inductive Body : Type :=
| ErrorBody (error : string) (details : option exn)
| SlotsBody (date : string) (slots : list Slot) (calendarIds : list string)
| BookingBody (booking : option Booking).

(** [_serialize_booking(b)] renders every column; it is kept as the row. *)
Definition _serialize_booking (b : option Booking) : option Booking := b.

Definition Response : Type := (Body * Z)%type.

(** *** /availability *)

(** The fields of the request body; [None] stands for an absent key. *)
Record AvailabilityRequest : Type := mk_request {
  q_date : option string;        (* payload.get("date") *)
  q_duration : option json;      (* payload.get("duration", 30) *)
  q_calendarIds : list string;   (* payload.get("calendarIds", ["primary"]) *)
  q_work_start : option json;    (* payload.get("work_start", 9) *)
  q_work_end : option json       (* payload.get("work_end", 17) *)
}.

(** The same fields after lines 61-65. *)
Record AvailabilityPayload : Type := mk_availability {
  a_date : option string;        (* payload.get("date") *)
  a_duration : Z;                (* int(payload.get("duration", 30)) *)
  a_calendarIds : list string;   (* payload.get("calendarIds", ["primary"]) *)
  a_work_start : Z;              (* int(payload.get("work_start", 9)) *)
  a_work_end : Z                 (* int(payload.get("work_end", 17)) *)
}.

(** Lines 67-81: the handler from the date check on. *)
Definition availability_body (env : Env) (payload : AvailabilityPayload) : M Response :=
  if negb (Py.truthy (a_date payload))
  then ret (ErrorBody "missing date" None, 400)
  else
    let date := str_of (a_date payload) in
    let time_min := String.append date "T00:00:00Z" in
    let time_max := String.append date "T23:59:59Z" in
    Collab.try_except
      (fb <- Calendar.freebusy env (a_calendarIds payload) time_min time_max ;;
       slots <- lift (compute_free_slots_from_freebusy
                        fb date (a_duration payload)
                        (a_work_start payload) (a_work_end payload)) ;;
       ret (SlotsBody date slots (a_calendarIds payload), 200))%io
      (fun e =>
         emit (Log "Freebusy error: %s") ;;;
         ret (ErrorBody "freebusy_failed" (Some e), 500))%io.

(** The handler: the three [int(...)] of lines 62-65 come first, outside
    every [try]. *)
Definition availability (env : Env) (request : AvailabilityRequest) : M Response :=
  (duration <- lift (int_or 30 (q_duration request)) ;;
   work_start <- lift (int_or 9 (q_work_start request)) ;;
   work_end <- lift (int_or 17 (q_work_end request)) ;;
   availability_body env
     {| a_date := q_date request; a_duration := duration;
        a_calendarIds := q_calendarIds request;
        a_work_start := work_start; a_work_end := work_end |})%io.

(** *** /book *)

Record Customer : Type := mk_customer {
  c_customer_id : option string;
  c_name : option string;
  c_email : option string;
  c_phone : option string
}.

Record BookPayload : Type := mk_book {
  p_customer : option Customer;          (* [None]: absent or empty *)
  p_calendar_id : string;                (* payload.get("calendar_id", "primary") *)
  p_start : option string;
  p_end : option string;
  p_service_id : option string;
  p_agent_id : option string;
  p_idempotency_key : option string;
  p_booking_ref : option string;
  p_description : string;                (* payload.get("description", "") *)
  p_paid : bool                          (* bool(payload.get("paid", False)) *)
}.

(** Lines 119-125: [Ok None] when [end_dt <= start_dt]; an exception when a
    time does not parse or the two cannot be ordered. *)
Definition parse_range (start0 end0 : string) : result (option (datetime * datetime)) :=
  (start_dt <- match fromisoformat (replace_Z start0) with
               | Some d => Ok d
               | None => Raise ValueError
               end ;;
   end_dt <- match fromisoformat (replace_Z end0) with
             | Some d => Ok d
             | None => Raise ValueError
             end ;;
   bad <- dt_le end_dt start_dt ;;
   Ok (if bad : bool then None else Some (start_dt, end_dt)))%py.

Definition time_window (start0 end0 : string) : list (string * json) :=
  [("start", JObj [("dateTime", JStr start0); ("timeZone", JStr "UTC")]);
   ("end", JObj [("dateTime", JStr end0); ("timeZone", JStr "UTC")])]%string.

Definition create_event_body (payload : BookPayload) (customer : Customer)
           (service_id0 start0 end0 : string) : json :=
  JObj ([("summary",
          JStr (String.append service_id0
                  (String.append " - "
                     (str_of (or_else (c_name customer)
                                (or_else (c_customer_id customer) (c_email customer)))))));
         ("description", JStr (p_description payload))]%string
        ++ time_window start0 end0
        ++ [("attendees",
             JArr (if Py.truthy (c_email customer)
                   then [JObj [("email", JStr (str_of (c_email customer)))]]
                   else []));
            ("reminders", JObj [("useDefault", JBool true)])]%string).

(** Lines 152-175: persist the booking; on failure delete the event that
    was just created and answer [db_create_failed]. *)
Definition persist_or_compensate (env : Env) (payload : BookPayload) (customer : Customer)
           (service_id0 : string) (start_dt end_dt : datetime) (evt : Event)
           (on_success : Booking -> M Response) : M Response :=
  (saved <- Collab.try_except
       (ref <- read (fun w =>
                 if Py.truthy (p_booking_ref payload)
                 then p_booking_ref payload
                 else Some (String.append "BK-" (str_of_int (utcnow_timestamp env w)))) ;;
        booking <- Crud.create_booking env ref
                     (or_else (c_customer_id customer)
                        (or_else (c_phone customer) (c_email customer)))
                     (p_agent_id payload) (p_calendar_id payload) (ev_id evt)
                     service_id0 start_dt end_dt "confirmed"
                     (p_idempotency_key payload) (p_paid payload) ;;
        ret (inr booking))
       (fun e =>
          emit (Log "DB create booking failed: %s") ;;;
          Collab.try_except
            (Calendar.delete_event env (p_calendar_id payload) (ev_id evt))
            (fun _ => emit (Log "Failed to rollback calendar event after DB failure")) ;;;
          ret (inl (ErrorBody "db_create_failed" (Some e), 500))) ;;
   match saved with
   | inl response => ret response
   | inr booking => on_success booking
   end)%io.

Definition book_with (sessions : SessionSource) (env : Env) (payload : BookPayload)
  : M Response :=
  match p_customer payload with
  | None => ret (ErrorBody "missing_fields" None, 400)
  | Some customer =>
      if negb (Py.truthy (p_start payload)) || negb (Py.truthy (p_end payload))
         || negb (Py.truthy (p_service_id payload))
      then ret (ErrorBody "missing_fields" None, 400)
      else
        let start0 := str_of (p_start payload) in
        let end0 := str_of (p_end payload) in
        let service_id0 := str_of (p_service_id payload) in
        match parse_range start0 end0 with
        | Ok None => ret (ErrorBody "end_must_be_after_start" None, 400)
        | Raise _ | Diverge =>
            ret (ErrorBody
                   "invalid_datetime_format; use ISO format with timezone (RFC3339)"
                   None, 400)
        | Ok (Some (start_dt, end_dt)) =>
            async_for sessions
            (existing <- (if Py.truthy (p_idempotency_key payload)
                          then Crud.get_booking_by_ref env
                                 (str_of (p_idempotency_key payload))
                          else ret None) ;;
             match existing with
             | Some b => ret (BookingBody (_serialize_booking (Some b)), 200)
             | None =>
                 created <- Collab.try_except
                     (evt <- Calendar.create_event env (p_calendar_id payload)
                               (create_event_body payload customer service_id0 start0 end0) ;;
                      ret (inr evt))
                     (fun e =>
                        emit (Log "Google create_event failed: %s") ;;;
                        ret (inl (ErrorBody "calendar_create_failed" (Some e), 500))) ;;
                 match created with
                 | inl response => ret response
                 | inr evt =>
                     persist_or_compensate env payload customer service_id0
                       start_dt end_dt evt
                       (fun booking =>
                          emit (EmailTask (c_email customer) (booking_ref booking)) ;;;
                          ret (BookingBody (_serialize_booking (Some booking)), 200))
                 end
             end)%io
        end
  end.

(** The handler as written, and as it runs once a session is at hand. *)
Definition book : Env -> BookPayload -> M Response := book_with get_session.
Definition book_body : Env -> BookPayload -> M Response := book_with AsyncGenerator.

(** *** /reschedule *)

Record ReschedulePayload : Type := mk_reschedule {
  r_booking_ref : option string;
  r_new_start : option string;
  r_new_end : option string
}.

Definition reschedule_with (sessions : SessionSource) (env : Env)
           (payload : ReschedulePayload) : M Response :=
  if negb (Py.truthy (r_booking_ref payload)) || negb (Py.truthy (r_new_start payload))
     || negb (Py.truthy (r_new_end payload))
  then ret (ErrorBody "booking_ref_new_start_new_end_required" None, 400)
  else
    let booking_ref0 := str_of (r_booking_ref payload) in
    let new_start := str_of (r_new_start payload) in
    let new_end := str_of (r_new_end payload) in
    match parse_range new_start new_end with
    | Ok None => ret (ErrorBody "end_must_be_after_start" None, 400)
    | Raise _ | Diverge => ret (ErrorBody "invalid_datetime_format" None, 400)
    | Ok (Some (new_start_dt, new_end_dt)) =>
        async_for sessions
        (found <- Crud.get_booking_by_ref env booking_ref0 ;;
         match found with
         | None => ret (ErrorBody "booking_not_found" None, 404)
         | Some booking =>
             moved <- Collab.try_except
                 (Calendar.update_event env (calendar_id booking) (event_id booking)
                    (JObj (time_window new_start new_end)) ;;;
                  ret None)
                 (fun e =>
                    emit (Log "Google update_event failed: %s") ;;;
                    ret (Some (ErrorBody "calendar_update_failed" (Some e), 500))) ;;
             match moved with
             | Some response => ret response
             | None =>
                 saved <- Collab.try_except
                     (updated <- Crud.reschedule_booking env booking_ref0
                                   new_start_dt new_end_dt ;;
                      ret (inr updated))
                     (fun e =>
                        emit (Log "DB reschedule failed: %s") ;;;
                        ret (inl (ErrorBody "db_update_failed" (Some e), 500))) ;;
                 match saved with
                 | inl response => ret response
                 | inr None =>
                     (* [updated.booking_ref] on [None] inside the last [try] *)
                     emit (Log "Failed to enqueue reschedule email") ;;;
                     ret (BookingBody (_serialize_booking None), 200)
                 | inr (Some updated) =>
                     emit (EmailTask (Some (str_of (or_else (customer_id booking)
                                                      (Some EmptyString))))
                                     (booking_ref updated)) ;;;
                     ret (BookingBody (_serialize_booking (Some updated)), 200)
                 end
             end
         end)%io
    end.

Definition reschedule : Env -> ReschedulePayload -> M Response :=
  reschedule_with get_session.
Definition reschedule_body : Env -> ReschedulePayload -> M Response :=
  reschedule_with AsyncGenerator.

(** *** /cancel *)

Definition cancel_with (sessions : SessionSource) (env : Env)
           (booking_ref0 : option string) : M Response :=
  if negb (Py.truthy booking_ref0)
  then ret (ErrorBody "booking_ref_required" None, 400)
  else
    let ref := str_of booking_ref0 in
    async_for sessions
    (found <- Crud.get_booking_by_ref env ref ;;
     match found with
     | None => ret (ErrorBody "booking_not_found" None, 404)
     | Some booking =>
         Collab.try_except
           (Calendar.delete_event env (calendar_id booking) (Some (event_id booking)))
           (fun _ =>
              emit (Log "Google delete_event failed; attempting to mark cancelled in DB")) ;;;
         saved <- Collab.try_except
             (cancelled <- Crud.update_booking_status env ref "cancelled" ;;
              ret (inr cancelled))
             (fun e =>
                emit (Log "DB update failed: %s") ;;;
                ret (inl (ErrorBody "db_update_failed" (Some e), 500))) ;;
         match saved with
         | inl response => ret response
         | inr cancelled =>
             emit (EmailTask (Some (str_of (or_else (customer_id booking)
                                              (Some EmptyString))))
                             (booking_ref booking)) ;;;
             ret (BookingBody (_serialize_booking cancelled), 200)
         end
     end)%io.

Definition cancel : Env -> option string -> M Response := cancel_with get_session.
Definition cancel_body : Env -> option string -> M Response :=
  cancel_with AsyncGenerator.

End Handlers.

End ScheduleRoutes.

Import ScheduleRoutes.

(* ===================================================================== *)
(** * Predicates the properties are stated with                            *)
(* ===================================================================== *)

Module Intervals.

(** Both ends of [i] are aware ([k = true]) or both naive ([k = false]):
    the intervals of one list are then mutually comparable instants. *)
Definition same_kind (k : bool) (i : interval) : Prop :=
  is_aware (fst i) = k /\ is_aware (snd i) = k.

Definition lo (i : interval) : Z := utc_key (fst i).
Definition hi (i : interval) : Z := utc_key (snd i).

(** [start < end] *)
Definition proper (i : interval) : Prop := lo i < hi i.

(** [a] lies inside [J]. *)
Definition contains (J a : interval) : Prop := lo J <= lo a /\ hi a <= hi J.

(** [a] ends strictly before [b] starts: disjoint and not touching. *)
Definition before (a b : interval) : Prop := hi a < lo b.

(** [b] starts inside [a] or exactly at its end. *)
Definition touches (a b : interval) : Prop := lo a <= lo b /\ lo b <= hi a.

Definition starts_le (a b : interval) : Prop := lo a <= lo b.

(** ** Slots *)

Definition slot_lo (s : Slot) : Z := utc_key (slot_start s).
Definition slot_hi (s : Slot) : Z := utc_key (slot_end s).

(** [s] ends no later than [s'] starts. *)
Definition slot_before (s s' : Slot) : Prop := slot_hi s <= slot_lo s'.

(** [s] does not overlap the busy interval [J]. *)
Definition clear_of (J : interval) (s : Slot) : Prop :=
  slot_hi s <= lo J \/ hi J <= slot_lo s.

(** [s] is exactly [d] minutes long. *)
Definition lasts (d : Z) (s : Slot) : Prop := slot_end s = plus_minutes (slot_start s) d.

(** [t] is a reading a [datetime] can hold, and so is the reading [d]
    minutes (at least zero) later. *)
Definition roomy (d : Z) (t : datetime) : Prop :=
  0 <= wall t /\ wall t + d * us_per_minute < max_wall.

Definition roomy_interval (d : Z) (i : interval) : Prop :=
  roomy d (fst i) /\ roomy d (snd i).

(** What a slot appended by the packing loop started at [t] looks like. *)
Definition packed (d : Z) (t bound : datetime) (s : Slot) : Prop :=
  lasts d s /\ is_aware (slot_start s) = is_aware t
  /\ utc_key t <= slot_lo s /\ slot_hi s <= utc_key bound.


(** What a slot emitted while walking the busy intervals looks like: it
    starts at or after the cursor, ends at or before the final cursor and
    at or before the start of a busy interval, and overlaps none. *)
Definition walked (d : Z) (merged : list interval) (current current' : datetime)
           (s : Slot) : Prop :=
  lasts d s /\ utc_key current <= slot_lo s /\ slot_hi s <= utc_key current'
  /\ (exists J, In J merged /\ slot_hi s <= lo J)
  /\ Forall (fun J => clear_of J s) merged.


End Intervals.

Import Intervals.

(** ** Busy entries of a free/busy response *)

Module Entries.

Section Entries.

Context {parser : IsoParser}.







End Entries.


End Entries.

Import Entries.

(** ** Effects of one run *)

Module Runs.

(** The effects [m] adds when it is run from [w]. *)
Definition effects_of {A : Type} (m : M A) (w : World) : list Effect :=
  skipn (List.length (trace w)) (trace (snd (m w))).

Definition is_create (e : Effect) : bool :=
  match e with CalCreateEvent _ _ _ => true | _ => false end.

Definition is_delete (e : Effect) : bool :=
  match e with CalDeleteEvent _ _ _ => true | _ => false end.

Definition is_calendar_call (e : Effect) : bool :=
  match e with
  | CalFreebusy _ _ _ _ | CalCreateEvent _ _ _
  | CalUpdateEvent _ _ _ _ | CalDeleteEvent _ _ _ => true
  | _ => false
  end.

Definition is_write (e : Effect) : bool :=
  match e with Db Commit _ => true | _ => false end.

(** No statement fails for a reason of its own. *)
Definition db_healthy (env : Env) : Prop := forall w op, db_fault env w op = None.

(** The sequence of primary keys is ahead of every stored row. *)
Definition fresh_ids (w : World) : Prop := Forall (fun r => id r < next_id w) (rows w).

(** Every column other than [status] and [updated_at] agrees. *)
Definition same_but_status (r r' : Booking) : Prop :=
  id r' = id r /\ booking_ref r' = booking_ref r /\
  idempotency_key r' = idempotency_key r /\ customer_id r' = customer_id r /\
  agent_id r' = agent_id r /\ calendar_id r' = calendar_id r /\
  event_id r' = event_id r /\ service_id r' = service_id r /\
  start r' = start r /\ end_ r' = end_ r /\ paid r' = paid r /\
  created_at r' = created_at r.

(** How a row can differ after [update_booking_status]: not at all, or by
    the new status and [updated_at] when it has the primary key [id0]. *)
Definition status_step (id0 : Z) (s : string) (r r' : Booking) : Prop :=
  r' = r \/ (id r = id0 /\ exists now, r' = set_status s now r).

(** The world after a lookup that the database answered, and what
    [datetime.now(timezone.utc)] reads there. *)
Definition after_select (w : World) : World :=
  {| rows := rows w; next_id := next_id w; trace := trace w ++ [Db Select None] |}.

Definition utc_now (env : Env) (w : World) : datetime :=
  {| wall := clock env w; utcoffset := Some 0 |}.

(** What follows the first effect that satisfies [p]. *)
Fixpoint after_first (p : Effect -> bool) (l : list Effect) : list Effect :=
  match l with
  | [] => []
  | e :: rest => if p e then rest else after_first p rest
  end.

End Runs.

Import Runs.

(** ** Test doubles for the closed examples *)

Module Doubles.

Local Open Scope string_scope.

(** Every calendar call succeeds, no statement fails, and the clock ticks
    with every effect. *)
Definition healthy : Env :=
  {| gcal_freebusy := fun _ _ _ _ => inr (JObj []);
     gcal_create_event :=
       fun w _ _ =>
         inr {| ev_id := Some (String.append "evt-"
                                 (str_of_int (Z.of_nat (List.length (trace w))))) |};
     gcal_update_event := fun _ _ _ _ => None;
     gcal_delete_event := fun _ _ _ => None;
     db_fault := fun _ _ => None;
     clock := fun w => Z.of_nat (List.length (trace w));
     utcnow_timestamp := fun w => 1700000000 + Z.of_nat (List.length (trace w));
     uuid4_hex12 := fun _ => "0123456789ab"%string |}.


Definition with_create_event (answer : exn + Event) (env : Env) : Env :=
  {| gcal_freebusy := gcal_freebusy env;
     gcal_create_event := fun _ _ _ => answer;
     gcal_update_event := gcal_update_event env;
     gcal_delete_event := gcal_delete_event env;
     db_fault := db_fault env; clock := clock env;
     utcnow_timestamp := utcnow_timestamp env; uuid4_hex12 := uuid4_hex12 env |}.

Definition with_update_event (answer : option exn) (env : Env) : Env :=
  {| gcal_freebusy := gcal_freebusy env;
     gcal_create_event := gcal_create_event env;
     gcal_update_event := fun _ _ _ _ => answer;
     gcal_delete_event := gcal_delete_event env;
     db_fault := db_fault env; clock := clock env;
     utcnow_timestamp := utcnow_timestamp env; uuid4_hex12 := uuid4_hex12 env |}.

Definition with_delete_event (answer : option exn) (env : Env) : Env :=
  {| gcal_freebusy := gcal_freebusy env;
     gcal_create_event := gcal_create_event env;
     gcal_update_event := gcal_update_event env;
     gcal_delete_event := fun _ _ _ => answer;
     db_fault := db_fault env; clock := clock env;
     utcnow_timestamp := utcnow_timestamp env; uuid4_hex12 := uuid4_hex12 env |}.

(** The database refuses every commit. *)
Definition with_failing_commit (e : exn) (env : Env) : Env :=
  {| gcal_freebusy := gcal_freebusy env;
     gcal_create_event := gcal_create_event env;
     gcal_update_event := gcal_update_event env;
     gcal_delete_event := gcal_delete_event env;
     db_fault := fun _ op => match op with Commit => Some e | _ => None end;
     clock := clock env;
     utcnow_timestamp := utcnow_timestamp env; uuid4_hex12 := uuid4_hex12 env |}.

Definition empty_world : World := {| rows := []; next_id := 1; trace := [] |}.

(** A free/busy response with one calendar, ["primary"]. *)
Definition entry (start0 end0 : string) : json :=
  JObj [("start", JStr start0); ("end", JStr end0)]%string.

Definition primary_busy (entries : list json) : json :=
  JObj [("calendars", JObj [("primary", JObj [("busy", JArr entries)])])]%string.

Definition day_request (work_start0 work_end0 : Z) : AvailabilityPayload :=
  {| a_date := Some "2025-12-01"%string; a_duration := 30;
     a_calendarIds := ["primary"%string];
     a_work_start := work_start0; a_work_end := work_end0 |}.


Definition alice : Customer :=
  {| c_customer_id := Some "cust-1"%string; c_name := Some "Alice"%string;
     c_email := Some "alice@example.com"%string; c_phone := None |}.

(** A booking request for 10:00-10:30 UTC. *)
Definition book_request (idempotency_key0 booking_ref0 : option string) : BookPayload :=
  {| p_customer := Some alice; p_calendar_id := "primary"%string;
     p_start := Some "2025-12-01T10:00:00Z"%string;
     p_end := Some "2025-12-01T10:30:00Z"%string;
     p_service_id := Some "Consultation"%string; p_agent_id := None;
     p_idempotency_key := idempotency_key0; p_booking_ref := booking_ref0;
     p_description := EmptyString; p_paid := false |}.

(** A stored booking with the given reference and status; its times are
    wall readings, as the table holds them. *)
Definition stored (id0 : Z) (booking_ref0 status0 : string) : Booking :=
  {| id := id0; booking_ref := booking_ref0; idempotency_key := None;
     customer_id := Some "cust-1"%string; agent_id := None;
     calendar_id := "primary"%string; event_id := "evt-0"%string;
     service_id := "Consultation"%string;
     start := IsoFragment.naive 2025 12 1 10 0;
     end_ := IsoFragment.naive 2025 12 1 10 30;
     status := status0; paid := false;
     created_at := IsoFragment.naive 2025 11 30 8 0; updated_at := None |}.

Definition world_with (bookings : list Booking) : World :=
  {| rows := bookings; next_id := 100; trace := [] |}.

Definition timeout : exn := RemoteError "timeout".

(** One booking, [BK-1], already cancelled. *)
Definition cancelled_world : World := world_with [stored 1 "BK-1" "cancelled"].

(** One booking, [BK-1], confirmed. *)
Definition confirmed_world : World := world_with [stored 1 "BK-1" "confirmed"].

(** Requests: with an idempotency key that is also the booking reference,
    with an idempotency key only, and with neither. *)
Definition replay_request : BookPayload := book_request (Some "key-1") (Some "key-1").
Definition plain_request : BookPayload := book_request None None.

Definition move_request : ReschedulePayload :=
  {| r_booking_ref := Some "BK-1"; r_new_start := Some "2025-12-02T10:00:00Z";
     r_new_end := Some "2025-12-02T10:30:00Z" |}.

(** The database refuses the insert and the calendar refuses the delete. *)
Definition connection_lost : exn := RemoteError "connection lost".
Definition database_down : Env :=
  with_failing_commit connection_lost (with_delete_event (Some timeout) healthy).

(** Two touching busy intervals, 09:00-09:30 and 09:30-10:00, given out of
    order. *)
Definition touching_busy : list interval :=
  [(IsoFragment.naive 2025 12 1 9 30, IsoFragment.naive 2025 12 1 10 0);
   (IsoFragment.naive 2025 12 1 9 0, IsoFragment.naive 2025 12 1 9 30)].

End Doubles.

(** ** Instants and tilings *)

Module Tiling.

(** The instant [x] lies in one of the intervals. *)
Definition covered (busy : list interval) (x : Z) : Prop :=
  exists a, In a busy /\ lo a <= x /\ x <= hi a.

(** The [i]-th of the back-to-back slots of [d] minutes that start at [t]. *)
Definition tile (d : Z) (t : datetime) (i : nat) : Slot :=
  mk_slot (plus_minutes t (Z.of_nat i * d)) (plus_minutes t ((Z.of_nat i + 1) * d)).

End Tiling.

Import Tiling.

(** ** The read-only booking queries *)

(** [crud.list_bookings_for_customer] and the two [GET] handlers of
    [schedule_routes.py], embedded like the other handlers.  The
    comparison [Booking.end >= now] and the [ORDER BY start] are evaluated
    by the database; they are parameters. *)
Module Queries.

Section Queries.

(** How the database evaluates [Booking.end >= now]. *)
Variable sql_ge : datetime -> datetime -> bool.

(** How the database orders rows for [ORDER BY start]. *)
Variable sql_order_by_start : list Booking -> list Booking.

(** [Booking.customer_id == customer_id]: a [NULL] column matches nothing. *)
Definition of_customer (customer_id0 : string) (b : Booking) : bool :=
  match customer_id b with
  | Some c => String.eqb c customer_id0
  | None => false
  end.

Definition list_bookings_for_customer (env : Env) (customer_id0 : string)
           (upcoming_only : bool) : M (list Booking) :=
  (now <- read (fun w => {| wall := clock env w; utcoffset := Some 0 |}) ;;
   Crud.statement env Select ;;;
   read (fun w =>
           sql_order_by_start
             (filter (fun b => of_customer customer_id0 b
                               && (if upcoming_only then sql_ge (end_ b) now else true))
                     (rows w))))%io.

(** The bodies of the two read-only answers, before [jsonify]. *)
Inductive ReadBody : Type :=
| OneBooking (booking : option Booking)
| ManyBookings (customer_id : string) (count : nat) (bookings : list (option Booking))
| ReadError (error : string).

(** [GET /bookings/<customer_id>]; [upcoming_only] is
    [request.args.get("upcoming_only", "true").lower() != "false"]. *)
Definition list_bookings_with (sessions : SessionSource) (env : Env)
           (customer_id0 : string) (upcoming_only : bool) : M (ReadBody * Z) :=
  async_for sessions
  (Collab.try_except
    (bookings <- list_bookings_for_customer env customer_id0 upcoming_only ;;
     let results := map (fun b => _serialize_booking (Some b)) bookings in
     ret (ManyBookings customer_id0 (List.length results) results, 200))%io
    (fun _ =>
       emit (Log "Failed listing bookings for customer %s: %s") ;;;
       ret (ReadError "internal_error", 500))%io).

Definition list_bookings : Env -> string -> bool -> M (ReadBody * Z) :=
  list_bookings_with get_session.
Definition list_bookings_body : Env -> string -> bool -> M (ReadBody * Z) :=
  list_bookings_with AsyncGenerator.

(** [GET /booking/<booking_ref>] *)
Definition get_booking_with (sessions : SessionSource) (env : Env)
           (booking_ref0 : string) : M (ReadBody * Z) :=
  async_for sessions
  (found <- Crud.get_booking_by_ref env booking_ref0 ;;
   match found with
   | None => ret (ReadError "not_found", 404)
   | Some b => ret (OneBooking (_serialize_booking (Some b)), 200)
   end)%io.

Definition get_booking : Env -> string -> M (ReadBody * Z) :=
  get_booking_with get_session.
Definition get_booking_body : Env -> string -> M (ReadBody * Z) :=
  get_booking_with AsyncGenerator.

End Queries.

End Queries.

Import Queries.

(** ** Shapes of a run *)

Module Shapes.

(** [start < end], as Python orders the two. *)
Definition valid_range (b : Booking) : Prop :=
  is_aware (start b) = is_aware (end_ b) /\ utc_key (start b) < utc_key (end_ b).

(** [booking_ref] is unique in the table. *)
Definition unique_refs (w : World) : Prop := NoDup (map booking_ref (rows w)).

(** The effects before the first one that satisfies [p]. *)
Fixpoint before_first (p : Effect -> bool) (l : list Effect) : list Effect :=
  match l with
  | [] => []
  | e :: rest => if p e then [] else e :: before_first p rest
  end.

Definition ok_create (e : Effect) : bool :=
  match e with CalCreateEvent _ _ (inr _) => true | _ => false end.

Definition ok_update (e : Effect) : bool :=
  match e with CalUpdateEvent _ _ _ None => true | _ => false end.

(** Columns that no handler changes once a row is stored. *)
Definition same_identity (r r' : Booking) : Prop :=
  id r' = id r /\ booking_ref r' = booking_ref r /\
  idempotency_key r' = idempotency_key r /\ customer_id r' = customer_id r /\
  agent_id r' = agent_id r /\ calendar_id r' = calendar_id r /\
  event_id r' = event_id r /\ service_id r' = service_id r /\
  paid r' = paid r /\ created_at r' = created_at r.

(** [l'] is [l], row by row with the same identity, followed by at most
    one new row. *)
Definition grown (l l' : list Booking) : Prop :=
  exists kept added,
    l' = kept ++ added /\ Forall2 same_identity l kept /\ (List.length added <= 1)%nat.

End Shapes.

Import Shapes.


(** ** Free/busy responses without busy time *)

Module Responses.

(** A calendar that reports no busy entry: its ["busy"] list is empty or
    absent. *)
Definition idle_calendar (cal_data : json) : bool :=
  match cal_data with
  | JObj fields =>
      match Json.lookup "busy" fields with
      | None | Some (JArr []) => true
      | Some _ => false
      end
  | _ => false
  end.

(** A response in which no calendar reports a busy entry, or that has no
    ["calendars"] at all. *)
Definition idle (freebusy_resp : json) : bool :=
  match freebusy_resp with
  | JObj fields =>
      match Json.lookup "calendars" fields with
      | None => true
      | Some (JObj calendars) => forallb (fun kv => idle_calendar (snd kv)) calendars
      | Some _ => false
      end
  | _ => false
  end.

End Responses.

Import Responses.

(** ** More test doubles *)

Module Cases.

Local Open Scope string_scope.

(** Two calendars without busy time. *)
Definition idle_response : json :=
  JObj [("kind", JStr "calendar#freeBusy");
        ("calendars", JObj [("primary", JObj [("busy", JArr [])]);
                            ("team", JObj [])])].

(** One busy hour with a UTC designator, as the calendar service sends it. *)
Definition utc_response : json :=
  Doubles.primary_busy [Doubles.entry "2025-12-01T12:00:00Z" "2025-12-01T13:00:00Z"].

Definition utc_busy : list interval :=
  [(IsoFragment.utc 2025 12 1 12 0, IsoFragment.utc 2025 12 1 13 0)].

Definition midnight : datetime := IsoFragment.naive 2025 12 1 0 0.

End Cases.

(** ** A first booking and what it leaves behind *)

Module Booked.

Local Open Scope string_scope.

(** The booking that one create on an empty table stores. *)
Definition booking : Booking :=
  Eval vm_compute in
    match fst (@book_body IsoFragment.iso_fragment Doubles.healthy Doubles.plain_request
                 Doubles.empty_world) with
    | Ok (BookingBody (Some b), _) => b
    | _ => Doubles.stored 0 "" ""
    end.

(** A booking stored through [create_booking] alone. *)
Definition direct_run : M Booking :=
  Crud.create_booking Doubles.healthy (Some "BK-7") (Some "cust-1") None "primary"
    (Some "evt-7") "Consultation" (IsoFragment.naive 2025 12 1 10 0)
    (IsoFragment.naive 2025 12 1 10 30) "confirmed" None false.

Definition direct : Booking :=
  Eval vm_compute in
    match fst (direct_run Doubles.empty_world) with
    | Ok b => b
    | _ => Doubles.stored 0 "" ""
    end.

(** The booking that the reschedule of [BK-1] answers with. *)
Definition moved : Booking :=
  Eval vm_compute in
    match fst (@reschedule_body IsoFragment.iso_fragment Doubles.healthy
                 Doubles.move_request Doubles.confirmed_world) with
    | Ok (BookingBody (Some b), _) => b
    | _ => Doubles.stored 0 "" ""
    end.

(** A request without a start time, and a reschedule without a reference. *)
Definition no_start_request : BookPayload :=
  {| p_customer := Some Doubles.alice; p_calendar_id := "primary";
     p_start := None; p_end := Some "2025-12-01T10:30:00Z";
     p_service_id := Some "Consultation"; p_agent_id := None;
     p_idempotency_key := None; p_booking_ref := None;
     p_description := EmptyString; p_paid := false |}.

(** A request from 10:00 at UTC+5 to 09:00 UTC: four hours. *)
Definition mixed_request : BookPayload :=
  {| p_customer := Some Doubles.alice; p_calendar_id := "primary";
     p_start := Some "2025-12-01T10:00:00+05:00";
     p_end := Some "2025-12-01T09:00:00Z";
     p_service_id := Some "Consultation"; p_agent_id := None;
     p_idempotency_key := None; p_booking_ref := None;
     p_description := EmptyString; p_paid := false |}.

Definition no_ref_move : ReschedulePayload :=
  {| r_booking_ref := None; r_new_start := Some "2025-12-02T10:00:00Z";
     r_new_end := Some "2025-12-02T10:30:00Z" |}.

(** The database refuses every statement. *)
Definition unreachable : Env :=
  {| gcal_freebusy := gcal_freebusy Doubles.healthy;
     gcal_create_event := gcal_create_event Doubles.healthy;
     gcal_update_event := gcal_update_event Doubles.healthy;
     gcal_delete_event := gcal_delete_event Doubles.healthy;
     db_fault := fun _ _ => Some Doubles.connection_lost;
     clock := clock Doubles.healthy;
     utcnow_timestamp := utcnow_timestamp Doubles.healthy;
     uuid4_hex12 := uuid4_hex12 Doubles.healthy |}.

(** [Booking.end >= now] on instants, and an [ORDER BY start] that is a
    stable insertion sort. *)
Definition ends_at_or_after (a b : datetime) : bool := (utc_key b <=? utc_key a)%Z.

Fixpoint insert_by_start (b : Booking) (l : list Booking) : list Booking :=
  match l with
  | [] => [b]
  | x :: rest =>
      if (utc_key (start x) <=? utc_key (start b))%Z then x :: insert_by_start b rest
      else b :: l
  end.

Fixpoint order_by_start (l : list Booking) : list Booking :=
  match l with
  | [] => []
  | b :: rest => insert_by_start b (order_by_start rest)
  end.

End Booked.
(* ===================================================================== *)
(** * Properties                                                          *)
(* ===================================================================== *)

(** ** Effects of a run, and tactics that run the monadic code *)

Lemma skipn_own_length {A : Type} (l new : list A) :
  skipn (List.length l) (l ++ new) = new.
Proof. rewrite skipn_app, skipn_all, Nat.sub_diag. reflexivity. Qed.

Ltac run_crud :=
  unfold Crud.cancel_booking, Crud.update_booking_status, Crud.reschedule_booking,
    Crud.get_booking_by_ref, Crud.refresh, Crud.commit_update, Crud.statement,
    Collab.bind, Collab.try_except, emit, raise, ret, read, lift, written;
  cbn [fst snd rows trace next_id new_range new_status new_updated_at].

Ltac case_fault :=
  match goal with
  | |- context [db_fault ?env ?w ?op] => destruct (db_fault env w op) eqn:?
  end; cbn [fst snd rows trace next_id].

Ltac run_io :=
  unfold book_body, reschedule_body, cancel_body, book_with, reschedule_with,
    cancel_with, async_for, persist_or_compensate,
    Crud.create_booking, Crud.commit_insert,
    Crud.cancel_booking, Crud.update_booking_status, Crud.reschedule_booking,
    Crud.get_booking_by_ref, Crud.refresh, Crud.commit_update, Crud.statement,
    Calendar.create_event, Calendar.update_event, Calendar.delete_event,
    Collab.bind, Collab.try_except, emit, raise, ret, read, lift, _serialize_booking,
    written;
  cbn [fst snd rows trace next_id new_range new_status new_updated_at].

(** One case distinction on the next thing the run depends on. *)
Ltac case_step :=
  match goal with
  | |- context [p_customer ?p] => destruct (p_customer p) eqn:?
  | |- context [parse_range ?a ?b] => destruct (parse_range a b) as [[[? ?]|]| |] eqn:?
  | |- context [db_fault ?env ?w ?op] => destruct (db_fault env w op) eqn:?
  | |- context [gcal_create_event ?env ?w ?c ?b] =>
      destruct (gcal_create_event env w c b) eqn:?
  | |- context [gcal_update_event ?env ?w ?c ?i ?b] =>
      destruct (gcal_update_event env w c i b) eqn:?
  | |- context [gcal_delete_event ?env ?w ?c ?i] =>
      destruct (gcal_delete_event env w c i) eqn:?
  | |- context [find ?p ?l] => destruct (find p l) eqn:?
  | |- context [if ?c then _ else _] => destruct c eqn:?
  | |- context [match ?x with Some _ => _ | None => _ end] => destruct x eqn:?
  end; cbn [fst snd rows trace next_id].

(** The effects of a run, as a list. *)
Ltac show_effects :=
  cbn [fst snd rows trace next_id];
  rewrite <- ?app_assoc; cbn [app];
  rewrite ?skipn_own_length, ?skipn_all.

(** Decide a hypothesis [In e l] on a list that is written out. *)
Ltac split_in H :=
  cbn [In] in H;
  repeat match type of H with
         | _ \/ _ => destruct H as [H|H]
         end;
  try discriminate H; try contradiction.

(** ** Lists that are read and written at their end *)

Lemma last_of_snoc (init : list interval) (x : interval) :
  last_of (init ++ [x]) = Some x.
Proof. unfold last_of. now rewrite rev_unit. Qed.

Lemma set_last_snoc (init : list interval) (x v : interval) :
  set_last (init ++ [x]) v = init ++ [v].
Proof. unfold set_last. now rewrite removelast_last. Qed.

Lemma StronglySorted_snoc {A : Type} (R : A -> A -> Prop) (l : list A) (x : A) :
  StronglySorted R l -> Forall (fun y => R y x) l -> StronglySorted R (l ++ [x]).
Proof.
  induction l as [|y l IH]; simpl; intros Hs Hf.
  - repeat constructor.
  - inversion Hs; subst. inversion Hf; subst. constructor; auto.
    apply Forall_app. split; auto.
Qed.

Lemma StronglySorted_snoc_inv {A : Type} (R : A -> A -> Prop) (l : list A) (x : A) :
  StronglySorted R (l ++ [x]) -> StronglySorted R l /\ Forall (fun y => R y x) l.
Proof.
  induction l as [|y l IH]; simpl; intros Hs.
  - split; constructor.
  - inversion Hs as [|? ? Hs' Hf]; subst. destruct (IH Hs') as [H1 H2].
    apply Forall_app in Hf. destruct Hf as [Hf1 Hf2]. inversion Hf2; subst.
    split; constructor; auto.
Qed.

(** In a strongly sorted list two members are equal or related one way. *)
Lemma StronglySorted_In {A : Type} (R : A -> A -> Prop) (l : list A) (x y : A) :
  StronglySorted R l -> In x l -> In y l -> x = y \/ R x y \/ R y x.
Proof.
  induction 1 as [|z l Hs IH Hf]; simpl; [tauto|].
  rewrite Forall_forall in Hf.
  intros [Hx|Hx] [Hy|Hy]; subst; auto.
Qed.

(** ** Comparisons of values of one kind *)

Lemma comparable_same (k : bool) (a b : datetime) :
  is_aware a = k -> is_aware b = k -> comparable a b = true.
Proof. unfold comparable. intros Ha Hb. rewrite Ha, Hb. apply eqb_reflx. Qed.

Lemma dt_le_same (k : bool) (a b : datetime) :
  is_aware a = k -> is_aware b = k -> dt_le a b = Ok (utc_key a <=? utc_key b).
Proof. intros Ha Hb. unfold dt_le. now rewrite (comparable_same k). Qed.

Lemma dt_gt_same (k : bool) (a b : datetime) :
  is_aware a = k -> is_aware b = k -> dt_gt a b = Ok (utc_key b <? utc_key a).
Proof. intros Ha Hb. unfold dt_gt. now rewrite (comparable_same k). Qed.

Lemma dt_max_same (k : bool) (a b : datetime) :
  is_aware a = k -> is_aware b = k ->
  dt_max a b = Ok (if utc_key a <? utc_key b then b else a).
Proof. intros Ha Hb. unfold dt_max. now rewrite (dt_gt_same k). Qed.

(** ** The sort *)

Lemma sort_insert_perm (x : interval) (l : list interval) :
  Permutation (sort_insert x l) (x :: l).
Proof.
  induction l as [|y l IH]; simpl; auto.
  destruct (utc_key (fst y) <? utc_key (fst x)); auto.
  rewrite IH. apply perm_swap.
Qed.

Lemma stable_sort_perm (l : list interval) : Permutation (stable_sort l) l.
Proof.
  induction l as [|x l IH]; simpl; auto.
  rewrite sort_insert_perm. now constructor.
Qed.

Lemma sort_insert_sorted (x : interval) (l : list interval) :
  StronglySorted starts_le l -> StronglySorted starts_le (sort_insert x l).
Proof.
  induction 1 as [|y l Hs IH Hf]; simpl.
  - repeat constructor.
  - destruct (utc_key (fst y) <? utc_key (fst x)) eqn:E.
    + apply Z.ltb_lt in E. constructor; auto.
      eapply Permutation_Forall; [symmetry; apply sort_insert_perm|].
      constructor; auto. unfold starts_le, lo. lia.
    + apply Z.ltb_ge in E. constructor; [constructor; auto|].
      constructor; [exact E|].
      eapply Forall_impl; [|exact Hf]. unfold starts_le, lo. intros; lia.
Qed.

Lemma stable_sort_sorted (l : list interval) : StronglySorted starts_le (stable_sort l).
Proof.
  induction l as [|x l IH]; simpl; [constructor|].
  now apply sort_insert_sorted.
Qed.

Lemma sort_by_start_same (k : bool) (l : list interval) :
  Forall (same_kind k) l -> sort_by_start l = Ok (stable_sort l).
Proof.
  intros Hk. unfold sort_by_start.
  replace (keys_comparable l) with true; auto.
  symmetry. destruct l as [|x l]; simpl; auto.
  apply Forall_cons_iff in Hk. destruct Hk as [[Hx _] Hl].
  apply forallb_forall. intros y Hy.
  rewrite Forall_forall in Hl. destruct (Hl y Hy) as [Hy1 _].
  now apply (comparable_same k).
Qed.

(** ** The merge loop *)

Lemma contains_refl (a : interval) : contains a a.
Proof. unfold contains. lia. Qed.

Lemma contains_trans (a b c : interval) : contains a b -> contains b c -> contains a c.
Proof. unfold contains. lia. Qed.

Lemma Forall_snoc {A : Type} (P : A -> Prop) (l : list A) (x : A) :
  Forall P (l ++ [x]) <-> Forall P l /\ P x.
Proof.
  rewrite Forall_app. split; intros [H1 H2]; split; auto.
  now inversion H2.
Qed.

(** The loop invariant: [merged = init ++ [last]] is separated, and every
    interval still to come starts at or after the start of [last]. *)
Lemma merge_loop_snoc (k : bool) :
  forall (rest init : list interval) (last : interval),
    Forall (same_kind k) (init ++ [last]) -> Forall (same_kind k) rest ->
    Forall proper (init ++ [last]) -> Forall proper rest ->
    StronglySorted before (init ++ [last]) ->
    StronglySorted starts_le rest ->
    Forall (starts_le last) rest ->
    exists out,
      merge_loop (init ++ [last]) rest = Ok out /\
      Forall (same_kind k) out /\ Forall proper out /\ StronglySorted before out /\
      (forall a, In a (init ++ [last]) \/ In a rest ->
                 exists J, In J out /\ contains J a) /\
      (forall J, In J out ->
                 (exists a, (In a (init ++ [last]) \/ In a rest) /\ fst a = fst J) /\
                 (exists b, (In b (init ++ [last]) \/ In b rest) /\ snd b = snd J)).
Proof.
  induction rest as [|i rest IH]; intros init last Hk Hkr Hp Hpr Hs Hsr Hle.
  - exists (init ++ [last]). cbn. repeat split; auto.
    + intros a [Ha|[]]. exists a. split; auto using contains_refl.
    + exists J; auto.
    + exists J; auto.
  - cbn [merge_loop]. rewrite last_of_snoc.
    apply Forall_snoc in Hk. destruct Hk as [Hki [Hk1 Hk2]].
    apply Forall_cons_iff in Hkr. destruct Hkr as [[Hi1 Hi2] Hkr].
    apply Forall_snoc in Hp. destruct Hp as [Hpi Hpl].
    apply Forall_cons_iff in Hpr. destruct Hpr as [Hpi' Hpr].
    apply StronglySorted_snoc_inv in Hs. destruct Hs as [Hsi Hbl].
    apply StronglySorted_inv in Hsr. destruct Hsr as [Hsr' Hir].
    apply Forall_cons_iff in Hle. destruct Hle as [Hli Hle].
    rewrite (dt_le_same k) by assumption. cbn [Py.bind].
    destruct (utc_key (fst i) <=? utc_key (snd last)) eqn:E.
    + (* overlap: the last interval is extended *)
      apply Z.leb_le in E.
      rewrite (dt_max_same k) by assumption. cbn [Py.bind].
      rewrite set_last_snoc.
      remember (if utc_key (snd last) <? utc_key (snd i) then snd i else snd last)
        as hi' eqn:Ehi'.
      assert (Hhi : utc_key (snd last) <= utc_key hi' /\ utc_key (snd i) <= utc_key hi').
      { rewrite Ehi'. destruct (utc_key (snd last) <? utc_key (snd i)) eqn:E'.
        - apply Z.ltb_lt in E'. lia.
        - apply Z.ltb_ge in E'. lia. }
      assert (Hak : is_aware hi' = k).
      { rewrite Ehi'. destruct (utc_key (snd last) <? utc_key (snd i)); assumption. }
      destruct (IH init (fst last, hi')) as (out & Hout & Hko & Hpo & Hso & Hcov & Hend).
      * apply Forall_snoc. split; auto. split; assumption.
      * assumption.
      * apply Forall_snoc. split; auto. unfold proper, lo, hi in *. cbn [fst snd] in *. lia.
      * assumption.
      * apply StronglySorted_snoc; auto.
      * assumption.
      * eapply Forall_impl; [|exact Hle]. unfold starts_le, lo. cbn [fst snd]. auto.
      * exists out. split; [exact Hout|]. repeat split; auto.
        -- intros a Ha.
           assert (Hlast : exists J, In J out /\ contains J (fst last, hi')).
           { apply Hcov. left. apply in_or_app. right. now left. }
           destruct Ha as [Ha|[Ha|Ha]].
           ++ apply in_app_or in Ha. destruct Ha as [Ha|[Ha|[]]].
              ** apply Hcov. left. apply in_or_app. now left.
              ** subst a. destruct Hlast as (J & HJ & Hc). exists J. split; auto.
                 eapply contains_trans; [exact Hc|].
                 unfold contains, lo, hi. cbn [fst snd] in *. lia.
           ++ subst a. destruct Hlast as (J & HJ & Hc). exists J. split; auto.
              eapply contains_trans; [exact Hc|].
              unfold starts_le, contains, lo, hi in *. cbn [fst snd] in *. lia.
           ++ apply Hcov. now right.
        -- destruct (Hend J H) as [(a & Ha & Hfa) _].
           destruct Ha as [Ha|Ha].
           ++ apply in_app_or in Ha. destruct Ha as [Ha|[Ha|[]]].
              ** exists a. split; auto. left. apply in_or_app. now left.
              ** subst a. exists last. split; auto. left. apply in_or_app. right. now left.
           ++ exists a. split; auto. right. now right.
        -- destruct (Hend J H) as [_ (b & Hb & Hfb)].
           destruct Hb as [Hb|Hb].
           ++ apply in_app_or in Hb. destruct Hb as [Hb|[Hb|[]]].
              ** exists b. split; auto. left. apply in_or_app. now left.
              ** subst b. cbn [fst snd] in Hfb. rewrite Ehi' in Hfb.
                 destruct (utc_key (snd last) <? utc_key (snd i)).
                 --- exists i. split; auto. right. now left.
                 --- exists last. split; auto. left. apply in_or_app. right. now left.
           ++ exists b. split; auto. right. now right.
    + (* no overlap: a new interval is opened *)
      apply Z.leb_gt in E.
      destruct (IH (init ++ [last]) i) as (out & Hout & Hko & Hpo & Hso & Hcov & Hend).
      * apply Forall_snoc. split; [apply Forall_snoc; split; auto; split; assumption|].
        split; assumption.
      * assumption.
      * apply Forall_snoc. split; [apply Forall_snoc; split; auto|]. assumption.
      * assumption.
      * apply StronglySorted_snoc.
        -- apply StronglySorted_snoc; auto.
        -- apply Forall_snoc. split.
           ++ eapply Forall_impl; [|exact Hbl]. unfold before, proper, lo, hi in *.
              intros; lia.
           ++ unfold before, lo, hi. lia.
      * assumption.
      * assumption.
      * exists out. split; [exact Hout|]. repeat split; auto.
        -- intros a [Ha|[Ha|Ha]].
           ++ apply Hcov. left. apply in_or_app. now left.
           ++ subst a. apply Hcov. left. apply in_or_app. right. now left.
           ++ apply Hcov. now right.
        -- destruct (Hend J H) as [(a & Ha & Hfa) _]. exists a. split; auto.
           destruct Ha as [Ha|Ha].
           ++ apply in_app_or in Ha. destruct Ha as [Ha|[Ha|[]]]; [now left|].
              subst a. right. now left.
           ++ right. now right.
        -- destruct (Hend J H) as [_ (b & Hb & Hfb)]. exists b. split; auto.
           destruct Hb as [Hb|Hb].
           ++ apply in_app_or in Hb. destruct Hb as [Hb|[Hb|[]]]; [now left|].
              subst b. right. now left.
           ++ right. now right.
Qed.

Lemma StronglySorted_weaken {A : Type} (P : A -> Prop) (R R' : A -> A -> Prop) (l : list A) :
  (forall a b, P a -> R a b -> R' a b) ->
  Forall P l -> StronglySorted R l -> StronglySorted R' l.
Proof.
  intros HR Hp Hs. induction Hs as [|x l Hs IH Hf]; constructor.
  - apply IH. now inversion Hp.
  - apply Forall_cons_iff in Hp. destruct Hp as [Hx _].
    eapply Forall_impl; [|exact Hf]. intros b. now apply HR.
Qed.

(** Two separated members of a merged list cannot hold the same proper
    interval. *)
Lemma contains_unique (merged : list interval) (a J J' : interval) :
  StronglySorted before merged -> proper a ->
  In J merged -> In J' merged -> contains J a -> contains J' a -> J = J'.
Proof.
  intros Hs Hp HJ HJ' Hc Hc'.
  destruct (StronglySorted_In before merged J J' Hs HJ HJ') as [E|[E|E]]; auto;
    exfalso; unfold before, contains, proper in *; lia.
Qed.

(** C5. Merge correctness: for every finite collection of busy intervals
    with [start < end] (instants of one kind), the merger returns a list
    that is sorted ascending by start and pairwise disjoint (every interval
    ends strictly before the next one starts); every input interval lies in
    exactly one output interval; two input intervals that overlap or touch
    lie in the same output interval; and every output interval runs from the
    least start to the greatest end of the input intervals it holds. *)
Theorem merge_busy_correct (k : bool) (busy : list interval) :
  Forall (same_kind k) busy -> Forall proper busy ->
  exists merged,
    merge_busy busy = Ok merged /\
    StronglySorted (fun a b => lo a < lo b) merged /\
    StronglySorted before merged /\
    (forall a, In a busy -> exists! J, In J merged /\ contains J a) /\
    (forall a b, In a busy -> In b busy -> touches a b ->
                 exists J, In J merged /\ contains J a /\ contains J b) /\
    (forall J, In J merged ->
               (exists a, In a busy /\ contains J a /\ lo a = lo J) /\
               (exists b, In b busy /\ contains J b /\ hi b = hi J)).
Proof.
  intros Hk Hp.
  assert (Hperm := stable_sort_perm busy).
  assert (Hsorted := stable_sort_sorted busy).
  assert (Hk' : Forall (same_kind k) (stable_sort busy))
    by (eapply Permutation_Forall; [symmetry; exact Hperm|exact Hk]).
  assert (Hp' : Forall proper (stable_sort busy))
    by (eapply Permutation_Forall; [symmetry; exact Hperm|exact Hp]).
  unfold merge_busy. rewrite (sort_by_start_same k) by assumption. cbn [Py.bind].
  destruct (stable_sort busy) as [|x rest] eqn:Es.
  - apply Permutation_nil in Hperm. subst busy.
    exists []. cbn. repeat split; try constructor; intros; contradiction.
  - cbn [merge_loop last_of rev].
    apply Forall_cons_iff in Hk'. destruct Hk' as [Hkx Hkr].
    apply Forall_cons_iff in Hp'. destruct Hp' as [Hpx Hpr].
    apply StronglySorted_inv in Hsorted. destruct Hsorted as [Hsr Hxr].
    destruct (merge_loop_snoc k rest [] x) as (out & Hout & Hko & Hpo & Hso & Hcov & Hend);
      [now constructor|assumption|now constructor|assumption
      |repeat constructor|assumption|assumption|].
    assert (Hin : forall a, In a busy -> In a ([] ++ [x]) \/ In a rest).
    { intros a Ha. apply (Permutation_in a (Permutation_sym Hperm)) in Ha.
      destruct Ha as [Ha|Ha]; [left; now left|now right]. }
    assert (Hback : forall a, In a ([] ++ [x]) \/ In a rest -> In a busy).
    { intros a Ha. apply (Permutation_in a Hperm).
      destruct Ha as [[Ha|[]]|Ha]; [now left|now right]. }
    assert (Hproper : forall a, In a busy -> proper a).
    { now apply Forall_forall. }
    assert (Hpout : forall J, In J out -> proper J).
    { now apply Forall_forall. }
    exists out. split; [exact Hout|]. split; [|split; [exact Hso|]].
    { eapply (StronglySorted_weaken proper before); [|exact Hpo|exact Hso].
      unfold proper, before. intros; lia. }
    split; [|split].
    + intros a Ha. destruct (Hcov a (Hin a Ha)) as (J & HJ & Hc).
      exists J. split; [now split|].
      intros J' [HJ' Hc']. apply (contains_unique out a J J'); auto.
    + intros a b Ha Hb Ht.
      destruct (Hcov a (Hin a Ha)) as (J & HJ & Hc).
      destruct (Hcov b (Hin b Hb)) as (J' & HJ' & Hc').
      exists J. repeat split; try apply Hc; auto;
        destruct (StronglySorted_In before out J J' Hso HJ HJ') as [E|[E|E]];
        try (subst J'; apply Hc');
        exfalso; assert (Hpa := Hproper a Ha); assert (Hpb := Hproper b Hb);
        unfold before, contains, proper, touches in *; lia.
    + intros J HJ. destruct (Hend J HJ) as [(a & Ha & Hfa) (b & Hb & Hfb)].
      specialize (Hpout J HJ).
      split.
      * exists a. assert (Hab := Hback a Ha).
        destruct (Hcov a Ha) as (J' & HJ' & Hc').
        assert (Hlo : lo a = lo J) by (unfold lo; now rewrite Hfa).
        assert (J = J').
        { destruct (StronglySorted_In before out J J' Hso HJ HJ') as [E|[E|E]]; auto;
            exfalso; assert (Hpa := Hproper a Hab);
            unfold before, contains, proper in *; lia. }
        subst J'. auto.
      * exists b. assert (Hbb := Hback b Hb).
        destruct (Hcov b Hb) as (J' & HJ' & Hc').
        assert (Hhi : hi b = hi J) by (unfold hi; now rewrite Hfb).
        assert (J = J').
        { destruct (StronglySorted_In before out J J' Hso HJ HJ') as [E|[E|E]]; auto;
            exfalso; assert (Hpb := Hproper b Hbb);
            unfold before, contains, proper in *; lia. }
        subst J'. auto.
Qed.

Lemma merge_busy_correct_witness :
  exists merged,
    merge_busy Doubles.touching_busy = Ok merged /\
    StronglySorted (fun a b => lo a < lo b) merged /\
    StronglySorted before merged /\
    (forall a, In a Doubles.touching_busy -> exists! J, In J merged /\ contains J a) /\
    (forall a b, In a Doubles.touching_busy -> In b Doubles.touching_busy -> touches a b ->
                 exists J, In J merged /\ contains J a /\ contains J b) /\
    (forall J, In J merged ->
               (exists a, In a Doubles.touching_busy /\ contains J a /\ lo a = lo J) /\
               (exists b, In b Doubles.touching_busy /\ contains J b /\ hi b = hi J)).
Proof.
  apply (merge_busy_correct false Doubles.touching_busy).
  - repeat constructor.
  - repeat constructor.
Defined.

(** The scenario of the specification: the two touching intervals merge
    into 09:00-10:00. *)
Example merge_touching :
  merge_busy Doubles.touching_busy
  = Ok [(IsoFragment.naive 2025 12 1 9 0, IsoFragment.naive 2025 12 1 10 0)].
Proof. reflexivity. Qed.

(** ** The packing loop *)

Lemma utc_key_plus_minutes (t : datetime) (d : Z) :
  utc_key (plus_minutes t d) = utc_key t + d * us_per_minute.
Proof. unfold utc_key, plus_minutes. cbn. destruct (utcoffset t); lia. Qed.

Lemma is_aware_plus_minutes (t : datetime) (d : Z) :
  is_aware (plus_minutes t d) = is_aware t.
Proof. reflexivity. Qed.

Lemma plus_minutes_zero (t : datetime) : plus_minutes t 0 = t.
Proof. unfold plus_minutes. destruct t. cbn. f_equal. lia. Qed.

Lemma in_range_spec (t : datetime) : in_range t = true <-> 0 <= wall t < max_wall.
Proof.
  unfold in_range. rewrite andb_true_iff, Z.leb_le, Z.ltb_lt. tauto.
Qed.

(** The sum is the reading [d] minutes later, or it overflows. *)
Lemma add_minutes_ok (t : datetime) (d : Z) :
  in_range (plus_minutes t d) = true -> add_minutes t d = Ok (plus_minutes t d).
Proof. intros H. unfold add_minutes. now rewrite H. Qed.

Lemma add_minutes_overflow (t : datetime) (d : Z) :
  in_range (plus_minutes t d) = false -> add_minutes t d = Raise OverflowError.
Proof. intros H. unfold add_minutes. now rewrite H. Qed.

Lemma add_minutes_roomy (t : datetime) (d : Z) :
  0 <= d -> roomy d t -> add_minutes t d = Ok (plus_minutes t d).
Proof.
  intros Hd [H0 H1]. apply add_minutes_ok, in_range_spec. cbn [wall plus_minutes].
  unfold us_per_minute in *. lia.
Qed.

(** With a duration other than zero the loop ends within [pack_fuel]
    tests: a positive step passes the bound or [datetime.max], a negative
    one falls below [datetime.min]. *)
Lemma pack_loop_exits (d : Z) (bound : datetime) :
  d <> 0 ->
  forall (fuel : nat) (slots : list Slot) (t : datetime),
    (pack_fuel d bound t <= fuel)%nat ->
    pack_loop fuel d bound slots t <> Diverge.
Proof.
  intros Hd. induction fuel as [|fuel IH]; intros slots t Hf;
    [unfold pack_fuel in Hf; lia|].
  cbn [pack_loop]. unfold add_minutes.
  destruct (in_range (plus_minutes t d)) eqn:Er; cbn [Py.bind]; [|discriminate].
  unfold dt_le.
  destruct (comparable (plus_minutes t d) bound); cbn [Py.bind]; [|discriminate].
  destruct (utc_key (plus_minutes t d) <=? utc_key bound) eqn:E; [|discriminate].
  apply Z.leb_le in E. rewrite utc_key_plus_minutes in E.
  apply in_range_spec in Er. cbn [wall plus_minutes] in Er.
  apply IH. revert Hf. unfold pack_fuel.
  destruct (0 <? d) eqn:Es.
  - apply Z.ltb_lt in Es.
    assert (HD : 0 < d * us_per_minute) by (unfold us_per_minute; lia).
    rewrite utc_key_plus_minutes.
    replace (utc_key bound - (utc_key t + d * us_per_minute))
      with ((utc_key bound - utc_key t) + (-1) * (d * us_per_minute)) by ring.
    rewrite Z.div_add by lia.
    assert (1 <= (utc_key bound - utc_key t) / (d * us_per_minute))
      by (apply Z.div_le_lower_bound; lia).
    lia.
  - apply Z.ltb_ge in Es.
    assert (HD : 0 < - d * us_per_minute) by (unfold us_per_minute; lia).
    cbn [wall plus_minutes].
    replace (wall t + d * us_per_minute)
      with (wall t + (-1) * (- d * us_per_minute)) by ring.
    rewrite Z.div_add by lia.
    assert (1 <= wall t / (- d * us_per_minute))
      by (apply Z.div_le_lower_bound; lia).
    lia.
Qed.

(** Once the loop has ended, more fuel changes nothing. *)
Lemma pack_loop_more_fuel (fuel : nat) (d : Z) (bound : datetime) :
  forall (slots : list Slot) (t : datetime),
    pack_loop fuel d bound slots t <> Diverge ->
    forall fuel', (fuel <= fuel')%nat ->
                  pack_loop fuel' d bound slots t = pack_loop fuel d bound slots t.
Proof.
  induction fuel as [|fuel IH]; intros slots t Hn fuel' Hle; [now contradiction Hn|].
  destruct fuel' as [|fuel']; [lia|].
  cbn [pack_loop] in *.
  destruct (add_minutes t d) as [next| |]; cbn [Py.bind] in *; auto.
  destruct (dt_le next bound) as [[|]| |]; cbn [Py.bind] in *; auto.
  apply IH; [exact Hn|lia].
Qed.

(** With a duration of zero, a condition that holds once holds at every
    later test. *)
Lemma pack_loop_stuck (fuel : nat) (bound : datetime) :
  forall (slots : list Slot) (t : datetime),
    in_range t = true -> dt_le t bound = Ok true ->
    pack_loop fuel 0 bound slots t = Diverge.
Proof.
  induction fuel as [|fuel IH]; intros slots t Hr Hfit; [reflexivity|].
  cbn [pack_loop]. unfold add_minutes. rewrite plus_minutes_zero, Hr.
  cbn [Py.bind]. rewrite Hfit. cbn [Py.bind]. now apply IH.
Qed.

(** [pack] is what the fuel-indexed loop settles on. *)
Lemma pack_adequate (d : Z) (bound : datetime) (slots : list Slot) (t : datetime) :
  exists n, forall fuel, (n <= fuel)%nat ->
                         pack_loop fuel d bound slots t = pack d bound slots t.
Proof.
  unfold pack. destruct (d =? 0) eqn:Ed.
  - apply Z.eqb_eq in Ed. subst d. exists 1%nat. intros [|fuel] Hle; [lia|].
    cbn [pack_loop]. unfold add_minutes. rewrite plus_minutes_zero.
    destruct (in_range t) eqn:Er; cbn [Py.bind]; [|reflexivity].
    destruct (dt_le t bound) as [[|]| |] eqn:E; cbn [Py.bind]; auto.
    now apply pack_loop_stuck.
  - apply Z.eqb_neq in Ed. exists (pack_fuel d bound t). intros fuel Hle.
    apply pack_loop_more_fuel; [|exact Hle].
    apply pack_loop_exits; [exact Ed|lia].
Qed.

(** ** The slot generator on naive instants *)

Lemma StronglySorted_app {A : Type} (R : A -> A -> Prop) (l1 l2 : list A) :
  StronglySorted R l1 -> StronglySorted R l2 ->
  (forall x y, In x l1 -> In y l2 -> R x y) ->
  StronglySorted R (l1 ++ l2).
Proof.
  induction l1 as [|x l1 IH]; simpl; intros H1 H2 H; auto.
  apply StronglySorted_inv in H1. destruct H1 as [H1 Hx].
  constructor.
  - apply IH; auto.
  - apply Forall_app. split; [exact Hx|].
    apply Forall_forall. intros y Hy. apply H; auto.
Qed.

Lemma naive_key (t : datetime) : is_aware t = false -> utc_key t = wall t.
Proof. unfold is_aware, utc_key. destruct (utcoffset t); [discriminate|reflexivity]. Qed.

Lemma pack_loop_sound (d : Z) (bound : datetime) :
  0 < d -> is_aware bound = false -> roomy d bound ->
  forall (fuel : nat) (slots : list Slot) (t : datetime),
    (Z.to_nat ((utc_key bound - utc_key t) / (d * us_per_minute)) < fuel)%nat ->
    is_aware t = false -> roomy d t ->
    exists new,
      pack_loop fuel d bound slots t = Ok (slots ++ new)
      /\ Forall (packed d t bound) new /\ StronglySorted slot_before new.
Proof.
  intros Hd Hb Hrb. induction fuel as [|fuel IH]; intros slots t Hf Hk Hrt; [lia|].
  assert (HD : 0 < d * us_per_minute) by (unfold us_per_minute; lia).
  cbn [pack_loop]. rewrite add_minutes_roomy by (assumption || lia). cbn [Py.bind].
  unfold dt_le, comparable.
  rewrite is_aware_plus_minutes, Hk, Hb. cbn [Bool.eqb Py.bind].
  destruct (utc_key (plus_minutes t d) <=? utc_key bound) eqn:E.
  - apply Z.leb_le in E.
    destruct (IH (slots ++ [mk_slot t (plus_minutes t d)]) (plus_minutes t d))
      as (new & Hrun & Hall & Hsorted).
    + rewrite utc_key_plus_minutes in *.
      replace (utc_key bound - (utc_key t + d * us_per_minute))
        with ((utc_key bound - utc_key t) + (-1) * (d * us_per_minute)) by ring.
      rewrite Z.div_add by lia.
      assert (1 <= (utc_key bound - utc_key t) / (d * us_per_minute))
        by (apply Z.div_le_lower_bound; lia).
      lia.
    + now rewrite is_aware_plus_minutes.
    + rewrite (naive_key (plus_minutes t d)) in E by (now rewrite is_aware_plus_minutes).
      rewrite (naive_key bound) in E by assumption.
      destruct Hrt as [Ht0 Ht1]. destruct Hrb as [Hb0 Hb1].
      unfold roomy. cbn [wall plus_minutes] in *. lia.
    + exists (mk_slot t (plus_minutes t d) :: new).
      split; [rewrite Hrun, <- app_assoc; reflexivity|]. split.
      * constructor.
        -- unfold packed, lasts, slot_lo, slot_hi. cbn. repeat split; lia.
        -- eapply Forall_impl; [|exact Hall].
           intros s (H1 & H2 & H3 & H4). unfold packed.
           rewrite utc_key_plus_minutes in H3. rewrite is_aware_plus_minutes in H2.
           repeat split; auto. lia.
      * constructor; [exact Hsorted|].
        eapply Forall_impl; [|exact Hall].
        intros s (_ & _ & H3 & _). unfold slot_before, slot_hi. cbn. exact H3.
  - exists []. rewrite app_nil_r. repeat split; constructor.
Qed.

Lemma pack_sound (d : Z) (bound : datetime) (slots : list Slot) (t : datetime) :
  0 < d -> is_aware t = false -> is_aware bound = false ->
  roomy d t -> roomy d bound ->
  exists new,
    pack d bound slots t = Ok (slots ++ new)
    /\ Forall (packed d t bound) new /\ StronglySorted slot_before new.
Proof.
  intros Hd Hk Hb Hrt Hrb. unfold pack.
  replace (d =? 0) with false by (symmetry; apply Z.eqb_neq; lia).
  apply pack_loop_sound; auto. unfold pack_fuel.
  rewrite (proj2 (Z.ltb_lt 0 d) Hd). lia.
Qed.

Lemma walk_busy_sound (d : Z) :
  0 < d ->
  forall (merged : list interval) (slots : list Slot) (current : datetime),
    is_aware current = false -> roomy d current ->
    Forall (same_kind false) merged -> Forall proper merged ->
    Forall (roomy_interval d) merged ->
    StronglySorted before merged ->
    exists new current',
      walk_busy d merged slots current = Ok (slots ++ new, current')
      /\ is_aware current' = false /\ roomy d current'
      /\ utc_key current <= utc_key current'
      /\ Forall (fun J => hi J <= utc_key current') merged
      /\ Forall (walked d merged current current') new
      /\ StronglySorted slot_before new.
Proof.
  intros Hd. induction merged as [|[bstart bend] rest IH];
    intros slots current Hc Hrc Hk Hp Hr Hs.
  - exists [], current. cbn. rewrite app_nil_r. repeat split; auto; try constructor;
      try apply Hrc. lia.
  - apply Forall_cons_iff in Hk. destruct Hk as [[Hk1 Hk2] Hk]. cbn [fst snd] in *.
    apply Forall_cons_iff in Hp. destruct Hp as [Hp1 Hp].
    apply Forall_cons_iff in Hr. destruct Hr as [[Hr1 Hr2] Hr]. cbn [fst snd] in *.
    apply StronglySorted_inv in Hs. destruct Hs as [Hs Hb].
    unfold proper, lo, hi in Hp1. cbn [fst snd] in Hp1.
    cbn [walk_busy]. rewrite (dt_gt_same false) by assumption. cbn [Py.bind].
    assert (Hpacked : exists now,
               (if utc_key current <? utc_key bstart
                then pack d bstart slots current else Ok slots) = Ok (slots ++ now)
               /\ Forall (packed d current bstart) now /\ StronglySorted slot_before now).
    { destruct (utc_key current <? utc_key bstart).
      - apply pack_sound; auto.
      - exists []. rewrite app_nil_r. repeat split; constructor. }
    destruct Hpacked as (now & Hrun & Hnow & Hsnow). rewrite Hrun. cbn [Py.bind].
    rewrite (dt_max_same false) by assumption. cbn [Py.bind].
    set (next := if utc_key current <? utc_key bend then bend else current).
    assert (Hnext : is_aware next = false /\ roomy d next
                    /\ utc_key current <= utc_key next
                    /\ utc_key bend <= utc_key next).
    { unfold next. destruct (utc_key current <? utc_key bend) eqn:E.
      - apply Z.ltb_lt in E. repeat split; auto; try apply Hr2; lia.
      - apply Z.ltb_ge in E. repeat split; auto; try apply Hrc; lia. }
    destruct Hnext as (Hn1 & Hnr & Hn2 & Hn3). clearbody next.
    destruct (IH (slots ++ now) next Hn1 Hnr Hk Hp Hr Hs)
      as (later & current' & Hwalk & Hc' & Hrc' & Hle & Hhi & Hlater & Hslater).
    exists (now ++ later), current'.
    split; [rewrite Hwalk, <- app_assoc; reflexivity|].
    split; [exact Hc'|]. split; [exact Hrc'|]. split; [lia|]. split.
    { constructor; [unfold hi; cbn [snd]; lia|exact Hhi]. }
    assert (Hnow' : Forall (walked d ((bstart, bend) :: rest) current current') now).
    { eapply Forall_impl; [|exact Hnow].
      intros s (H1 & _ & H3 & H4). unfold walked.
      split; [exact H1|]. split; [exact H3|]. split; [lia|]. split.
      - exists (bstart, bend). split; [now left|exact H4].
      - constructor.
        + left. exact H4.
        + eapply Forall_impl; [|exact Hb].
          intros J HJ. left. unfold before, hi, lo in *. cbn [fst snd] in *. lia. }
    assert (Hlater' : Forall (walked d ((bstart, bend) :: rest) current current') later).
    { eapply Forall_impl; [|exact Hlater].
      intros s (H1 & H2 & H3 & (J & HJ & H4) & H5). unfold walked.
      split; [exact H1|]. split; [lia|]. split; [exact H3|]. split.
      - exists J. split; [now right|exact H4].
      - constructor; [|exact H5]. right. unfold hi. cbn [snd]. lia. }
    split; [apply Forall_app; now split|].
    apply StronglySorted_app; auto.
    intros x y Hx Hy.
    rewrite Forall_forall in Hnow, Hlater.
    destruct (Hnow x Hx) as (_ & _ & _ & Hx4).
    destruct (Hlater y Hy) as (_ & Hy2 & _).
    unfold slot_before. lia.
Qed.

(** Slot correctness, as far as the code has it: for merged busy intervals
    of naive instants, a naive working window and a positive duration,
    all at least [d] minutes before [datetime.max], the slot generator
    returns; every slot is exactly [d] minutes long, starts at or after
    [work_start], overlaps no busy interval, and the slots are in
    ascending order without overlap.  A slot ends at or before [work_end]
    provided no busy interval starts after [work_end]. *)
Lemma generate_slots_sound
      (merged : list interval) (start_dt end_dt : datetime) (d : Z) :
  0 < d -> is_aware start_dt = false -> is_aware end_dt = false ->
  roomy d start_dt -> roomy d end_dt ->
  Forall (same_kind false) merged -> Forall proper merged ->
  Forall (roomy_interval d) merged ->
  StronglySorted before merged ->
  exists slots,
    generate_slots merged start_dt end_dt d = Ok slots
    /\ Forall (lasts d) slots
    /\ Forall (fun s => utc_key start_dt <= slot_lo s) slots
    /\ (forall J s, In J merged -> In s slots -> clear_of J s)
    /\ StronglySorted slot_before slots
    /\ (Forall (fun J => lo J <= utc_key end_dt) merged ->
        Forall (fun s => slot_hi s <= utc_key end_dt) slots).
Proof.
  intros Hd Hs He Hrs Hre Hk Hp Hr Hsorted.
  destruct (walk_busy_sound d Hd merged [] start_dt Hs Hrs Hk Hp Hr Hsorted)
    as (new & current & Hwalk & Hc & Hrc & Hle & Hhi & Hnew & Hsnew).
  destruct (pack_sound d end_dt new current Hd Hc He Hrc Hre)
    as (final & Hrun & Hfinal & Hsfinal).
  unfold generate_slots. rewrite Hwalk. cbn [Py.bind fst snd app]. rewrite Hrun.
  exists (new ++ final). split; [reflexivity|].
  rewrite Forall_forall in Hnew, Hfinal, Hhi.
  split; [|split; [|split; [|split]]].
  - apply Forall_forall. intros s Hin. apply in_app_or in Hin.
    destruct Hin as [Hin|Hin]; [apply (Hnew s Hin)|apply (Hfinal s Hin)].
  - apply Forall_forall. intros s Hin. apply in_app_or in Hin.
    destruct Hin as [Hin|Hin].
    + apply (Hnew s Hin).
    + destruct (Hfinal s Hin) as (_ & _ & H3 & _). lia.
  - intros J s HJ Hin. apply in_app_or in Hin. destruct Hin as [Hin|Hin].
    + destruct (Hnew s Hin) as (_ & _ & _ & _ & Hclear).
      rewrite Forall_forall in Hclear. now apply Hclear.
    + destruct (Hfinal s Hin) as (_ & _ & H3 & _). right. specialize (Hhi J HJ). lia.
  - apply StronglySorted_app; auto. intros x y Hx Hy.
    destruct (Hnew x Hx) as (_ & _ & Hx3 & _).
    destruct (Hfinal y Hy) as (_ & _ & Hy3 & _). unfold slot_before. lia.
  - intros Hearly. rewrite Forall_forall in Hearly.
    apply Forall_forall. intros s Hin. apply in_app_or in Hin.
    destruct Hin as [Hin|Hin].
    + destruct (Hnew s Hin) as (_ & _ & _ & (J & HJ & H4) & _).
      specialize (Hearly J HJ). lia.
    + apply (Hfinal s Hin).
Qed.

(** Busy intervals with a UTC designator cannot be ordered against the
    naive working window: the slot generator raises on the first one. *)
Lemma generate_slots_aware_busy
      (bstart bend : datetime) (rest : list interval)
      (start_dt end_dt : datetime) (d : Z) :
  is_aware bstart = true -> is_aware start_dt = false ->
  generate_slots ((bstart, bend) :: rest) start_dt end_dt d = Raise TypeError.
Proof.
  intros Hb Hs. unfold generate_slots. cbn [walk_busy].
  unfold dt_gt, comparable. rewrite Hb, Hs. reflexivity.
Qed.

(** An empty working window without busy intervals has no slot, for a
    duration that keeps [work_start] plus the duration before
    [datetime.max]. *)
Lemma generate_slots_empty_window (start_dt end_dt : datetime) (d : Z) :
  0 < d -> is_aware start_dt = false -> is_aware end_dt = false ->
  roomy d start_dt ->
  utc_key end_dt <= utc_key start_dt ->
  generate_slots [] start_dt end_dt d = Ok [].
Proof.
  intros Hd Hs He Hr Hle. unfold generate_slots. cbn [walk_busy Py.bind fst snd].
  unfold pack. replace (d =? 0) with false by (symmetry; apply Z.eqb_neq; lia).
  unfold pack_fuel. cbn [pack_loop].
  rewrite add_minutes_roomy by (assumption || lia). cbn [Py.bind].
  unfold dt_le, comparable. rewrite is_aware_plus_minutes, Hs, He. cbn.
  rewrite utc_key_plus_minutes.
  replace (utc_key start_dt + d * us_per_minute <=? utc_key end_dt) with false;
    [reflexivity|].
  symmetry. apply Z.leb_gt. unfold us_per_minute. lia.
Qed.

(** ** Busy entries *)

Section EntryFacts.

Context {parser : IsoParser}.












End EntryFacts.

(** ** Availability *)

Section AvailabilityFacts.

Context {parser : IsoParser}.


End AvailabilityFacts.

Section AvailabilityExamples.

Local Existing Instance IsoFragment.iso_fragment.

(** C2 (the code departs from it).  Slot correctness asks that no emitted
    slot ends after [work_end].  On the merged busy list [18:00-19:00],
    working window 09:00-17:00 and duration 30, the slot generator packs
    slots up to the start of the busy interval, and so emits 17:00-17:30
    and 17:30-18:00, which end after 17:00. *)
Theorem slot_after_work_end :
  exists slots,
    merge_busy [(IsoFragment.naive 2025 12 1 18 0, IsoFragment.naive 2025 12 1 19 0)]
    = Ok [(IsoFragment.naive 2025 12 1 18 0, IsoFragment.naive 2025 12 1 19 0)]
    /\ generate_slots
         [(IsoFragment.naive 2025 12 1 18 0, IsoFragment.naive 2025 12 1 19 0)]
         (IsoFragment.naive 2025 12 1 9 0) (IsoFragment.naive 2025 12 1 17 0) 30
       = Ok slots
    /\ compute_free_slots_from_freebusy
         (Doubles.primary_busy [Doubles.entry "2025-12-01T18:00:00" "2025-12-01T19:00:00"])
         "2025-12-01" 30 9 17 = Ok slots
    /\ In (mk_slot (IsoFragment.naive 2025 12 1 17 30) (IsoFragment.naive 2025 12 1 18 0))
          slots
    /\ utc_key (IsoFragment.naive 2025 12 1 17 0)
       < utc_key (IsoFragment.naive 2025 12 1 18 0).
Proof.
  eexists. split; [reflexivity|]. split; [vm_compute; reflexivity|].
  split; [vm_compute; reflexivity|]. split.
  - vm_compute. repeat (first [left; reflexivity | right]).
  - reflexivity.
Qed.

(** C4 (the code departs from it).  With [work_end <= work_start] the
    result should be empty and no error raised.  With working window
    17..9 and a busy interval 20:00-21:00 the slot generator returns the
    six slots from 17:00 to 20:00; with the same interval given with a UTC
    designator it raises [TypeError]. *)
Theorem empty_window_not_empty :
  (exists slots,
      compute_free_slots_from_freebusy
        (Doubles.primary_busy [Doubles.entry "2025-12-01T20:00:00" "2025-12-01T21:00:00"])
        "2025-12-01" 30 17 9 = Ok slots
      /\ List.length slots = 6%nat
      /\ In (mk_slot (IsoFragment.naive 2025 12 1 17 0) (IsoFragment.naive 2025 12 1 17 30))
            slots)
  /\ compute_free_slots_from_freebusy
       (Doubles.primary_busy [Doubles.entry "2025-12-01T20:00:00Z" "2025-12-01T21:00:00Z"])
       "2025-12-01" 30 17 9 = Raise TypeError.
Proof.
  split; [|vm_compute; reflexivity].
  eexists. split; [vm_compute; reflexivity|]. split; [reflexivity|].
  left. reflexivity.
Qed.

(** The two availability scenarios of the specification, with naive busy
    times. *)
Example scenario_touching_busy :
  compute_free_slots_from_freebusy
    (Doubles.primary_busy [Doubles.entry "2025-12-01T09:00:00" "2025-12-01T09:30:00";
                           Doubles.entry "2025-12-01T09:30:00" "2025-12-01T10:00:00"])
    "2025-12-01" 30 9 10 = Ok [].
Proof. vm_compute. reflexivity. Qed.

Example scenario_quarter_hour_busy :
  compute_free_slots_from_freebusy
    (Doubles.primary_busy [Doubles.entry "2025-12-01T09:00:00" "2025-12-01T09:15:00"])
    "2025-12-01" 30 9 10
  = Ok [mk_slot (IsoFragment.naive 2025 12 1 9 15) (IsoFragment.naive 2025 12 1 9 45)].
Proof. vm_compute. reflexivity. Qed.

(** The first scenario as the calendar service sends it, with a UTC
    designator on every time. *)
Example scenario_touching_busy_utc :
  compute_free_slots_from_freebusy
    (Doubles.primary_busy [Doubles.entry "2025-12-01T09:00:00Z" "2025-12-01T09:30:00Z";
                           Doubles.entry "2025-12-01T09:30:00Z" "2025-12-01T10:00:00Z"])
    "2025-12-01" 30 9 10 = Raise TypeError.
Proof. vm_compute. reflexivity. Qed.

End AvailabilityExamples.

(** ** The booking table *)

Lemma find_present {A : Type} (p : A -> bool) (l : list A) (x : A) :
  In x l -> p x = true -> exists y, find p l = Some y.
Proof.
  induction l as [|z l IH]; simpl; [tauto|].
  intros [->|Hx] Hp.
  - rewrite Hp. eauto.
  - destruct (p z); eauto.
Qed.

(** An [UPDATE] by primary key, seen from a later [SELECT] by the same key. *)
Lemma find_updated (id0 : Z) (change : Booking -> Booking) (l : list Booking) :
  (forall r, id (change r) = id r) ->
  find (Crud.has_id id0) (map (fun r => if Crud.has_id id0 r then change r else r) l)
  = option_map change (find (Crud.has_id id0) l).
Proof.
  intros Hid. induction l as [|r l IH]; simpl; auto.
  destruct (Crud.has_id id0 r) eqn:E.
  - unfold Crud.has_id in *. rewrite Hid, E. reflexivity.
  - rewrite E. exact IH.
Qed.

Lemma Forall2_map_same {A : Type} (P : A -> A -> Prop) (f : A -> A) (l : list A) :
  (forall x, P x (f x)) -> Forall2 P l (map f l).
Proof. intros H. induction l; simpl; constructor; auto. Qed.

Lemma Forall2_same {A : Type} (P : A -> A -> Prop) (l : list A) :
  (forall x, P x x) -> Forall2 P l l.
Proof. intros H. induction l; constructor; auto. Qed.

Lemma same_but_status_refl (r : Booking) : same_but_status r r.
Proof. unfold same_but_status. repeat split. Qed.

Lemma same_but_status_set (s : string) (now : datetime) (r : Booking) :
  same_but_status r (set_status s now r).
Proof. unfold same_but_status. repeat split. Qed.

(** What [update_booking_status] does to the table, whatever the database
    does. *)
Lemma update_booking_status_rows (env : Env) (booking_ref0 s : string) (w : World) :
  let run := Crud.update_booking_status env booking_ref0 s w in
  match find (Crud.has_ref booking_ref0) (rows w) with
  | None => rows (snd run) = rows w
  | Some b =>
      Forall2 (status_step (id b) s) (rows w) (rows (snd run))
      /\ (forall b', fst run = Ok (Some b') ->
                     id b' = id b /\ status b' = s /\ In b' (rows (snd run))
                     /\ exists now, In (set_status s now b) (rows (snd run)))
      /\ (db_healthy env -> exists b', fst run = Ok (Some b'))
  end.
Proof.
  intros run. subst run.
  destruct (find (Crud.has_ref booking_ref0) (rows w)) as [b|] eqn:Ef.
  - destruct (find_some _ _ Ef) as [Hin Href].
    assert (Hself : Crud.has_id (id b) b = true) by (unfold Crud.has_id; apply Z.eqb_refl).
    run_crud. case_fault.
    { split; [apply Forall2_same; now left|]. split; [discriminate|].
      intros H. now rewrite H in *. }
    rewrite Ef. case_fault.
    { split; [apply Forall2_same; now left|]. split; [discriminate|].
      intros H. now rewrite H in *. }
    assert (Hstep : Forall2 (status_step (id b) s) (rows w)
              (map (fun r => if Crud.has_id (id b) r
                             then set_status s (to_column {| wall := clock env
                                   {| rows := rows w; next_id := next_id w;
                                      trace := trace w ++ [Db Select None] |};
                                   utcoffset := Some 0 |}) r else r) (rows w))).
    { apply Forall2_map_same. intros r. unfold status_step.
      destruct (Crud.has_id (id b) r) eqn:E; [|now left].
      right. split; [now apply Z.eqb_eq in E|]. eauto. }
    case_fault.
    { split; [exact Hstep|]. split; [discriminate|].
      intros H. now rewrite H in *. }
    rewrite find_updated by reflexivity.
    destruct (find_present _ _ _ Hin Hself) as [r Hr]. rewrite Hr. cbn.
    destruct (find_some _ _ Hr) as [Hrin Hrid].
    split; [exact Hstep|]. split; [|eauto].
    intros b' Hb'. inversion Hb'; subst b'. cbn.
    apply Z.eqb_eq in Hrid. split; [exact Hrid|]. split; [reflexivity|]. split.
    + apply in_map_iff. exists r. split; [|exact Hrin].
      unfold Crud.has_id. now rewrite (proj2 (Z.eqb_eq _ _) Hrid).
    + eexists. apply in_map_iff. exists b. rewrite Hself. split; [reflexivity|auto].
  - run_crud. case_fault; [reflexivity|]. rewrite Ef. reflexivity.
Qed.

Lemma Forall2_weaken {A : Type} (P Q : A -> A -> Prop) (l l' : list A) :
  (forall x y, P x y -> Q x y) -> Forall2 P l l' -> Forall2 Q l l'.
Proof. intros H. induction 1; constructor; auto. Qed.

(** C10. Frame property of cancellation: for every existing booking,
    [cancel_booking] deletes and adds no row; in every row each column
    other than [status] and [updated_at] keeps its value, and a row whose
    status changes at all becomes cancelled; the booking that is returned is
    stored, has the primary key of the one that was found and is
    cancelled. *)
Theorem cancel_booking_frame (env : Env) (booking_ref0 : string) (w : World) (b : Booking) :
  find (Crud.has_ref booking_ref0) (rows w) = Some b ->
  Forall2 (fun r r' =>
             same_but_status r r'
             /\ ((status r' = status r /\ updated_at r' = updated_at r)
                 \/ status r' = "cancelled"%string))
          (rows w) (rows (snd (Crud.cancel_booking env booking_ref0 w)))
  /\ (forall b', fst (Crud.cancel_booking env booking_ref0 w) = Ok (Some b') ->
                 id b' = id b /\ status b' = "cancelled"%string
                 /\ In b' (rows (snd (Crud.cancel_booking env booking_ref0 w)))
                 /\ exists now, In (set_status "cancelled" now b)
                                   (rows (snd (Crud.cancel_booking env booking_ref0 w))))
  /\ (db_healthy env ->
      exists b', fst (Crud.cancel_booking env booking_ref0 w) = Ok (Some b')).
Proof.
  intros Hf.
  assert (H := update_booking_status_rows env booking_ref0 "cancelled" w).
  cbv zeta in H. rewrite Hf in H. destruct H as (Hstep & Hret & Hok).
  unfold Crud.cancel_booking. split; [|split; assumption].
  eapply Forall2_weaken; [|exact Hstep].
  intros r r' [->|[_ [now ->]]].
  - split; [apply same_but_status_refl|]. left. now split.
  - split; [apply same_but_status_set|]. now right.
Qed.

Lemma cancel_booking_frame_witness :
  Forall2 (fun r r' =>
             same_but_status r r'
             /\ ((status r' = status r /\ updated_at r' = updated_at r)
                 \/ status r' = "cancelled"%string))
          (rows Doubles.confirmed_world)
          (rows (snd (Crud.cancel_booking Doubles.healthy "BK-1" Doubles.confirmed_world)))
  /\ exists b',
      fst (Crud.cancel_booking Doubles.healthy "BK-1" Doubles.confirmed_world)
      = Ok (Some b').
Proof.
  destruct (cancel_booking_frame Doubles.healthy "BK-1" Doubles.confirmed_world
              (Doubles.stored 1 "BK-1" "confirmed") eq_refl) as (Hframe & _ & Hok).
  split; [exact Hframe|]. apply Hok. intros w op. reflexivity.
Defined.

(** What [reschedule_booking] does to the table, whatever the database
    does: the status it replaces is not read. *)
Lemma reschedule_booking_rows (env : Env) (booking_ref0 : string)
      (new_start new_end : datetime) (w : World) (b : Booking) :
  find (Crud.has_ref booking_ref0) (rows w) = Some b ->
  let run := Crud.reschedule_booking env booking_ref0 new_start new_end in
  (In (Db Commit None) (effects_of run w) ->
   rows (snd (run w))
   = map (fun r => if Crud.has_id (id b) r
                   then set_schedule (to_column new_start) (to_column new_end)
                          "rescheduled" (to_column (utc_now env (after_select w))) r
                   else r) (rows w))
  /\ (~ In (Db Commit None) (effects_of run w) -> rows (snd (run w)) = rows w)
  /\ (forall b', fst (run w) = Ok (Some b') ->
                 In (Db Commit None) (effects_of run w)
                 /\ find (Crud.has_id (id b)) (rows (snd (run w))) = Some b')
  /\ (db_fault env w Select = None ->
      db_fault env (after_select w) Commit = None ->
      In (Db Commit None) (effects_of run w)).
Proof.
  intros Ef run. subst run. unfold effects_of, utc_now, after_select.
  run_crud. case_fault.
  { rewrite skipn_own_length. repeat split.
    - intros [H|[]]. discriminate H.
    - discriminate.
    - discriminate.
    - discriminate. }
  rewrite Ef. case_fault.
  { rewrite <- app_assoc, skipn_own_length. cbn [app]. repeat split.
    - intros [H|[H|[]]]; discriminate H.
    - discriminate.
    - discriminate.
    - intros _ H. discriminate H. }
  assert (Hc : forall tail, In (Db Commit None)
                 (skipn (List.length (trace w))
                    (((trace w ++ [Db Select None]) ++ [Db Commit None]) ++ tail))).
  { intros tail. rewrite <- !app_assoc, skipn_own_length. cbn. auto. }
  case_fault.
  { repeat split; auto; try discriminate. intros H. destruct H. apply Hc. }
  destruct (find _ (map _ _)) eqn:Hfound; cbn [fst snd rows trace].
  - repeat split; auto.
    + intros H. destruct H. apply Hc.
    + inversion H; subst. exact Hfound.
  - repeat split; auto; try discriminate. intros H. destruct H. apply Hc.
Qed.

(** C3, as the code has it.  A cancelled booking stays cancelled under
    every [cancel_booking].  [reschedule_booking] carries no guard on the
    current status: applied to a stored booking of any status, a cancelled
    one included, it stores the status [rescheduled] in that booking's row
    whenever its commit succeeds (and the commit is reached and succeeds
    whenever the database refuses neither the lookup nor the commit), and
    it leaves the table as it was otherwise. *)
Theorem cancelled_kept_by_cancel_not_by_reschedule
        (env : Env) (booking_ref0 : string) (w : World) :
  Forall2 (fun r r' => status r = "cancelled"%string -> status r' = "cancelled"%string)
          (rows w) (rows (snd (Crud.cancel_booking env booking_ref0 w)))
  /\ (forall new_start new_end b,
         find (Crud.has_ref booking_ref0) (rows w) = Some b ->
         let run := Crud.reschedule_booking env booking_ref0 new_start new_end in
         (In (Db Commit None) (effects_of run w) ->
          Forall2 (fun r r' => if Crud.has_id (id b) r
                               then status r' = "rescheduled"%string
                               else r' = r)
                  (rows w) (rows (snd (run w)))
          /\ exists b', find (Crud.has_ref booking_ref0) (rows (snd (run w))) = Some b'
                        /\ id b' = id b /\ status b' = "rescheduled"%string)
         /\ (~ In (Db Commit None) (effects_of run w) -> rows (snd (run w)) = rows w)
         /\ (db_fault env w Select = None ->
             db_fault env (after_select w) Commit = None ->
             In (Db Commit None) (effects_of run w))).
Proof.
  split.
  - assert (H := update_booking_status_rows env booking_ref0 "cancelled" w).
    cbv zeta in H. unfold Crud.cancel_booking.
    destruct (find (Crud.has_ref booking_ref0) (rows w)) as [b|].
    + destruct H as (Hstep & _). eapply Forall2_weaken; [|exact Hstep].
      intros r r' [->|[_ [now ->]]]; auto.
    + rewrite H. apply Forall2_same. auto.
  - intros new_start new_end b Ef run.
    destruct (reschedule_booking_rows env booking_ref0 new_start new_end w b Ef)
      as (Hdone & Hnot & _ & Hwhen).
    fold run in Hdone, Hnot, Hwhen.
    split; [|split; assumption].
    intros Hc. rewrite (Hdone Hc). split.
    + apply Forall2_map_same. intros r. destruct (Crud.has_id (id b) r); reflexivity.
    + clear - Ef. induction (rows w) as [|r l IH]; [discriminate Ef|].
      cbn [find map] in *. destruct (Crud.has_ref booking_ref0 r) eqn:Er.
      * inversion Ef; subst r.
        replace (Crud.has_id (id b) b) with true
          by (symmetry; unfold Crud.has_id; apply Z.eqb_refl).
        unfold Crud.has_ref in *. cbn [booking_ref set_schedule]. rewrite Er.
        eexists. split; [reflexivity|]. split; reflexivity.
      * destruct (Crud.has_id (id b) r).
        -- unfold Crud.has_ref in *. cbn [booking_ref set_schedule]. rewrite Er.
           apply IH, Ef.
        -- rewrite Er. apply IH, Ef.
Qed.

Lemma cancelled_kept_by_cancel_not_by_reschedule_witness :
  Forall2 (fun r r' => status r = "cancelled"%string -> status r' = "cancelled"%string)
          (rows Doubles.cancelled_world)
          (rows (snd (Crud.cancel_booking Doubles.healthy "BK-1" Doubles.cancelled_world)))
  /\ exists b',
      find (Crud.has_ref "BK-1")
        (rows (snd (Crud.reschedule_booking Doubles.healthy "BK-1"
                      (IsoFragment.naive 2025 12 2 10 0) (IsoFragment.naive 2025 12 2 10 30)
                      Doubles.cancelled_world))) = Some b'
      /\ id b' = 1 /\ status b' = "rescheduled"%string.
Proof.
  destruct (cancelled_kept_by_cancel_not_by_reschedule
              Doubles.healthy "BK-1" Doubles.cancelled_world) as [Hc Hr].
  split; [exact Hc|].
  destruct (Hr (IsoFragment.naive 2025 12 2 10 0) (IsoFragment.naive 2025 12 2 10 30)
               (Doubles.stored 1 "BK-1" "cancelled") eq_refl) as (Hdone & _ & Hwhen).
  apply Hdone, Hwhen; reflexivity.
Defined.

(** C3 fails as stated: a stored booking in status [cancelled] is moved to
    [rescheduled] by [reschedule_booking] on a database that accepts the
    update. *)
Lemma cancelled_booking_is_rescheduled :
  option_map status (find (Crud.has_ref "BK-1") (rows Doubles.cancelled_world))
  = Some "cancelled"%string
  /\ option_map status
       (find (Crud.has_ref "BK-1")
          (rows (snd (Crud.reschedule_booking Doubles.healthy "BK-1"
                        (IsoFragment.naive 2025 12 2 10 0)
                        (IsoFragment.naive 2025 12 2 10 30)
                        Doubles.cancelled_world))))
     = Some "rescheduled"%string.
Proof. split; vm_compute; reflexivity. Qed.

(** ** The handlers as written *)

Section AsWritten.

Context {parser : IsoParser}.

(** X27. The session loop stops every handler that reaches it.
    [get_session()] is the context manager of [@asynccontextmanager], so
    [async for session in get_session()] raises [TypeError]: for a payload
    whose fields have the expected types, the create, reschedule and
    cancel handlers answer 400 to a request that fails
    their validation, as their bodies do, and raise [TypeError] for every
    request that passes it; the two read handlers raise for every request.
    In each case the world is left as it was: no lookup, no calendar call,
    no write, no log entry. *)
Theorem handlers_stop_at_the_session_loop (env : Env) (w : World) :
  (forall payload,
      (book env payload w = (Raise TypeError, w)
       /\ exists c s e,
           p_customer payload = Some c
           /\ parse_range (str_of (p_start payload)) (str_of (p_end payload))
              = Ok (Some (s, e)))
      \/ exists body,
          book env payload w = (Ok (body, 400), w)
          /\ book_body env payload w = (Ok (body, 400), w))
  /\ (forall payload,
         (reschedule env payload w = (Raise TypeError, w)
          /\ exists s e,
              parse_range (str_of (r_new_start payload)) (str_of (r_new_end payload))
              = Ok (Some (s, e)))
         \/ exists body,
             reschedule env payload w = (Ok (body, 400), w)
             /\ reschedule_body env payload w = (Ok (body, 400), w))
  /\ (forall booking_ref0,
         (cancel env booking_ref0 w = (Raise TypeError, w)
          /\ Py.truthy booking_ref0 = true)
         \/ exists body,
             cancel env booking_ref0 w = (Ok (body, 400), w)
             /\ cancel_body env booking_ref0 w = (Ok (body, 400), w))
  /\ (forall sql_ge sql_order_by_start customer_id0 upcoming_only,
         list_bookings sql_ge sql_order_by_start env customer_id0 upcoming_only w
         = (Raise TypeError, w))
  /\ (forall booking_ref0, get_booking env booking_ref0 w = (Raise TypeError, w)).
Proof.
  split; [|split; [|split; [|split]]].
  - intros payload.
    unfold book, book_body, book_with, get_session, async_for, raise, ret.
    destruct (p_customer payload) as [c|]; [|right; eauto].
    destruct (negb _ || _ || _); [right; eauto|].
    destruct (parse_range _ _) as [[[s e]|]| |]; [left|right|right|right]; eauto 6.
  - intros payload.
    unfold reschedule, reschedule_body, reschedule_with, get_session, async_for, raise, ret.
    destruct (negb _ || _ || _); [right; eauto|].
    destruct (parse_range _ _) as [[[s e]|]| |]; [left|right|right|right]; eauto 6.
  - intros booking_ref0.
    unfold cancel, cancel_body, cancel_with, get_session, async_for, raise, ret.
    destruct (Py.truthy booking_ref0); cbn [negb]; [left|right]; eauto.
  - reflexivity.
  - reflexivity.
Qed.

End AsWritten.

Section AsWrittenExamples.

Local Open Scope string_scope.
Local Existing Instance IsoFragment.iso_fragment.




(** C8 (the code departs from it).  Cancel always locally succeeds asks
    that the stored booking becomes [cancelled] and the call succeeds
    whatever [deleteEvent] does.  For the stored booking [BK-1], the
    cancel handler raises [TypeError] at its session loop, with a
    [deleteEvent] that fails and with one that works alike: it makes no
    calendar call, and the stored booking keeps the status
    [confirmed]. *)
Theorem cancel_never_marks_cancelled :
  fst (cancel (Doubles.with_delete_event (Some Doubles.timeout) Doubles.healthy)
         (Some "BK-1") Doubles.confirmed_world)
  = Raise TypeError
  /\ effects_of (cancel (Doubles.with_delete_event (Some Doubles.timeout) Doubles.healthy)
                   (Some "BK-1")) Doubles.confirmed_world
     = []
  /\ map status
       (rows (snd (cancel (Doubles.with_delete_event (Some Doubles.timeout) Doubles.healthy)
                     (Some "BK-1") Doubles.confirmed_world)))
     = ["confirmed"]
  /\ cancel Doubles.healthy (Some "BK-1") Doubles.confirmed_world
     = (Raise TypeError, Doubles.confirmed_world).
Proof. repeat split; vm_compute; reflexivity. Qed.

End AsWrittenExamples.

(** ** The handlers once a session is at hand

    What follows is about [book_body], [reschedule_body] and
    [cancel_body]: the statements inside the session loops, run once with
    a session. *)

Section HandlerFacts.

Context {parser : IsoParser}.

Lemma book_aborts_on_create_failure
      (env : Env) (payload : BookPayload) (w : World)
      (cal : string) (body : json) (e : exn) :
  In (CalCreateEvent cal body (inl e)) (effects_of (book_body env payload) w) ->
  fst (book_body env payload w) = Ok (ErrorBody "calendar_create_failed" (Some e), 500)
  /\ rows (snd (book_body env payload w)) = rows w
  /\ filter is_write (effects_of (book_body env payload) w) = [].
Proof.
  unfold effects_of. run_io. repeat case_step.
  all: show_effects.
  all: intros HIn; split_in HIn.
  all: inversion HIn; subst; repeat split; reflexivity.
Qed.

Lemma reschedule_aborts_on_update_failure
      (env : Env) (payload : ReschedulePayload) (w : World)
      (cal eid : string) (body : json) (e : exn) :
  In (CalUpdateEvent cal eid body (Some e)) (effects_of (reschedule_body env payload) w) ->
  fst (reschedule_body env payload w) = Ok (ErrorBody "calendar_update_failed" (Some e), 500)
  /\ rows (snd (reschedule_body env payload w)) = rows w
  /\ filter is_write (effects_of (reschedule_body env payload) w) = [].
Proof.
  unfold effects_of. run_io. repeat case_step.
  all: show_effects.
  all: intros HIn; split_in HIn.
  all: inversion HIn; subst; repeat split; reflexivity.
Qed.

(** X25. Abort on external failure, inside the session loop.  In every
    run of the create handler's body in which [createEvent] fails, the
    answer is [calendar_create_failed], the booking table is unchanged and
    no write was attempted; in every run of the reschedule handler's body
    in which [updateEvent] fails, the answer is [calendar_update_failed],
    the booking table is unchanged and no write was attempted. *)
Theorem abort_on_external_failure (env : Env) (w : World) :
  (forall payload cal body e,
      In (CalCreateEvent cal body (inl e)) (effects_of (book_body env payload) w) ->
      fst (book_body env payload w) = Ok (ErrorBody "calendar_create_failed" (Some e), 500)
      /\ rows (snd (book_body env payload w)) = rows w
      /\ filter is_write (effects_of (book_body env payload) w) = [])
  /\ (forall payload cal eid body e,
         In (CalUpdateEvent cal eid body (Some e)) (effects_of (reschedule_body env payload) w) ->
         fst (reschedule_body env payload w)
         = Ok (ErrorBody "calendar_update_failed" (Some e), 500)
         /\ rows (snd (reschedule_body env payload w)) = rows w
         /\ filter is_write (effects_of (reschedule_body env payload) w) = []).
Proof.
  split.
  - intros. eapply book_aborts_on_create_failure; eassumption.
  - intros. eapply reschedule_aborts_on_update_failure; eassumption.
Qed.

(** X24. Compensation on create, inside the session loop.  In every run
    of the create handler's body in which [createEvent] succeeded and a
    statement of the local insert then failed, the body made exactly one
    [deleteEvent] call, after the [createEvent], for the same calendar and
    with the [id] of the event that [createEvent] returned, and answered
    [db_create_failed] with the database error; when that delete itself
    failed the failure was logged (the last effect of the run) and the
    answer is the same. *)
Theorem compensation_on_create
        (env : Env) (payload : BookPayload) (w : World)
        (cal : string) (body : json) (evt : Event) (op : DbOp) (e : exn) :
  In (CalCreateEvent cal body (inr evt)) (effects_of (book_body env payload) w) ->
  In (Db op (Some e)) (effects_of (book_body env payload) w) ->
  exists d,
    fst (book_body env payload w) = Ok (ErrorBody "db_create_failed" (Some e), 500)
    /\ filter is_create (effects_of (book_body env payload) w)
       = [CalCreateEvent cal body (inr evt)]
    /\ filter is_delete (effects_of (book_body env payload) w)
       = [CalDeleteEvent cal (ev_id evt) d]
    /\ filter is_delete (after_first is_create (effects_of (book_body env payload) w))
       = [CalDeleteEvent cal (ev_id evt) d]
    /\ match d with
       | Some _ =>
           last (effects_of (book_body env payload) w) (Log "")
           = Log "Failed to rollback calendar event after DB failure"
       | None => True
       end.
Proof.
  unfold effects_of. run_io. repeat case_step.
  all: show_effects.
  all: intros HIn HDb; split_in HIn.
  all: split_in HDb.
  all: inversion HIn; subst; inversion HDb; subst.
  all: repeat match goal with H : ev_id _ = _ |- _ => rewrite H; clear H end.
  all: eexists; repeat split; first [reflexivity | exact I].
Qed.

(** X26. Cancel goes on after a failed delete, inside the session loop.
    For every cancel of a stored booking whose lookup the database
    answers, whatever the calendar and the database do next: the body
    makes one calendar call, the [deleteEvent] for the stored calendar and
    event; a failure of it is logged and nothing more - the update of the
    row is attempted all the same; when the body answers 200 with a
    booking, that booking is stored and [cancelled]; and it does so
    whenever no database statement of the run fails. *)
Theorem cancel_survives_delete_failure
        (env : Env) (booking_ref0 : option string) (w : World) (b : Booking) :
  Py.truthy booking_ref0 = true ->
  db_fault env w Select = None ->
  find (Crud.has_ref (str_of booking_ref0)) (rows w) = Some b ->
  exists d,
    filter is_calendar_call (effects_of (cancel_body env booking_ref0) w)
    = [CalDeleteEvent (calendar_id b) (Some (event_id b)) d]
    /\ match d with
       | Some _ =>
           In (Log "Google delete_event failed; attempting to mark cancelled in DB")
              (effects_of (cancel_body env booking_ref0) w)
       | None => True
       end
    /\ (exists answer,
           In (Db Select answer)
              (after_first is_delete (effects_of (cancel_body env booking_ref0) w)))
    /\ (forall b',
           fst (cancel_body env booking_ref0 w) = Ok (BookingBody (Some b'), 200) ->
           id b' = id b /\ status b' = "cancelled"%string
           /\ In b' (rows (snd (cancel_body env booking_ref0 w)))
           /\ exists now,
               In (set_status "cancelled" now b)
                  (rows (snd (cancel_body env booking_ref0 w))))
    /\ ((forall op e, ~ In (Db op (Some e)) (effects_of (cancel_body env booking_ref0) w)) ->
        exists b', fst (cancel_body env booking_ref0 w) = Ok (BookingBody (Some b'), 200)).
Proof.
  intros Ht Hsel Ef.
  destruct (find_some _ _ Ef) as [Hin Href].
  assert (Hself : Crud.has_id (id b) b = true) by (unfold Crud.has_id; apply Z.eqb_refl).
  destruct (find_present _ _ _ Hin Hself) as [r Hr].
  destruct (find_some _ _ Hr) as [Hrin Hrid]. apply Z.eqb_eq in Hrid.
  unfold effects_of. run_io. rewrite Ht. cbn [negb].
  rewrite Hsel. cbn [fst snd rows trace next_id]. rewrite Ef.
  destruct (gcal_delete_event env _ (calendar_id b) (Some (event_id b))) as [de|] eqn:Ed;
    cbn [fst snd rows trace next_id].
  all: case_fault;
    [|rewrite Ef; case_fault;
      [|case_fault;
        [|rewrite find_updated by reflexivity; rewrite Hr;
          cbn [option_map fst snd rows trace next_id]]]].
  all: show_effects.
  all: eexists; split; [reflexivity|].
  all: split; [first [exact I | repeat (first [left; reflexivity | right])]|].
  all: split; [eexists; cbn; repeat (first [left; reflexivity | right])|].
  all: split;
    [|intros Hnone;
      first [ eexists; reflexivity
            | exfalso; eapply Hnone; cbn;
              repeat (first [left; reflexivity | right]) ]].
  all: intros b' Hb'; try discriminate Hb'.
  all: inversion Hb'; subst b'; cbn.
  all: split; [exact Hrid|]; split; [reflexivity|]; split.
  all: try (apply in_map_iff; exists r; split; [|exact Hrin];
            unfold Crud.has_id; now rewrite (proj2 (Z.eqb_eq _ _) Hrid)).
  all: eexists; apply in_map_iff; exists b; rewrite Hself; split; [reflexivity|auto].
Qed.

Lemma find_app_none {A : Type} (p : A -> bool) (l1 l2 : list A) :
  find p l1 = None -> find p (l1 ++ l2) = find p l2.
Proof.
  induction l1 as [|x l1 IH]; simpl; auto.
  destruct (p x); [discriminate|auto].
Qed.

(** With the sequence ahead of the table, the row read back after an
    insert is the row that was inserted. *)
Lemma find_fresh_id (w : World) (new : Booking) :
  fresh_ids w -> id new = next_id w ->
  find (Crud.has_id (next_id w)) (rows w ++ [new]) = Some new.
Proof.
  intros Hf Hid. rewrite find_app_none.
  - cbn. unfold Crud.has_id. rewrite Hid, Z.eqb_refl. reflexivity.
  - unfold fresh_ids in Hf. induction Hf as [|r l Hr Hl IH]; cbn; auto.
    unfold Crud.has_id at 1. destruct (id r =? next_id w) eqn:E; [|exact IH].
    apply Z.eqb_eq in E. lia.
Qed.

(** The replay check: a stored booking whose [booking_ref] is the supplied
    idempotency key is returned after the lookup alone. *)
Lemma book_replays_stored_booking
      (env : Env) (payload : BookPayload) (w : World) (key : string) (b : Booking)
      (c : Customer) (s e : datetime) :
  p_customer payload = Some c ->
  negb (Py.truthy (p_start payload)) || negb (Py.truthy (p_end payload))
  || negb (Py.truthy (p_service_id payload)) = false ->
  parse_range (str_of (p_start payload)) (str_of (p_end payload)) = Ok (Some (s, e)) ->
  p_idempotency_key payload = Some key -> Py.truthy (Some key) = true ->
  db_fault env w Select = None ->
  find (Crud.has_ref key) (rows w) = Some b ->
  book_body env payload w
  = (Ok (BookingBody (Some b), 200),
     {| rows := rows w; next_id := next_id w; trace := trace w ++ [Db Select None] |}).
Proof.
  intros Hc Hm Hp Hkey Ht Hsel Hf.
  run_io. rewrite Hc, Hm, Hp, Hkey, Ht. cbn [str_of].
  rewrite Hsel. cbn [fst snd rows trace next_id]. rewrite Hf. reflexivity.
Qed.

(** A create that succeeded with [booking_ref] equal to the idempotency key
    leaves its booking where the replay check looks for it, and called
    [createEvent] once unless it was a replay itself. *)
Lemma book_success_is_stored
      (env : Env) (payload : BookPayload) (w : World) (key : string) (b : Booking) :
  p_idempotency_key payload = Some key -> p_booking_ref payload = Some key ->
  Py.truthy (Some key) = true -> fresh_ids w ->
  fst (book_body env payload w) = Ok (BookingBody (Some b), 200) ->
  find (Crud.has_ref key) (rows (snd (book_body env payload w))) = Some b
  /\ List.length (filter is_create (effects_of (book_body env payload) w))
     = match find (Crud.has_ref key) (rows w) with Some _ => 0%nat | None => 1%nat end
  /\ hd_error (effects_of (book_body env payload) w) = Some (Db Select None)
  /\ exists c s e,
      p_customer payload = Some c
      /\ negb (Py.truthy (p_start payload)) || negb (Py.truthy (p_end payload))
         || negb (Py.truthy (p_service_id payload)) = false
      /\ parse_range (str_of (p_start payload)) (str_of (p_end payload)) = Ok (Some (s, e)).
Proof.
  intros Hkey Href Ht Hfresh. unfold effects_of.
  destruct (book_body env payload w) as [r w1] eqn:Hrun. cbn [fst snd].
  pattern r, w1.
  match goal with |- ?P r w1 => set (post := P) end.
  revert Hrun. run_io. rewrite Hkey, Href, Ht. cbn [str_of].
  repeat case_step.
  all: intros Hrun; inversion Hrun; subst r w1; clear Hrun; subst post; cbn beta.
  all: intros Hok; try discriminate Hok.
  all: inversion Hok; subst; clear Hok.
  all: show_effects.
  all: try match goal with
           | H : _ || true = false |- _ => rewrite orb_true_r in H; discriminate H
           end.
  all: split; [|split; [reflexivity|split; [reflexivity|do 3 eexists; repeat split; reflexivity]]].
  - assumption.
  - match goal with
    | H : find (Crud.has_id _) _ = Some _ |- _ =>
        rewrite find_fresh_id in H by (assumption || reflexivity);
        inversion H; subst; clear H
    end.
    rewrite find_app_none by assumption. cbn. unfold Crud.has_ref. cbn.
    rewrite String.eqb_refl. rewrite <- ?app_assoc. reflexivity.
Qed.

(** [fresh_ids] is an invariant of the three handlers. *)
Lemma fresh_ids_insert (w : World) (new : Booking) (t : list Effect) :
  fresh_ids w -> id new = next_id w ->
  fresh_ids {| rows := rows w ++ [new]; next_id := next_id w + 1; trace := t |}.
Proof.
  unfold fresh_ids. cbn. intros Hf Hid. apply Forall_app. split.
  - eapply Forall_impl; [|exact Hf]. cbn. intros; lia.
  - repeat constructor. lia.
Qed.

Lemma fresh_ids_update (w : World) (id0 : Z) (change : Booking -> Booking) (t : list Effect) :
  (forall r, id (change r) = id r) -> fresh_ids w ->
  fresh_ids {| rows := map (fun r => if Crud.has_id id0 r then change r else r) (rows w);
               next_id := next_id w; trace := t |}.
Proof.
  unfold fresh_ids. cbn. intros Hid Hf. apply Forall_map.
  eapply Forall_impl; [|exact Hf]. cbn. intros r Hr.
  destruct (Crud.has_id id0 r); [rewrite Hid|]; exact Hr.
Qed.

Lemma fresh_ids_same_rows (w : World) (t : list Effect) :
  fresh_ids w -> fresh_ids {| rows := rows w; next_id := next_id w; trace := t |}.
Proof. auto. Qed.

Ltac keep_fresh :=
  first [ assumption
        | apply fresh_ids_same_rows; assumption
        | apply fresh_ids_insert; [assumption|reflexivity]
        | apply fresh_ids_update; [reflexivity|assumption] ].

Lemma book_keeps_fresh_ids (env : Env) (payload : BookPayload) (w : World) :
  fresh_ids w -> fresh_ids (snd (book_body env payload w)).
Proof.
  intros Hf. destruct (book_body env payload w) as [r w1] eqn:Hrun. cbn [snd].
  revert Hrun. run_io. repeat case_step.
  all: intros Hrun; inversion Hrun; subst r w1; clear Hrun.
  all: keep_fresh.
Qed.

Lemma reschedule_keeps_fresh_ids (env : Env) (payload : ReschedulePayload) (w : World) :
  fresh_ids w -> fresh_ids (snd (reschedule_body env payload w)).
Proof.
  intros Hf. destruct (reschedule_body env payload w) as [r w1] eqn:Hrun. cbn [snd].
  revert Hrun. run_io. repeat case_step.
  all: intros Hrun; inversion Hrun; subst r w1; clear Hrun.
  all: keep_fresh.
Qed.

Lemma cancel_keeps_fresh_ids (env : Env) (booking_ref0 : option string) (w : World) :
  fresh_ids w -> fresh_ids (snd (cancel_body env booking_ref0 w)).
Proof.
  intros Hf. destruct (cancel_body env booking_ref0 w) as [r w1] eqn:Hrun. cbn [snd].
  revert Hrun. run_io. repeat case_step.
  all: intros Hrun; inversion Hrun; subst r w1; clear Hrun.
  all: keep_fresh.
Qed.

(** X23. Replay by booking reference, inside the session loop.  The
    replay check looks the idempotency key up as a [booking_ref].  For two
    runs of the create handler's body with the same arguments whose
    [booking_ref] equals the supplied idempotency key, the first of which
    succeeded with booking [b]: the second run (its lookup succeeding)
    returns [b] again, its only effect is that lookup - no calendar call
    and no write, so the booking table is unchanged - and the first run
    made one [createEvent], or none if it was a replay itself, after its
    own lookup, which is the first thing it did. *)
Theorem idempotent_replay_by_booking_ref
        (env1 env2 : Env) (payload : BookPayload) (w : World) (key : string) (b : Booking) :
  p_idempotency_key payload = Some key -> p_booking_ref payload = Some key ->
  Py.truthy (Some key) = true -> fresh_ids w ->
  fst (book_body env1 payload w) = Ok (BookingBody (Some b), 200) ->
  db_fault env2 (snd (book_body env1 payload w)) Select = None ->
  fst (book_body env2 payload (snd (book_body env1 payload w))) = Ok (BookingBody (Some b), 200)
  /\ rows (snd (book_body env2 payload (snd (book_body env1 payload w))))
     = rows (snd (book_body env1 payload w))
  /\ effects_of (book_body env2 payload) (snd (book_body env1 payload w)) = [Db Select None]
  /\ List.length (filter is_create (effects_of (book_body env1 payload) w))
     = match find (Crud.has_ref key) (rows w) with Some _ => 0%nat | None => 1%nat end
  /\ hd_error (effects_of (book_body env1 payload) w) = Some (Db Select None).
Proof.
  intros Hkey Href Ht Hfresh Hok Hsel.
  destruct (book_success_is_stored env1 payload w key b Hkey Href Ht Hfresh Hok)
    as (Hstored & Hcount & Hfirst & c & s & e & Hc & Hm & Hp).
  unfold effects_of at 1.
  rewrite (book_replays_stored_booking env2 payload (snd (book_body env1 payload w)) key b c s e
             Hc Hm Hp Hkey Ht Hsel Hstored).
  cbn [fst snd rows trace]. rewrite skipn_own_length. auto.
Qed.

End HandlerFacts.

Section HandlerExamples.

Local Open Scope string_scope.

Local Existing Instance IsoFragment.iso_fragment.

Lemma idempotent_replay_by_booking_ref_witness :
  exists b,
    fst (book_body Doubles.healthy Doubles.replay_request Doubles.empty_world)
    = Ok (BookingBody (Some b), 200)
    /\ fst (book_body Doubles.healthy Doubles.replay_request
              (snd (book_body Doubles.healthy Doubles.replay_request Doubles.empty_world)))
       = Ok (BookingBody (Some b), 200)
    /\ rows (snd (book_body Doubles.healthy Doubles.replay_request
                    (snd (book_body Doubles.healthy Doubles.replay_request Doubles.empty_world))))
       = rows (snd (book_body Doubles.healthy Doubles.replay_request Doubles.empty_world))
    /\ effects_of (book_body Doubles.healthy Doubles.replay_request)
         (snd (book_body Doubles.healthy Doubles.replay_request Doubles.empty_world))
       = [Db Select None]
    /\ List.length (filter is_create
                      (effects_of (book_body Doubles.healthy Doubles.replay_request)
                         Doubles.empty_world))
       = 1%nat
    /\ hd_error (effects_of (book_body Doubles.healthy Doubles.replay_request)
                   Doubles.empty_world)
       = Some (Db Select None).
Proof.
  eexists. split; [vm_compute; reflexivity|].
  apply (idempotent_replay_by_booking_ref Doubles.healthy Doubles.healthy
           Doubles.replay_request Doubles.empty_world "key-1").
  - reflexivity.
  - reflexivity.
  - reflexivity.
  - constructor.
  - vm_compute. reflexivity.
  - reflexivity.
Defined.


Lemma compensation_on_create_witness :
  exists d,
    fst (book_body Doubles.database_down Doubles.plain_request Doubles.empty_world)
    = Ok (ErrorBody "db_create_failed" (Some Doubles.connection_lost), 500)
    /\ filter is_create
         (effects_of (book_body Doubles.database_down Doubles.plain_request) Doubles.empty_world)
       = [CalCreateEvent "primary"
            (create_event_body Doubles.plain_request Doubles.alice "Consultation"
               "2025-12-01T10:00:00Z" "2025-12-01T10:30:00Z")
            (inr {| ev_id := Some "evt-0"%string |})]
    /\ filter is_delete
         (effects_of (book_body Doubles.database_down Doubles.plain_request) Doubles.empty_world)
       = [CalDeleteEvent "primary" (Some "evt-0"%string) d]
    /\ filter is_delete
         (after_first is_create
            (effects_of (book_body Doubles.database_down Doubles.plain_request)
               Doubles.empty_world))
       = [CalDeleteEvent "primary" (Some "evt-0"%string) d]
    /\ match d with
       | Some _ =>
           last (effects_of (book_body Doubles.database_down Doubles.plain_request)
                   Doubles.empty_world) (Log "")
           = Log "Failed to rollback calendar event after DB failure"
       | None => True
       end.
Proof.
  apply (compensation_on_create Doubles.database_down Doubles.plain_request
           Doubles.empty_world "primary"
           (create_event_body Doubles.plain_request Doubles.alice "Consultation"
              "2025-12-01T10:00:00Z" "2025-12-01T10:30:00Z")
           {| ev_id := Some "evt-0"%string |} Commit Doubles.connection_lost).
  - vm_compute. left. reflexivity.
  - vm_compute. right. left. reflexivity.
Defined.

Lemma abort_on_external_failure_witness :
  (fst (book_body (Doubles.with_create_event (inl Doubles.timeout) Doubles.healthy)
          Doubles.plain_request Doubles.empty_world)
   = Ok (ErrorBody "calendar_create_failed" (Some Doubles.timeout), 500)
   /\ rows (snd (book_body (Doubles.with_create_event (inl Doubles.timeout) Doubles.healthy)
                   Doubles.plain_request Doubles.empty_world))
      = rows Doubles.empty_world
   /\ filter is_write
        (effects_of (book_body (Doubles.with_create_event (inl Doubles.timeout) Doubles.healthy)
                       Doubles.plain_request) Doubles.empty_world) = [])
  /\ (fst (reschedule_body (Doubles.with_update_event (Some Doubles.timeout) Doubles.healthy)
             Doubles.move_request Doubles.confirmed_world)
      = Ok (ErrorBody "calendar_update_failed" (Some Doubles.timeout), 500)
      /\ rows (snd (reschedule_body (Doubles.with_update_event (Some Doubles.timeout) Doubles.healthy)
                      Doubles.move_request Doubles.confirmed_world))
         = rows Doubles.confirmed_world
      /\ filter is_write
           (effects_of (reschedule_body
                          (Doubles.with_update_event (Some Doubles.timeout) Doubles.healthy)
                          Doubles.move_request) Doubles.confirmed_world) = []).
Proof.
  split.
  - apply (proj1 (abort_on_external_failure
                    (Doubles.with_create_event (inl Doubles.timeout) Doubles.healthy)
                    Doubles.empty_world)
             Doubles.plain_request "primary"
             (create_event_body Doubles.plain_request Doubles.alice "Consultation"
                "2025-12-01T10:00:00Z" "2025-12-01T10:30:00Z")
             Doubles.timeout).
    vm_compute. left. reflexivity.
  - apply (proj2 (abort_on_external_failure
                    (Doubles.with_update_event (Some Doubles.timeout) Doubles.healthy)
                    Doubles.confirmed_world)
             Doubles.move_request "primary" "evt-0"
             (JObj (time_window "2025-12-02T10:00:00Z" "2025-12-02T10:30:00Z"))
             Doubles.timeout).
    vm_compute. right. left. reflexivity.
Defined.

Lemma cancel_survives_delete_failure_witness :
  exists d,
    filter is_calendar_call
      (effects_of (cancel_body (Doubles.with_delete_event (Some Doubles.timeout) Doubles.healthy)
                     (Some "BK-1")) Doubles.confirmed_world)
    = [CalDeleteEvent "primary" (Some "evt-0") d]
    /\ match d with
       | Some _ =>
           In (Log "Google delete_event failed; attempting to mark cancelled in DB")
              (effects_of (cancel_body (Doubles.with_delete_event (Some Doubles.timeout)
                                          Doubles.healthy)
                             (Some "BK-1")) Doubles.confirmed_world)
       | None => True
       end
    /\ (exists answer,
           In (Db Select answer)
              (after_first is_delete
                 (effects_of (cancel_body (Doubles.with_delete_event (Some Doubles.timeout)
                                             Doubles.healthy)
                                (Some "BK-1")) Doubles.confirmed_world)))
    /\ (forall b',
           fst (cancel_body (Doubles.with_delete_event (Some Doubles.timeout) Doubles.healthy)
                  (Some "BK-1") Doubles.confirmed_world)
           = Ok (BookingBody (Some b'), 200) ->
           id b' = 1 /\ status b' = "cancelled"
           /\ In b' (rows (snd (cancel_body (Doubles.with_delete_event (Some Doubles.timeout)
                                               Doubles.healthy)
                                  (Some "BK-1") Doubles.confirmed_world)))
           /\ exists now,
               In (set_status "cancelled" now (Doubles.stored 1 "BK-1" "confirmed"))
                  (rows (snd (cancel_body (Doubles.with_delete_event (Some Doubles.timeout)
                                             Doubles.healthy)
                                (Some "BK-1") Doubles.confirmed_world))))
    /\ ((forall op e,
            ~ In (Db op (Some e))
                 (effects_of (cancel_body (Doubles.with_delete_event (Some Doubles.timeout)
                                             Doubles.healthy)
                                (Some "BK-1")) Doubles.confirmed_world)) ->
        exists b',
          fst (cancel_body (Doubles.with_delete_event (Some Doubles.timeout) Doubles.healthy)
                 (Some "BK-1") Doubles.confirmed_world)
          = Ok (BookingBody (Some b'), 200)).
Proof.
  apply (cancel_survives_delete_failure
           (Doubles.with_delete_event (Some Doubles.timeout) Doubles.healthy)
           (Some "BK-1") Doubles.confirmed_world
           (Doubles.stored 1 "BK-1" "confirmed")).
  - reflexivity.
  - reflexivity.
  - reflexivity.
Defined.

(** The same run, evaluated: the delete fails, the row is cancelled. *)
Example cancel_after_failed_delete :
  option_map
    (fun r => match r with
              | (BookingBody (Some b'), code) => (status b', code)
              | (_, code) => (EmptyString, code)
              end)
    (match fst (cancel_body (Doubles.with_delete_event (Some Doubles.timeout) Doubles.healthy)
                  (Some "BK-1") Doubles.confirmed_world) with
     | Ok r => Some r
     | _ => None
     end)
  = Some ("cancelled", 200)
  /\ map status
       (rows (snd (cancel_body (Doubles.with_delete_event (Some Doubles.timeout)
                                  Doubles.healthy)
                     (Some "BK-1") Doubles.confirmed_world)))
     = ["cancelled"].
Proof. split; vm_compute; reflexivity. Qed.

(** A create that goes through: the event, the insert, the read-back and
    the confirmation task, in this order. *)
Example book_effects :
  effects_of (book_body Doubles.healthy Doubles.plain_request) Doubles.empty_world
  = [CalCreateEvent "primary"
       (create_event_body Doubles.plain_request Doubles.alice "Consultation"
          "2025-12-01T10:00:00Z" "2025-12-01T10:30:00Z")
       (inr {| ev_id := Some "evt-0" |});
     Db Commit None; Db Refresh None;
     EmailTask (Some "alice@example.com") "BK-1700000001"].
Proof. vm_compute. reflexivity. Qed.

(** The scenario of the specification: a reschedule of an unknown
    reference answers [booking_not_found] without a calendar call. *)
Example reschedule_unknown_ref :
  fst (reschedule_body Doubles.healthy Doubles.move_request Doubles.empty_world)
  = Ok (ErrorBody "booking_not_found" None, 404)
  /\ filter is_calendar_call
       (effects_of (reschedule_body Doubles.healthy Doubles.move_request) Doubles.empty_world)
     = [].
Proof. split; vm_compute; reflexivity. Qed.

End HandlerExamples.

(* ===================================================================== *)
(** * Further properties of the code                                       *)
(* ===================================================================== *)

(** ** The merger composed with the slot generator *)

Lemma last_of_some (merged : list interval) (x : interval) :
  last_of merged = Some x -> exists init, merged = init ++ [x].
Proof.
  unfold last_of. intros H. destruct (rev merged) as [|y r] eqn:E; [discriminate|].
  inversion H; subst y. exists (rev r).
  rewrite <- (rev_involutive merged), E. reflexivity.
Qed.

Lemma last_of_none (merged : list interval) : last_of merged = None -> merged = [].
Proof.
  unfold last_of. destruct (rev merged) as [|y r] eqn:E; [|discriminate].
  intros _. rewrite <- (rev_involutive merged), E. reflexivity.
Qed.

(** What the merger returns on proper intervals of one kind. *)
Lemma merge_busy_returns (k : bool) (busy : list interval) :
  Forall (same_kind k) busy -> Forall proper busy ->
  exists merged,
    merge_busy busy = Ok merged
    /\ Forall (same_kind k) merged /\ Forall proper merged
    /\ StronglySorted before merged
    /\ (forall a, In a busy -> exists J, In J merged /\ contains J a)
    /\ (forall J, In J merged ->
                  (exists a, In a busy /\ fst a = fst J)
                  /\ (exists b, In b busy /\ snd b = snd J)).
Proof.
  intros Hk Hp.
  assert (Hperm := stable_sort_perm busy).
  assert (Hsorted := stable_sort_sorted busy).
  assert (Hk' : Forall (same_kind k) (stable_sort busy))
    by (eapply Permutation_Forall; [symmetry; exact Hperm|exact Hk]).
  assert (Hp' : Forall proper (stable_sort busy))
    by (eapply Permutation_Forall; [symmetry; exact Hperm|exact Hp]).
  unfold merge_busy. rewrite (sort_by_start_same k) by assumption. cbn [Py.bind].
  destruct (stable_sort busy) as [|x rest] eqn:Es.
  - apply Permutation_nil in Hperm. subst busy.
    exists []. cbn. split; [reflexivity|]. split; [constructor|].
    split; [constructor|]. split; [constructor|]. split; intros a [].
  - cbn [merge_loop last_of rev].
    apply Forall_cons_iff in Hk'. destruct Hk' as [Hkx Hkr].
    apply Forall_cons_iff in Hp'. destruct Hp' as [Hpx Hpr].
    apply StronglySorted_inv in Hsorted. destruct Hsorted as [Hsr Hxr].
    destruct (merge_loop_snoc k rest [] x) as (out & Hout & Hko & Hpo & Hso & Hcov & Hends);
      [now constructor|assumption|now constructor|assumption
      |repeat constructor|assumption|assumption|].
    exists out. split; [exact Hout|]. split; [exact Hko|]. split; [exact Hpo|].
    split; [exact Hso|]. split; [|intros J HJ; split].
    + intros a Ha. apply Hcov.
      apply (Permutation_in a (Permutation_sym Hperm)) in Ha.
      destruct Ha as [Ha|Ha]; [left; now left|now right].
    + destruct (Hends J HJ) as [(a & Ha & Hfst) _].
      exists a. split; [|exact Hfst].
      apply (Permutation_in a Hperm).
      destruct Ha as [[Ha|[]]|Ha]; [left; exact Ha|now right].
    + destruct (Hends J HJ) as [_ (b & Hb & Hsnd)].
      exists b. split; [|exact Hsnd].
      apply (Permutation_in b Hperm).
      destruct Hb as [[Hb|[]]|Hb]; [left; exact Hb|now right].
Qed.

(** Merged intervals end where given intervals end, so they leave the room
    the given ones leave. *)
Lemma merged_roomy (d : Z) (busy merged : list interval) :
  Forall (roomy_interval d) busy ->
  (forall J, In J merged ->
             (exists a, In a busy /\ fst a = fst J)
             /\ (exists b, In b busy /\ snd b = snd J)) ->
  Forall (roomy_interval d) merged.
Proof.
  intros Hr Hends. rewrite Forall_forall in *. intros J HJ.
  destruct (Hends J HJ) as [(a & Ha & Hfst) (b & Hb & Hsnd)].
  split; [rewrite <- Hfst; apply (Hr a Ha)|rewrite <- Hsnd; apply (Hr b Hb)].
Qed.

(** X1. Merging and slot generation composed: for busy intervals of naive
    instants with [start < end], in any order and overlapping at will, a
    naive window and a positive duration, where every instant given is at
    least [d] minutes before [datetime.max] (so that no sum overflows),
    the merger and the slot generator both return; every slot is exactly
    [d] minutes long, starts at or after the window start, overlaps none
    of the busy intervals that were given, and the slots are in ascending
    order without overlap. *)
Theorem slots_avoid_every_busy_interval
        (busy : list interval) (start_dt end_dt : datetime) (d : Z) :
  0 < d -> is_aware start_dt = false -> is_aware end_dt = false ->
  roomy d start_dt -> roomy d end_dt ->
  Forall (same_kind false) busy -> Forall proper busy ->
  Forall (roomy_interval d) busy ->
  exists merged slots,
    merge_busy busy = Ok merged
    /\ generate_slots merged start_dt end_dt d = Ok slots
    /\ Forall (lasts d) slots
    /\ Forall (fun s => utc_key start_dt <= slot_lo s) slots
    /\ (forall a s, In a busy -> In s slots -> clear_of a s)
    /\ StronglySorted slot_before slots.
Proof.
  intros Hd Hs He Hrs Hre Hk Hp Hr.
  destruct (merge_busy_returns false busy Hk Hp)
    as (merged & Hm & Hkm & Hpm & Hsm & Hcov & Hends).
  destruct (generate_slots_sound merged start_dt end_dt d Hd Hs He Hrs Hre Hkm Hpm
              (merged_roomy d busy merged Hr Hends) Hsm)
    as (slots & Hg & Hlen & Hlo & Hclear & Hsorted & _).
  exists merged, slots. repeat split; auto.
  intros a s Ha Hin. destruct (Hcov a Ha) as (J & HJ & Hc).
  destruct (Hclear J s HJ Hin) as [H|H]; unfold clear_of, contains in *; [left|right]; lia.
Qed.

Lemma slots_avoid_every_busy_interval_witness :
  exists merged slots,
    merge_busy Doubles.touching_busy = Ok merged
    /\ generate_slots merged (IsoFragment.naive 2025 12 1 9 0)
         (IsoFragment.naive 2025 12 1 11 0) 30 = Ok slots
    /\ Forall (lasts 30) slots
    /\ Forall (fun s => utc_key (IsoFragment.naive 2025 12 1 9 0) <= slot_lo s) slots
    /\ (forall a s, In a Doubles.touching_busy -> In s slots -> clear_of a s)
    /\ StronglySorted slot_before slots.
Proof.
  apply (slots_avoid_every_busy_interval Doubles.touching_busy
           (IsoFragment.naive 2025 12 1 9 0) (IsoFragment.naive 2025 12 1 11 0) 30).
  - reflexivity.
  - reflexivity.
  - reflexivity.
  - split; [vm_compute; discriminate|vm_compute; reflexivity].
  - split; [vm_compute; discriminate|vm_compute; reflexivity].
  - repeat constructor.
  - repeat constructor.
  - repeat constructor; vm_compute; discriminate.
Defined.

(** ** The merger alone *)

Lemma merge_loop_separated (k : bool) :
  forall (rest init : list interval) (last : interval),
    Forall (same_kind k) (last :: rest) -> StronglySorted before (last :: rest) ->
    merge_loop (init ++ [last]) rest = Ok (init ++ last :: rest).
Proof.
  induction rest as [|i rest IH]; intros init last Hk Hs; [reflexivity|].
  cbn [merge_loop]. rewrite last_of_snoc.
  apply Forall_cons_iff in Hk. destruct Hk as [[_ Hl] Hk].
  assert (Hk' := Hk). apply Forall_cons_iff in Hk'. destruct Hk' as [[Hi _] _].
  apply StronglySorted_inv in Hs. destruct Hs as [Hs Hb].
  apply Forall_cons_iff in Hb. destruct Hb as [Hb _].
  rewrite (dt_le_same k) by assumption. cbn [Py.bind].
  replace (utc_key (fst i) <=? utc_key (snd last)) with false
    by (symmetry; apply Z.leb_gt; exact Hb).
  rewrite (IH (init ++ [last]) i Hk Hs). now rewrite <- app_assoc.
Qed.

Lemma stable_sort_of_sorted (l : list interval) :
  StronglySorted (fun a b => lo a < lo b) l -> stable_sort l = l.
Proof.
  induction 1 as [|x l Hs IH Hx]; [reflexivity|].
  cbn [stable_sort]. rewrite IH. destruct l as [|y l]; [reflexivity|].
  cbn [sort_insert]. apply Forall_cons_iff in Hx. destruct Hx as [Hx _].
  replace (utc_key (fst y) <? utc_key (fst x)) with false; [reflexivity|].
  symmetry. apply Z.ltb_ge. unfold lo in Hx. lia.
Qed.

(** X2. Merging is idempotent: on proper busy intervals of one kind the
    merger returns a list that the merger returns unchanged. *)
Theorem merge_busy_idempotent (k : bool) (busy : list interval) :
  Forall (same_kind k) busy -> Forall proper busy ->
  exists merged, merge_busy busy = Ok merged /\ merge_busy merged = Ok merged.
Proof.
  intros Hk Hp.
  destruct (merge_busy_returns k busy Hk Hp) as (merged & Hm & Hkm & Hpm & Hsm & _ & _).
  exists merged. split; [exact Hm|].
  unfold merge_busy. rewrite (sort_by_start_same k) by assumption. cbn [Py.bind].
  rewrite stable_sort_of_sorted.
  - destruct merged as [|x rest]; [reflexivity|].
    cbn [merge_loop last_of rev].
    apply (merge_loop_separated k rest [] x); assumption.
  - eapply (StronglySorted_weaken proper before); [|exact Hpm|exact Hsm].
    unfold proper, before. intros; lia.
Qed.

Lemma merge_busy_idempotent_witness :
  exists merged,
    merge_busy Doubles.touching_busy = Ok merged /\ merge_busy merged = Ok merged.
Proof.
  apply (merge_busy_idempotent false Doubles.touching_busy); repeat constructor.
Defined.

(** The merge loop never marks an instant busy that no interval covers. *)
Lemma merge_loop_tight (k : bool) (pool : list interval) :
  forall (rest merged : list interval),
    Forall (same_kind k) merged -> Forall (same_kind k) rest ->
    (forall a, In a rest -> In a pool) ->
    (forall J x, In J merged -> lo J <= x <= hi J -> covered pool x) ->
    exists out,
      merge_loop merged rest = Ok out
      /\ Forall (same_kind k) out
      /\ (forall J x, In J out -> lo J <= x <= hi J -> covered pool x).
Proof.
  induction rest as [|i rest IH]; intros merged Hk Hkr Hpool Hcov.
  - exists merged. cbn. auto.
  - apply Forall_cons_iff in Hkr. destruct Hkr as [[Hi1 Hi2] Hkr].
    assert (Hi : forall x, lo i <= x <= hi i -> covered pool x).
    { intros x Hx; exists i; split; [apply Hpool; now left|lia]. }
    cbn [merge_loop]. destruct (last_of merged) as [last|] eqn:El.
    + destruct (last_of_some merged last El) as [init ->].
      apply Forall_snoc in Hk. destruct Hk as [Hki [Hl1 Hl2]].
      rewrite (dt_le_same k) by assumption. cbn [Py.bind].
      destruct (utc_key (fst i) <=? utc_key (snd last)) eqn:E.
      * apply Z.leb_le in E.
        rewrite (dt_max_same k) by assumption. cbn [Py.bind]. rewrite set_last_snoc.
        apply IH; auto.
        -- apply Forall_snoc. split; auto. split; [exact Hl1|].
           cbn [snd]. destruct (utc_key (snd last) <? utc_key (snd i)); assumption.
        -- intros a Ha. apply Hpool. now right.
        -- intros J x HJ Hx. apply in_app_or in HJ. destruct HJ as [HJ|[HJ|[]]].
           ++ apply (Hcov J x); auto. apply in_or_app. now left.
           ++ subst J. unfold lo, hi in Hx. cbn [fst snd] in Hx.
              destruct (Z_le_gt_dec x (utc_key (snd last))).
              ** apply (Hcov last x); [apply in_or_app; right; now left|].
                 unfold lo, hi. lia.
              ** destruct (utc_key (snd last) <? utc_key (snd i)) eqn:E'; [|lia].
                 apply Hi. unfold lo, hi. lia.
      * apply IH; auto.
        -- apply Forall_snoc. split; [apply Forall_snoc; repeat split; assumption|].
           split; assumption.
        -- intros a Ha. apply Hpool. now right.
        -- intros J x HJ Hx. apply in_app_or in HJ. destruct HJ as [HJ|[HJ|[]]].
           ++ apply (Hcov J x); auto.
           ++ subst J. now apply Hi.
    + apply last_of_none in El. subst merged. apply IH; auto.
      * repeat constructor; assumption.
      * intros a Ha. apply Hpool. now right.
      * intros J x [HJ|[]] Hx. subst J. now apply Hi.
Qed.

(** X3. The merger adds no busy time: for busy intervals of one kind it
    returns, and every instant inside a merged interval lies inside one of
    the intervals that were given. *)
Theorem merged_covers_only_busy (k : bool) (busy : list interval) :
  Forall (same_kind k) busy ->
  exists merged,
    merge_busy busy = Ok merged
    /\ forall J x, In J merged -> lo J <= x <= hi J -> covered busy x.
Proof.
  intros Hk.
  assert (Hperm := stable_sort_perm busy).
  assert (Hk' : Forall (same_kind k) (stable_sort busy))
    by (eapply Permutation_Forall; [symmetry; exact Hperm|exact Hk]).
  unfold merge_busy. rewrite (sort_by_start_same k) by assumption. cbn [Py.bind].
  destruct (merge_loop_tight k busy (stable_sort busy) []) as (out & Hout & _ & Ht); auto.
  - intros a Ha. apply (Permutation_in a Hperm Ha).
  - intros J x [].
  - exists out. auto.
Qed.

Lemma merged_covers_only_busy_witness :
  exists merged,
    merge_busy Doubles.touching_busy = Ok merged
    /\ forall J x, In J merged -> lo J <= x <= hi J -> covered Doubles.touching_busy x.
Proof.
  apply (merged_covers_only_busy false Doubles.touching_busy). repeat constructor.
Defined.

(** ** A day without busy time *)

Lemma plus_minutes_plus_minutes (t : datetime) (a b : Z) :
  plus_minutes (plus_minutes t a) b = plus_minutes t (a + b).
Proof. unfold plus_minutes. cbn. f_equal. lia. Qed.

(** The packing loop, started at the [i]-th tile, appends the tiles that
    are left. *)
Lemma pack_loop_tiles (d : Z) (bound t0 : datetime) :
  0 < d -> is_aware t0 = false -> is_aware bound = false ->
  roomy d t0 -> roomy d bound ->
  forall (fuel i : nat) (slots : list Slot),
    (i <= Z.to_nat ((utc_key bound - utc_key t0) / (d * us_per_minute)))%nat ->
    (Z.to_nat ((utc_key bound - utc_key t0) / (d * us_per_minute)) - i < fuel)%nat ->
    pack_loop fuel d bound slots (plus_minutes t0 (Z.of_nat i * d))
    = Ok (slots ++ map (tile d t0)
                       (seq i (Z.to_nat ((utc_key bound - utc_key t0) / (d * us_per_minute)) - i))).
Proof.
  intros Hd Hk0 Hkb [Ht0 Ht1] [Hb0 Hb1].
  rewrite (naive_key t0 Hk0), (naive_key bound Hkb).
  remember (Z.to_nat ((wall bound - wall t0) / (d * us_per_minute))) as n eqn:En.
  assert (HD : 0 < d * us_per_minute) by (unfold us_per_minute; lia).
  assert (Hn : forall j : Z, 0 < j ->
                 (j * (d * us_per_minute) <= wall bound - wall t0 <-> j <= Z.of_nat n)).
  { intros j Hj. subst n. split; intros H.
    - assert (j <= (wall bound - wall t0) / (d * us_per_minute))
        by (apply Z.div_le_lower_bound; lia).
      lia.
    - assert (Hq : j <= (wall bound - wall t0) / (d * us_per_minute)) by lia.
      assert (Hm := Z.mul_div_le (wall bound - wall t0) (d * us_per_minute) HD).
      nia. }
  induction fuel as [|fuel IH]; intros i slots Hi Hfuel; [lia|].
  cbn [pack_loop].
  assert (Hsum : in_range (plus_minutes (plus_minutes t0 (Z.of_nat i * d)) d) = true).
  { apply in_range_spec. cbn [wall plus_minutes]. split; [nia|].
    destruct (Nat.eq_dec i 0) as [->|Hi0]; [cbn [Z.of_nat]; lia|].
    assert (Z.of_nat i * (d * us_per_minute) <= wall bound - wall t0)
      by (apply Hn; lia).
    lia. }
  rewrite (add_minutes_ok _ _ Hsum). cbn [Py.bind].
  unfold dt_le, comparable. rewrite !is_aware_plus_minutes, Hk0, Hkb.
  cbn [Bool.eqb Py.bind]. rewrite !utc_key_plus_minutes.
  rewrite (naive_key t0 Hk0), (naive_key bound Hkb).
  destruct (Nat.eq_dec i n) as [->|Hne].
  - replace (wall t0 + Z.of_nat n * d * us_per_minute + d * us_per_minute
             <=? wall bound) with false.
    + rewrite Nat.sub_diag. cbn. now rewrite app_nil_r.
    + symmetry. apply Z.leb_gt.
      assert (~ (Z.of_nat n + 1) * (d * us_per_minute) <= wall bound - wall t0)
        by (rewrite Hn; lia).
      lia.
  - replace (wall t0 + Z.of_nat i * d * us_per_minute + d * us_per_minute
             <=? wall bound) with true.
    + rewrite plus_minutes_plus_minutes.
      replace (Z.of_nat i * d + d) with (Z.of_nat (S i) * d) by lia.
      rewrite IH by lia.
      replace (n - i)%nat with (S (n - S i)) by lia.
      cbn [seq map]. rewrite <- app_assoc. cbn [app]. unfold tile at 2.
      replace (Z.of_nat (S i) * d) with ((Z.of_nat i + 1) * d) by lia.
      reflexivity.
    + symmetry. apply Z.leb_le.
      assert ((Z.of_nat i + 1) * (d * us_per_minute) <= wall bound - wall t0)
        by (rewrite Hn; lia).
      lia.
Qed.

Lemma at_hour_returns (date : datetime) (hour : Z) :
  0 <= hour <= 23 ->
  at_hour date hour
  = Ok {| wall := (wall date / us_per_day) * us_per_day + hour * us_per_hour;
          utcoffset := None |}.
Proof.
  intros H. unfold at_hour.
  replace (0 <=? hour) with true by (symmetry; apply Z.leb_le; lia).
  replace (hour <=? 23) with true by (symmetry; apply Z.leb_le; lia).
  reflexivity.
Qed.

(** An hour of a day that [datetime] can hold is a reading it can hold. *)
Lemma at_hour_bounds (date : datetime) (hour : Z) :
  in_range date = true -> 0 <= hour <= 23 ->
  0 <= (wall date / us_per_day) * us_per_day + hour * us_per_hour
  /\ (wall date / us_per_day) * us_per_day + hour * us_per_hour
     < (wall date / us_per_day) * us_per_day + us_per_day
  /\ (wall date / us_per_day) * us_per_day + us_per_day <= max_wall.
Proof.
  intros Hr Hh. apply in_range_spec in Hr. unfold max_wall in *.
  assert (HD : 0 < us_per_day) by (unfold us_per_day; lia).
  assert (H0 : 0 <= wall date / us_per_day) by (apply Z.div_pos; lia).
  assert (H1 : wall date / us_per_day < 3652059)
    by (apply Z.div_lt_upper_bound; lia).
  unfold us_per_hour, us_per_day in *. lia.
Qed.

Section FreeDay.

Context {parser : IsoParser}.
Context {ints : IntParser}.

Lemma aggregate_calendars_idle (calendars : list (string * json)) (acc : list interval) :
  forallb (fun kv => idle_calendar (snd kv)) calendars = true ->
  aggregate_calendars acc calendars = Ok acc.
Proof.
  induction calendars as [|[cid cal_data] calendars IH]; intros H; [reflexivity|].
  cbn [forallb snd] in H. apply andb_prop in H. destruct H as [Hc Hrest].
  cbn [aggregate_calendars]. unfold idle_calendar in Hc.
  destruct cal_data as [| | | | |fields]; try discriminate Hc.
  cbn [Json.get Py.bind].
  destruct (Json.lookup "busy" fields) as [[| | | |[|]|]|]; try discriminate Hc;
    cbn [Json.iterate Py.bind parse_busy_entries]; auto.
Qed.

Lemma aggregate_busy_idle (freebusy_resp : json) :
  idle freebusy_resp = true -> aggregate_busy freebusy_resp = Ok [].
Proof.
  unfold idle, aggregate_busy.
  destruct freebusy_resp as [| | | | |fields]; try discriminate.
  cbn [Json.get Py.bind].
  destruct (Json.lookup "calendars" fields) as [[| | | | |calendars]|]; try discriminate.
  - intros H. destruct calendars as [|kv calendars]; [reflexivity|].
    cbn [Json.truthy Json.items Py.bind]. now apply aggregate_calendars_idle.
  - reflexivity.
Qed.

(** X4. A day without busy time is tiled from the start of the working
    window: when no calendar reports a busy entry, the date parses, both
    hours are hours of the day, the duration is positive and the day after
    the date plus the duration is not past [datetime.max] (so that no sum
    overflows), the slots are exactly the first
    [(work_end - work_start) * 60 / duration] consecutive intervals of
    that duration, starting at [work_start] (none when the window is empty
    or shorter than the duration). *)
Theorem free_day_is_tiled
        (freebusy_resp : json) (date_str : string) (date : datetime)
        (d work_start work_end : Z) :
  fromisoformat date_str = Some date ->
  idle freebusy_resp = true ->
  0 < d -> 0 <= work_start <= 23 -> 0 <= work_end <= 23 ->
  wall date + us_per_day + d * us_per_minute <= max_wall ->
  exists start_dt,
    at_hour date work_start = Ok start_dt
    /\ compute_free_slots_from_freebusy freebusy_resp date_str d work_start work_end
       = Ok (map (tile d start_dt)
                 (seq 0 (Z.to_nat ((work_end - work_start) * 60 / d)))).
Proof.
  intros Hdate Hidle Hd Hs He Hroom.
  assert (Hr := fromisoformat_in_range _ _ Hdate).
  destruct (at_hour_bounds date work_start Hr Hs) as (Hs0 & Hs1 & Hday).
  destruct (at_hour_bounds date work_end Hr He) as (He0 & He1 & _).
  assert (Hfloor : wall date / us_per_day * us_per_day <= wall date).
  { assert (H := Z.mul_div_le (wall date) us_per_day). unfold us_per_day in *. lia. }
  eexists. split; [apply at_hour_returns; exact Hs|].
  unfold compute_free_slots_from_freebusy.
  rewrite Hdate. cbn [Py.bind].
  rewrite (at_hour_returns date work_start Hs), (at_hour_returns date work_end He).
  cbn [Py.bind]. rewrite (aggregate_busy_idle _ Hidle). cbn [Py.bind].
  unfold merge_busy. cbn [sort_by_start keys_comparable stable_sort Py.bind merge_loop].
  unfold generate_slots. cbn [walk_busy Py.bind fst snd].
  unfold pack. replace (d =? 0) with false by (symmetry; apply Z.eqb_neq; lia).
  set (s := {| wall := wall date / us_per_day * us_per_day + work_start * us_per_hour;
               utcoffset := None |}).
  set (e := {| wall := wall date / us_per_day * us_per_day + work_end * us_per_hour;
               utcoffset := None |}).
  assert (Hrs : roomy d s) by (unfold roomy, s; cbn [wall]; lia).
  assert (Hre : roomy d e) by (unfold roomy, e; cbn [wall]; lia).
  assert (Hk : (utc_key e - utc_key s) / (d * us_per_minute)
               = (work_end - work_start) * 60 / d).
  { unfold utc_key, s, e. cbn [utcoffset wall].
    replace (wall date / us_per_day * us_per_day + work_end * us_per_hour
             - (wall date / us_per_day * us_per_day + work_start * us_per_hour))
      with ((work_end - work_start) * 60 * us_per_minute)
      by (unfold us_per_hour, us_per_minute; lia).
    apply Z.div_mul_cancel_r; unfold us_per_minute; lia. }
  assert (H := pack_loop_tiles d e s Hd eq_refl eq_refl Hrs Hre (pack_fuel d e s) 0 []).
  cbn [Z.of_nat] in H. rewrite Z.mul_0_l, plus_minutes_zero in H.
  rewrite Nat.sub_0_r in H. rewrite Hk in H. cbn [app] in H.
  apply H; [lia|]. unfold pack_fuel. rewrite (proj2 (Z.ltb_lt 0 d) Hd), Hk. lia.
Qed.

(** X5. A duration of zero never ends the packing loop: with no busy time
    and a working window that is not reversed, the loop condition holds at
    every test, so no number of iterations completes the slot list. *)
Theorem zero_duration_never_returns
        (freebusy_resp : json) (date_str : string) (date : datetime)
        (work_start work_end : Z) :
  fromisoformat date_str = Some date ->
  idle freebusy_resp = true ->
  0 <= work_start -> work_start <= work_end -> work_end <= 23 ->
  exists start_dt end_dt,
    at_hour date work_start = Ok start_dt
    /\ at_hour date work_end = Ok end_dt
    /\ (forall fuel slots, pack_loop fuel 0 end_dt slots start_dt = Diverge)
    /\ compute_free_slots_from_freebusy freebusy_resp date_str 0 work_start work_end
       = Diverge.
Proof.
  intros Hdate Hidle H0 Hle H23.
  assert (Hs : 0 <= work_start <= 23) by lia.
  assert (He : 0 <= work_end <= 23) by lia.
  do 2 eexists. split; [apply at_hour_returns; exact Hs|].
  split; [apply at_hour_returns; exact He|].
  assert (Hfit : dt_le
                   {| wall := wall date / us_per_day * us_per_day
                              + work_start * us_per_hour; utcoffset := None |}
                   {| wall := wall date / us_per_day * us_per_day
                              + work_end * us_per_hour; utcoffset := None |} = Ok true).
  { unfold dt_le, comparable, is_aware, utc_key. cbn.
    f_equal. apply Z.leb_le. unfold us_per_hour. lia. }
  assert (Hr : in_range
                 {| wall := wall date / us_per_day * us_per_day
                            + work_start * us_per_hour; utcoffset := None |} = true).
  { destruct (at_hour_bounds date work_start (fromisoformat_in_range _ _ Hdate) Hs)
      as (Hs0 & Hs1 & Hday).
    apply in_range_spec. cbn [wall]. lia. }
  split.
  - intros fuel slots. apply pack_loop_stuck; [exact Hr|exact Hfit].
  - unfold compute_free_slots_from_freebusy.
    rewrite Hdate. cbn [Py.bind].
    rewrite (at_hour_returns date work_start Hs), (at_hour_returns date work_end He).
    cbn [Py.bind]. rewrite (aggregate_busy_idle _ Hidle). cbn [Py.bind].
    unfold merge_busy. cbn [sort_by_start keys_comparable stable_sort Py.bind merge_loop].
    unfold generate_slots. cbn [walk_busy Py.bind fst snd].
    unfold pack. cbn [Z.eqb]. unfold add_minutes. rewrite plus_minutes_zero, Hr.
    cbn [Py.bind]. rewrite Hfit. reflexivity.
Qed.

(** ** Busy times with a UTC designator *)

Lemma merge_loop_nonempty :
  forall (rest merged out : list interval),
    merge_loop merged rest = Ok out -> merged <> [] \/ rest <> [] -> out <> [].
Proof.
  induction rest as [|i rest IH]; intros merged out Hrun Hne.
  - cbn in Hrun. inversion Hrun; subst out. destruct Hne as [H|H]; [exact H|congruence].
  - cbn [merge_loop] in Hrun. destruct (last_of merged) as [last|].
    + destruct (dt_le (fst i) (snd last)) as [[|]| |]; cbn [Py.bind] in Hrun;
        try discriminate Hrun.
      * destruct (dt_max (snd last) (snd i)) as [hi0| |]; cbn [Py.bind] in Hrun;
          try discriminate Hrun.
        apply (IH _ _ Hrun). left. unfold set_last.
        intros E. apply app_eq_nil in E. destruct E as [_ E]. discriminate E.
      * apply (IH _ _ Hrun). left.
        intros E. apply app_eq_nil in E. destruct E as [_ E]. discriminate E.
    + apply (IH _ _ Hrun). left.
      intros E. apply app_eq_nil in E. destruct E as [_ E]. discriminate E.
Qed.

(** X6. Busy times with a UTC designator make the function raise: when
    the response yields at least one busy interval and all of them are
    aware instants (the calendar service sends every time with a [Z]),
    the date parses and both hours are hours of the day, the function
    raises [TypeError] whatever the duration, and the availability handler
    answers 500 [freebusy_failed] with that error. *)
Theorem aware_busy_times_raise
        (freebusy_resp : json) (date_str : string) (date : datetime)
        (busy : list interval) (d work_start work_end : Z) :
  fromisoformat date_str = Some date ->
  0 <= work_start <= 23 -> 0 <= work_end <= 23 ->
  aggregate_busy freebusy_resp = Ok busy -> busy <> [] ->
  Forall (same_kind true) busy ->
  compute_free_slots_from_freebusy freebusy_resp date_str d work_start work_end
  = Raise TypeError
  /\ forall (env : Env) (calendar_ids : list string) (w : World),
      gcal_freebusy env w calendar_ids
        (String.append date_str "T00:00:00Z") (String.append date_str "T23:59:59Z")
      = inr freebusy_resp ->
      date_str <> EmptyString ->
      fst (availability_body env (mk_availability (Some date_str) d calendar_ids
                               work_start work_end) w)
      = Ok (ErrorBody "freebusy_failed" (Some TypeError), 500).
Proof.
  intros Hdate Hs He Hagg Hne Hk.
  assert (Hraise : compute_free_slots_from_freebusy freebusy_resp date_str d
                     work_start work_end = Raise TypeError).
  { unfold compute_free_slots_from_freebusy.
    rewrite Hdate. cbn [Py.bind].
    rewrite (at_hour_returns date work_start Hs), (at_hour_returns date work_end He).
    cbn [Py.bind]. rewrite Hagg. cbn [Py.bind].
    assert (Hperm := stable_sort_perm busy).
    assert (Hk' : Forall (same_kind true) (stable_sort busy))
      by (eapply Permutation_Forall; [symmetry; exact Hperm|exact Hk]).
    unfold merge_busy. rewrite (sort_by_start_same true) by assumption. cbn [Py.bind].
    destruct (merge_loop_tight true busy (stable_sort busy) [])
      as (merged & Hm & Hkm & _); auto.
    - intros a Ha. apply (Permutation_in a Hperm Ha).
    - intros J x [].
    - rewrite Hm. cbn [Py.bind].
      assert (Hmne : merged <> []).
      { apply (merge_loop_nonempty _ _ _ Hm). right.
        intros E. rewrite E in Hperm. apply Permutation_nil in Hperm. contradiction. }
      destruct merged as [|[bstart bend] rest]; [contradiction|].
      apply Forall_cons_iff in Hkm. destruct Hkm as [[Hb _] _].
      apply generate_slots_aware_busy; [exact Hb|reflexivity]. }
  split; [exact Hraise|].
  intros env calendar_ids w Hfb Hnonempty.
  unfold availability_body. cbn [a_date a_duration a_calendarIds a_work_start a_work_end].
  replace (Py.truthy (Some date_str)) with true
    by (destruct date_str; [contradiction|reflexivity]).
  cbn [negb str_of].
  unfold Collab.try_except, Collab.bind, Calendar.freebusy. rewrite Hfb.
  unfold Collab.bind, emit, ret, lift, raise. cbn [fst snd]. rewrite Hraise. reflexivity.
Qed.




End FreeDay.

Section FreeDayExamples.

Local Open Scope string_scope.
Local Existing Instance IsoFragment.iso_fragment.
Local Existing Instance IsoFragment.decimal_int.

Lemma free_day_is_tiled_witness :
  exists start_dt,
    at_hour Cases.midnight 9 = Ok start_dt
    /\ compute_free_slots_from_freebusy Cases.idle_response "2025-12-01" 45 9 12
       = Ok (map (tile 45 start_dt) (seq 0 (Z.to_nat ((12 - 9) * 60 / 45)))).
Proof.
  apply (free_day_is_tiled Cases.idle_response "2025-12-01" Cases.midnight 45 9 12).
  - reflexivity.
  - reflexivity.
  - lia.
  - lia.
  - lia.
  - vm_compute. discriminate.
Defined.

Lemma zero_duration_never_returns_witness :
  exists start_dt end_dt,
    at_hour Cases.midnight 9 = Ok start_dt
    /\ at_hour Cases.midnight 17 = Ok end_dt
    /\ (forall fuel slots, pack_loop fuel 0 end_dt slots start_dt = Diverge)
    /\ compute_free_slots_from_freebusy Cases.idle_response "2025-12-01" 0 9 17 = Diverge.
Proof.
  apply (zero_duration_never_returns Cases.idle_response "2025-12-01" Cases.midnight 9 17).
  - reflexivity.
  - reflexivity.
  - lia.
  - lia.
  - lia.
Defined.

Lemma aware_busy_times_raise_witness :
  compute_free_slots_from_freebusy Cases.utc_response "2025-12-01" 30 9 17
  = Raise TypeError
  /\ forall (env : Env) (calendar_ids : list string) (w : World),
      gcal_freebusy env w calendar_ids "2025-12-01T00:00:00Z" "2025-12-01T23:59:59Z"
      = inr Cases.utc_response ->
      "2025-12-01" <> EmptyString ->
      fst (availability_body env (mk_availability (Some "2025-12-01") 30 calendar_ids 9 17) w)
      = Ok (ErrorBody "freebusy_failed" (Some TypeError), 500).
Proof.
  apply (aware_busy_times_raise Cases.utc_response "2025-12-01" Cases.midnight
           Cases.utc_busy 30 9 17).
  - reflexivity.
  - lia.
  - lia.
  - reflexivity.
  - discriminate.
  - repeat constructor.
Defined.

(** What escapes the handler: a duration that is no number. *)
Example availability_conversion_escapes :
  fst (availability Doubles.healthy
         {| q_date := Some "2025-12-01"; q_duration := Some (JStr "abc");
            q_calendarIds := ["primary"]; q_work_start := None; q_work_end := None |}
         Doubles.empty_world) = Raise ValueError
  /\ fst (availability Doubles.healthy
            {| q_date := Some "2025-12-01"; q_duration := Some JNull;
               q_calendarIds := ["primary"]; q_work_start := None; q_work_end := None |}
            Doubles.empty_world) = Raise TypeError.
Proof. split; vm_compute; reflexivity. Qed.

End FreeDayExamples.

(** ** The availability call as a whole *)

Section WholeCall.

Context {parser : IsoParser}.
Context {ints : IntParser}.


End WholeCall.

Section WholeCallExamples.

Local Open Scope string_scope.
Local Existing Instance IsoFragment.iso_fragment.
Local Existing Instance IsoFragment.decimal_int.




End WholeCallExamples.

(** ** The handlers: what a run can and cannot do *)

Lemma parse_range_valid {parser : IsoParser} (start0 end0 : string) (s e : datetime) :
  parse_range start0 end0 = Ok (Some (s, e)) ->
  is_aware s = is_aware e /\ utc_key s < utc_key e.
Proof.
  unfold parse_range.
  destruct (fromisoformat (replace_Z start0)) as [s0|]; cbn [Py.bind]; [|discriminate].
  destruct (fromisoformat (replace_Z end0)) as [e0|]; cbn [Py.bind]; [|discriminate].
  unfold dt_le, comparable.
  destruct (Bool.eqb (is_aware e0) (is_aware s0)) eqn:Ek; cbn [Py.bind]; [|discriminate].
  destruct (utc_key e0 <=? utc_key s0) eqn:El; [discriminate|].
  intros H. inversion H; subst s0 e0. apply Z.leb_gt in El.
  apply Bool.eqb_prop in Ek. split; [congruence|lia].
Qed.

Section HandlerRuns.

Context {parser : IsoParser}.

(** X8. Validation comes first: a request that a handler rejects with
    status 400 has touched nothing - no statement was sent to the database,
    no calendar call was made, nothing was logged. *)
Theorem rejected_requests_touch_nothing (env : Env) (w : World) :
  (forall payload body,
      fst (book_body env payload w) = Ok (body, 400) -> snd (book_body env payload w) = w)
  /\ (forall payload body,
         fst (reschedule_body env payload w) = Ok (body, 400) ->
         snd (reschedule_body env payload w) = w)
  /\ (forall booking_ref0 body,
         fst (cancel_body env booking_ref0 w) = Ok (body, 400) ->
         snd (cancel_body env booking_ref0 w) = w).
Proof.
  split; [|split].
  - intros payload body. run_io. repeat case_step.
    all: intros H; try reflexivity; inversion H.
  - intros payload body. run_io. repeat case_step.
    all: intros H; try reflexivity; inversion H.
  - intros booking_ref0 body. run_io. repeat case_step.
    all: intros H; try reflexivity; inversion H.
Qed.

(** X9. For a payload whose fields have the expected types, the only
    exception that escapes a handler is a failure of its first lookup,
    which is outside every [try]: a run that raises has that failed
    [SELECT] as its only effect, so it made no calendar call and no write;
    and every handler run ends. *)
Theorem handlers_raise_only_at_lookup (env : Env) (w : World) :
  (forall payload,
      fst (book_body env payload w) <> Diverge
      /\ forall e, fst (book_body env payload w) = Raise e ->
                   effects_of (book_body env payload) w = [Db Select (Some e)]
                   /\ rows (snd (book_body env payload w)) = rows w)
  /\ (forall payload,
         fst (reschedule_body env payload w) <> Diverge
         /\ forall e, fst (reschedule_body env payload w) = Raise e ->
                      effects_of (reschedule_body env payload) w = [Db Select (Some e)]
                      /\ rows (snd (reschedule_body env payload w)) = rows w)
  /\ (forall booking_ref0,
         fst (cancel_body env booking_ref0 w) <> Diverge
         /\ forall e, fst (cancel_body env booking_ref0 w) = Raise e ->
                      effects_of (cancel_body env booking_ref0) w = [Db Select (Some e)]
                      /\ rows (snd (cancel_body env booking_ref0 w)) = rows w).
Proof.
  split; [|split].
  - intros payload. unfold effects_of. run_io. repeat case_step.
    all: show_effects.
    all: split; [discriminate|intros ? H; try discriminate H].
    all: inversion H; subst; split; reflexivity.
  - intros payload. unfold effects_of. run_io. repeat case_step.
    all: show_effects.
    all: split; [discriminate|intros ? H; try discriminate H].
    all: inversion H; subst; split; reflexivity.
  - intros booking_ref0. unfold effects_of. run_io. repeat case_step.
    all: show_effects.
    all: split; [discriminate|intros ? H; try discriminate H].
    all: inversion H; subst; split; reflexivity.
Qed.

(** X10. External first: in every run of the create handler, a write to
    the booking table is preceded by a [createEvent] that succeeded, and
    in every run of the reschedule handler by an [updateEvent] that
    succeeded. *)
Theorem writes_follow_the_calendar (env : Env) (w : World) :
  (forall payload,
      filter is_write (effects_of (book_body env payload) w) <> [] ->
      existsb ok_create (before_first is_write (effects_of (book_body env payload) w)) = true)
  /\ (forall payload,
         filter is_write (effects_of (reschedule_body env payload) w) <> [] ->
         existsb ok_update (before_first is_write (effects_of (reschedule_body env payload) w))
         = true).
Proof.
  split.
  - intros payload. unfold effects_of. run_io. repeat case_step.
    all: show_effects.
    all: cbn; intros H; try (exfalso; apply H; reflexivity).
    all: reflexivity.
  - intros payload. unfold effects_of. run_io. repeat case_step.
    all: show_effects.
    all: cbn; intros H; try (exfalso; apply H; reflexivity).
    all: reflexivity.
Qed.

End HandlerRuns.

Section Outcomes.

Context {parser : IsoParser}.

(** What a run of the create handler leaves behind: the table as it was,
    or one new row. *)
Lemma book_outcome (env : Env) (payload : BookPayload) (w : World) :
  (rows (snd (book_body env payload w)) = rows w
   /\ next_id (snd (book_body env payload w)) = next_id w
   /\ forall b code, fst (book_body env payload w) = Ok (BookingBody b, code) ->
        b = find (Crud.has_ref (str_of (p_idempotency_key payload))) (rows w)
        /\ b <> None
        /\ effects_of (book_body env payload) w = [Db Select None])
  \/ exists new evt s e c,
      rows (snd (book_body env payload w)) = rows w ++ [new]
      /\ next_id (snd (book_body env payload w)) = next_id w + 1
      /\ id new = next_id w
      /\ existsb (Crud.has_ref (booking_ref new)) (rows w) = false
      /\ status new = "confirmed"%string
      /\ start new = to_column s /\ end_ new = to_column e
      /\ calendar_id new = p_calendar_id payload
      /\ ev_id evt = Some (event_id new)
      /\ Py.truthy (Some (booking_ref new)) = true
      /\ p_customer payload = Some c
      /\ parse_range (str_of (p_start payload)) (str_of (p_end payload)) = Ok (Some (s, e))
      /\ filter is_calendar_call (before_first is_write (effects_of (book_body env payload) w))
         = [CalCreateEvent (p_calendar_id payload)
              (create_event_body payload c (str_of (p_service_id payload))
                 (str_of (p_start payload)) (str_of (p_end payload)))
              (inr evt)]
      /\ forall b code, fst (book_body env payload w) = Ok (BookingBody b, code) ->
           b = find (Crud.has_id (next_id w)) (rows w ++ [new]) /\ b <> None
           /\ filter is_calendar_call (effects_of (book_body env payload) w)
              = [CalCreateEvent (p_calendar_id payload)
                   (create_event_body payload c (str_of (p_service_id payload))
                      (str_of (p_start payload)) (str_of (p_end payload)))
                   (inr evt)].
Proof.
  unfold effects_of.
  destruct (book_body env payload w) as [r w1] eqn:Hrun. cbn [fst snd].
  pattern r, w1.
  match goal with |- ?P r w1 => set (post := P) end.
  revert Hrun. run_io. repeat case_step.
  all: intros Hrun; inversion Hrun; subst r w1; clear Hrun; subst post; cbn beta.
  all: show_effects.
  all: rewrite <- ?app_assoc in *; cbn [app] in *.
  all: try match goal with
           | H : _ || true = false |- _ => rewrite orb_true_r in H; discriminate H
           end.
  all: try (left; split; [reflexivity|split; [reflexivity|]];
            intros ? ? Hb;
            first [discriminate Hb
                  | inversion Hb; subst;
                    split; [reflexivity|split; [discriminate|reflexivity]]]).
  all: try (right; do 5 eexists;
            split; [reflexivity|]; split; [reflexivity|]; split; [reflexivity|];
            split; [match goal with
                    | H : _ || _ = false |- _ =>
                        apply orb_false_elim in H; destruct H as [H _]; exact H
                    end|];
            split; [reflexivity|]; split; [reflexivity|]; split; [reflexivity|];
            split; [reflexivity|]; split; [cbn; eassumption|];
            split; [first [assumption|reflexivity]|];
            split; [reflexivity|]; split; [reflexivity|]; split; [reflexivity|];
            intros ? ? Hb;
            first [discriminate Hb
                  | inversion Hb; subst;
                    split; [first [reflexivity|symmetry; assumption]
                           |split; [discriminate|reflexivity]]]).
Qed.

(** What a run of the reschedule handler leaves behind: the table as it
    was, or the rows of one primary key moved to the requested range. *)
Lemma reschedule_outcome (env : Env) (payload : ReschedulePayload) (w : World) :
  (rows (snd (reschedule_body env payload w)) = rows w
   /\ next_id (snd (reschedule_body env payload w)) = next_id w)
  \/ exists b s e now,
      find (Crud.has_ref (str_of (r_booking_ref payload))) (rows w) = Some b
      /\ parse_range (str_of (r_new_start payload)) (str_of (r_new_end payload))
         = Ok (Some (s, e))
      /\ rows (snd (reschedule_body env payload w))
         = map (fun r => if Crud.has_id (id b) r
                         then set_schedule (to_column s) (to_column e)
                                "rescheduled" now r
                         else r) (rows w)
      /\ next_id (snd (reschedule_body env payload w)) = next_id w.
Proof.
  destruct (reschedule_body env payload w) as [r w1] eqn:Hrun. cbn [fst snd].
  pattern r, w1.
  match goal with |- ?P r w1 => set (post := P) end.
  revert Hrun. run_io. repeat case_step.
  all: intros Hrun; inversion Hrun; subst r w1; clear Hrun; subst post; cbn beta.
  all: cbn [fst snd rows trace next_id].
  all: repeat match goal with
              | H : Some _ = Some _ |- _ => inversion H; subst; clear H
              end.
  all: first [ left; split; reflexivity
             | right; do 4 eexists;
               split; [first [eassumption|reflexivity]|];
               split; [first [eassumption|reflexivity]|]; split; reflexivity ].
Qed.

(** What a run of the cancel handler leaves behind: the table as it was,
    or the rows of one primary key marked cancelled. *)
Lemma cancel_outcome (env : Env) (booking_ref0 : option string) (w : World) :
  (rows (snd (cancel_body env booking_ref0 w)) = rows w
   /\ next_id (snd (cancel_body env booking_ref0 w)) = next_id w)
  \/ exists b now,
      find (Crud.has_ref (str_of booking_ref0)) (rows w) = Some b
      /\ rows (snd (cancel_body env booking_ref0 w))
         = map (fun r => if Crud.has_id (id b) r
                         then set_status "cancelled" now r else r) (rows w)
      /\ next_id (snd (cancel_body env booking_ref0 w)) = next_id w.
Proof.
  destruct (cancel_body env booking_ref0 w) as [r w1] eqn:Hrun. cbn [fst snd].
  pattern r, w1.
  match goal with |- ?P r w1 => set (post := P) end.
  revert Hrun. run_io. repeat case_step.
  all: intros Hrun; inversion Hrun; subst r w1; clear Hrun; subst post; cbn beta.
  all: cbn [fst snd rows trace next_id].
  all: repeat match goal with
              | H : Some _ = Some _ |- _ => inversion H; subst; clear H
              end.
  all: first [ left; split; reflexivity
             | right; do 2 eexists;
               split; [first [eassumption|reflexivity]|]; split; reflexivity ].
Qed.

Lemma grown_same (l : list Booking) : grown l l.
Proof.
  exists l, []. split; [now rewrite app_nil_r|]. split; [|cbn; lia].
  apply Forall2_same. intros r. unfold same_identity. repeat split.
Qed.

Lemma grown_insert (l : list Booking) (new : Booking) : grown l (l ++ [new]).
Proof.
  exists l, [new]. split; [reflexivity|]. split; [|cbn; lia].
  apply Forall2_same. intros r. unfold same_identity. repeat split.
Qed.

Lemma grown_update (l : list Booking) (id0 : Z) (change : Booking -> Booking) :
  (forall r, same_identity r (change r)) ->
  grown l (map (fun r => if Crud.has_id id0 r then change r else r) l).
Proof.
  intros H. eexists _, []. split; [now rewrite app_nil_r|]. split; [|cbn; lia].
  apply Forall2_map_same. intros r. destruct (Crud.has_id id0 r); [apply H|].
  unfold same_identity. repeat split.
Qed.

(** X11. No handler deletes a booking or rewrites what identifies it: after
    any run of the create, reschedule or cancel handler the table holds
    the rows it held, in the same order and with the same primary key,
    reference, idempotency key, customer, agent, calendar, event, service,
    payment flag and creation time, followed by at most one new row. *)
Theorem handlers_never_delete_rows (env : Env) (w : World) :
  (forall payload, grown (rows w) (rows (snd (book_body env payload w))))
  /\ (forall payload, grown (rows w) (rows (snd (reschedule_body env payload w))))
  /\ (forall booking_ref0, grown (rows w) (rows (snd (cancel_body env booking_ref0 w)))).
Proof.
  split; [|split].
  - intros payload.
    destruct (book_outcome env payload w)
      as [(-> & _)|(new & evt & s & e & c & -> & _)];
      [apply grown_same|apply grown_insert].
  - intros payload.
    destruct (reschedule_outcome env payload w)
      as [(-> & _)|(b & s & e & now & _ & _ & -> & _)]; [apply grown_same|].
    apply grown_update. intros r. unfold same_identity. repeat split.
  - intros booking_ref0.
    destruct (cancel_outcome env booking_ref0 w)
      as [(-> & _)|(b & now & _ & -> & _)]; [apply grown_same|].
    apply grown_update. intros r. unfold same_identity. repeat split.
Qed.

Lemma existsb_has_ref_false (ref : string) (l : list Booking) :
  existsb (Crud.has_ref ref) l = false -> ~ In ref (map booking_ref l).
Proof.
  intros H Hin. apply in_map_iff in Hin. destruct Hin as (r & Hr & Hin).
  assert (existsb (Crud.has_ref ref) l = true); [|congruence].
  apply existsb_exists. exists r. split; [exact Hin|].
  unfold Crud.has_ref. rewrite Hr. apply String.eqb_refl.
Qed.

Lemma refs_after_update (l : list Booking) (id0 : Z) (change : Booking -> Booking) :
  (forall r, booking_ref (change r) = booking_ref r) ->
  map booking_ref (map (fun r => if Crud.has_id id0 r then change r else r) l)
  = map booking_ref l.
Proof.
  intros H. rewrite map_map. apply map_ext. intros r.
  destruct (Crud.has_id id0 r); [apply H|reflexivity].
Qed.

(** X12. Booking references stay unique: when no two stored bookings
    share a [booking_ref], none do after any run of the create, reschedule
    or cancel handler (an insert whose reference is taken is refused by
    the unique index of the column). *)
Theorem handlers_keep_refs_unique (env : Env) (w : World) :
  unique_refs w ->
  (forall payload, unique_refs (snd (book_body env payload w)))
  /\ (forall payload, unique_refs (snd (reschedule_body env payload w)))
  /\ (forall booking_ref0, unique_refs (snd (cancel_body env booking_ref0 w))).
Proof.
  unfold unique_refs. intros Hu. split; [|split].
  - intros payload.
    destruct (book_outcome env payload w)
      as [(-> & _)|(new & evt & s & e & c & -> & _ & _ & Hnew & _)]; [exact Hu|].
    rewrite map_app. cbn [map].
    apply (Permutation_NoDup (Permutation_cons_append _ _)).
    constructor; [now apply existsb_has_ref_false|exact Hu].
  - intros payload.
    destruct (reschedule_outcome env payload w)
      as [(-> & _)|(b & s & e & now & _ & _ & -> & _)]; [exact Hu|].
    now rewrite refs_after_update.
  - intros booking_ref0.
    destruct (cancel_outcome env booking_ref0 w)
      as [(-> & _)|(b & now & _ & -> & _)]; [exact Hu|].
    now rewrite refs_after_update.
Qed.

Lemma stored_range_valid {parser' : IsoParser} (start0 end0 : string) (s e : datetime) :
  @parse_range parser' start0 end0 = Ok (Some (s, e)) ->
  utcoffset s = utcoffset e ->
  is_aware (to_column s) = is_aware (to_column e)
  /\ utc_key (to_column s) < utc_key (to_column e).
Proof.
  intros Hp Ho. destruct (parse_range_valid _ _ _ _ Hp) as [_ Hlt].
  split; [reflexivity|]. revert Hlt. unfold utc_key, to_column. cbn [utcoffset wall].
  rewrite Ho. destruct (utcoffset e); lia.
Qed.

(** X13. Stored bookings end after they start, for requests whose two
    times carry the same UTC offset (or none): when every stored booking
    has a start and an end of the same kind with [start < end], so has
    every stored booking after any run of the cancel handler, and after
    any run of the create or reschedule handler whose start and end parse
    to values with the same offset.  (The check [end_dt <= start_dt]
    orders instants; the columns keep wall readings.) *)
Theorem handlers_keep_ranges_valid (env : Env) (w : World) :
  Forall valid_range (rows w) ->
  (forall payload,
      (forall s e, parse_range (str_of (p_start payload)) (str_of (p_end payload))
                   = Ok (Some (s, e)) -> utcoffset s = utcoffset e) ->
      Forall valid_range (rows (snd (book_body env payload w))))
  /\ (forall payload,
         (forall s e, parse_range (str_of (r_new_start payload))
                        (str_of (r_new_end payload))
                      = Ok (Some (s, e)) -> utcoffset s = utcoffset e) ->
         Forall valid_range (rows (snd (reschedule_body env payload w))))
  /\ (forall booking_ref0, Forall valid_range (rows (snd (cancel_body env booking_ref0 w)))).
Proof.
  intros Hv. split; [|split].
  - intros payload Ho.
    destruct (book_outcome env payload w)
      as [(-> & _)|(new & evt & s & e & c & -> & _ & _ & _ & _ & Hs & He & _ & _ & _ & _ & Hp & _)];
      [exact Hv|].
    apply Forall_app. split; [exact Hv|]. constructor; [|constructor].
    unfold valid_range. rewrite Hs, He.
    exact (stored_range_valid _ _ _ _ Hp (Ho _ _ Hp)).
  - intros payload Ho.
    destruct (reschedule_outcome env payload w)
      as [(-> & _)|(b & s & e & now & _ & Hp & -> & _)]; [exact Hv|].
    apply Forall_map. eapply Forall_impl; [|exact Hv]. cbn beta. intros r Hr.
    destruct (Crud.has_id (id b) r); [|exact Hr].
    exact (stored_range_valid _ _ _ _ Hp (Ho _ _ Hp)).
  - intros booking_ref0.
    destruct (cancel_outcome env booking_ref0 w)
      as [(-> & _)|(b & now & _ & -> & _)]; [exact Hv|].
    apply Forall_map. eapply Forall_impl; [|exact Hv]. cbn beta. intros r Hr.
    destruct (Crud.has_id (id b) r); exact Hr.
Qed.

End Outcomes.

(** ** A booking from create to read and to cancel *)

Lemma existsb_false_find_none {A : Type} (p : A -> bool) (l : list A) :
  existsb p l = false -> find p l = None.
Proof.
  induction l as [|x l IH]; cbn; [reflexivity|].
  destruct (p x); cbn; [discriminate|exact IH].
Qed.

Section Journeys.

Context {parser : IsoParser}.

(** The booking a create run answers with after a [createEvent] call is
    the row it stored. *)
Lemma book_stores_what_it_answers
      (env : Env) (payload : BookPayload) (w : World) (b : Booking) :
  fresh_ids w ->
  fst (book_body env payload w) = Ok (BookingBody (Some b), 200) ->
  filter is_create (effects_of (book_body env payload) w) <> [] ->
  exists evt c s e,
    rows (snd (book_body env payload w)) = rows w ++ [b]
    /\ id b = next_id w
    /\ existsb (Crud.has_ref (booking_ref b)) (rows w) = false
    /\ status b = "confirmed"%string
    /\ calendar_id b = p_calendar_id payload
    /\ ev_id evt = Some (event_id b)
    /\ Py.truthy (Some (booking_ref b)) = true
    /\ p_customer payload = Some c
    /\ parse_range (str_of (p_start payload)) (str_of (p_end payload))
       = Ok (Some (s, e))
    /\ start b = to_column s /\ end_ b = to_column e
    /\ filter is_calendar_call (effects_of (book_body env payload) w)
       = [CalCreateEvent (p_calendar_id payload)
            (create_event_body payload c (str_of (p_service_id payload))
               (str_of (p_start payload)) (str_of (p_end payload)))
            (inr evt)].
Proof.
  intros Hf Hok Hcreate.
  destruct (book_outcome env payload w)
    as [(_ & _ & Hreplay)
       |(new & evt & s & e & c & Hrows & _ & Hid & Hnew & Hst & Hs & He & Hcal & Hev
         & Ht & Hc & Hp & _ & Hanswer)].
  - destruct (Hreplay _ _ Hok) as (_ & _ & Heff). rewrite Heff in Hcreate.
    exfalso. apply Hcreate. reflexivity.
  - destruct (Hanswer _ _ Hok) as (Hb & _ & Hcalls).
    rewrite (find_fresh_id w new Hf Hid) in Hb. inversion Hb; subst b.
    exists evt, c, s, e. repeat split; assumption.
Qed.

(** X14. A successful create is consistent across both systems: when the
    create handler answers 200 after calling [createEvent], the booking in
    the answer is the one new row of the table, it is [confirmed], its
    start and end are the wall readings of the two times of the request
    (the columns keep no offset), it carries the requested calendar and
    the [id] of the event that [createEvent] returned, and that call is
    the only calendar call of the run. *)
Theorem booked_is_stored_with_its_event
        (env : Env) (payload : BookPayload) (w : World) (b : Booking) :
  fresh_ids w ->
  fst (book_body env payload w) = Ok (BookingBody (Some b), 200) ->
  filter is_create (effects_of (book_body env payload) w) <> [] ->
  rows (snd (book_body env payload w)) = rows w ++ [b]
  /\ status b = "confirmed"%string
  /\ (exists s e,
        parse_range (str_of (p_start payload)) (str_of (p_end payload))
        = Ok (Some (s, e))
        /\ start b = to_column s /\ end_ b = to_column e)
  /\ calendar_id b = p_calendar_id payload
  /\ exists body evt,
      filter is_calendar_call (effects_of (book_body env payload) w)
      = [CalCreateEvent (p_calendar_id payload) body (inr evt)]
      /\ ev_id evt = Some (event_id b).
Proof.
  intros Hf Hok Hcreate.
  destruct (book_stores_what_it_answers env payload w b Hf Hok Hcreate)
    as (evt & c & s & e & Hrows & _ & _ & Hst & Hcal & Hev & _ & _ & Hp & Hs & He
        & Hcalls).
  split; [exact Hrows|]. split; [exact Hst|].
  split; [exists s, e; auto|]. split; [exact Hcal|].
  eauto.
Qed.

(** X15. Create, then read: the booking answered by a successful create
    (a new one or a replay) is what the read handler answers, with status
    200, for that booking's reference on the table the create left
    behind. *)
Theorem booked_is_found_by_ref
        (env1 env2 : Env) (payload : BookPayload) (w : World) (b : Booking) :
  fresh_ids w ->
  fst (book_body env1 payload w) = Ok (BookingBody (Some b), 200) ->
  db_fault env2 (snd (book_body env1 payload w)) Select = None ->
  fst (get_booking_body env2 (booking_ref b) (snd (book_body env1 payload w)))
  = Ok (OneBooking (Some b), 200).
Proof.
  intros Hf Hok Hsel.
  assert (Hfind : find (Crud.has_ref (booking_ref b)) (rows (snd (book_body env1 payload w)))
                  = Some b).
  { destruct (book_outcome env1 payload w)
      as [(Hrows & _ & Hreplay)
         |(new & evt & s & e & c & Hrows & _ & Hid & Hnew & _ & _ & _ & _ & _
           & _ & _ & _ & _ & Hanswer)].
    - destruct (Hreplay _ _ Hok) as (Hb & _ & _). rewrite Hrows.
      symmetry in Hb. destruct (find_some _ _ Hb) as [_ Href].
      unfold Crud.has_ref in Href. apply String.eqb_eq in Href.
      now rewrite Href.
    - destruct (Hanswer _ _ Hok) as (Hb & _ & _).
      rewrite (find_fresh_id w new Hf Hid) in Hb. inversion Hb; subst b.
      rewrite Hrows, find_app_none by (now apply existsb_false_find_none).
      cbn. unfold Crud.has_ref. now rewrite String.eqb_refl. }
  unfold get_booking_body, get_booking_with, async_for, Crud.get_booking_by_ref,
    Crud.statement, Collab.bind, read, emit, ret.
  rewrite Hsel. cbn [fst snd rows]. rewrite Hfind. reflexivity.
Qed.

(** A cancel that finds its booking calls [deleteEvent] once, for the
    stored calendar and event, whatever the database does afterwards. *)
Lemma cancel_calls_delete_once
      (env : Env) (booking_ref0 : option string) (w : World) (b : Booking) :
  Py.truthy booking_ref0 = true ->
  db_fault env w Select = None ->
  find (Crud.has_ref (str_of booking_ref0)) (rows w) = Some b ->
  exists d,
    filter is_calendar_call (effects_of (cancel_body env booking_ref0) w)
    = [CalDeleteEvent (calendar_id b) (Some (event_id b)) d].
Proof.
  intros Ht Hsel Ef. unfold effects_of. run_io. rewrite Ht. cbn [negb].
  rewrite Hsel. cbn [fst snd rows trace next_id]. rewrite Ef.
  repeat case_step.
  all: show_effects.
  all: eexists; reflexivity.
Qed.

(** X16. Create, then cancel: the cancel handler, called with the
    reference of a booking that a create run just stored, makes one
    calendar call, and it deletes from the requested calendar exactly the
    event that the create run's [createEvent] returned. *)
Theorem cancel_deletes_the_booked_event
        (env1 env2 : Env) (payload : BookPayload) (w : World) (b : Booking) :
  fresh_ids w ->
  fst (book_body env1 payload w) = Ok (BookingBody (Some b), 200) ->
  filter is_create (effects_of (book_body env1 payload) w) <> [] ->
  db_fault env2 (snd (book_body env1 payload w)) Select = None ->
  exists body evt d,
    filter is_calendar_call (effects_of (book_body env1 payload) w)
    = [CalCreateEvent (p_calendar_id payload) body (inr evt)]
    /\ filter is_calendar_call
         (effects_of (cancel_body env2 (Some (booking_ref b))) (snd (book_body env1 payload w)))
       = [CalDeleteEvent (p_calendar_id payload) (ev_id evt) d].
Proof.
  intros Hf Hok Hcreate Hsel.
  destruct (book_stores_what_it_answers env1 payload w b Hf Hok Hcreate)
    as (evt & c & s & e & Hrows & _ & Hnew & _ & Hcal & Hev & Ht & _ & _ & _ & _
        & Hcalls).
  assert (Hfind : find (Crud.has_ref (booking_ref b)) (rows (snd (book_body env1 payload w)))
                  = Some b).
  { rewrite Hrows, find_app_none by (now apply existsb_false_find_none).
    cbn. unfold Crud.has_ref. now rewrite String.eqb_refl. }
  destruct (cancel_calls_delete_once env2 (Some (booking_ref b))
              (snd (book_body env1 payload w)) b Ht Hsel Hfind) as [d Hd].
  do 2 eexists. exists d. split; [exact Hcalls|].
  rewrite Hd, Hcal, Hev. reflexivity.
Qed.

(** X17. No compensation on the update paths: when the database fails
    after the reschedule handler moved the calendar event, the handler
    answers [db_update_failed] and makes no second calendar call - the
    event stays moved; and when it fails after the cancel handler's
    [deleteEvent], the answer is [db_update_failed] and the delete is the
    only calendar call. *)
Theorem update_paths_never_compensate (env : Env) (w : World) :
  (forall payload cal eid body op e,
      In (CalUpdateEvent cal eid body None) (effects_of (reschedule_body env payload) w) ->
      In (Db op (Some e))
         (after_first is_calendar_call (effects_of (reschedule_body env payload) w)) ->
      fst (reschedule_body env payload w) = Ok (ErrorBody "db_update_failed" (Some e), 500)
      /\ filter is_calendar_call (effects_of (reschedule_body env payload) w)
         = [CalUpdateEvent cal eid body None])
  /\ (forall booking_ref0 op e,
         In (Db op (Some e))
            (after_first is_calendar_call (effects_of (cancel_body env booking_ref0) w)) ->
         fst (cancel_body env booking_ref0 w) = Ok (ErrorBody "db_update_failed" (Some e), 500)
         /\ exists cal eid d,
             filter is_calendar_call (effects_of (cancel_body env booking_ref0) w)
             = [CalDeleteEvent cal eid d]).
Proof.
  split.
  - intros payload cal eid body op e. unfold effects_of. run_io. repeat case_step.
    all: show_effects.
    all: intros HIn HDb; split_in HIn.
    all: cbn in HDb; split_in HDb.
    all: inversion HIn; subst; inversion HDb; subst.
    all: split; reflexivity.
  - intros booking_ref0 op e. unfold effects_of. run_io. repeat case_step.
    all: show_effects.
    all: intros HDb; cbn in HDb; split_in HDb.
    all: inversion HDb; subst.
    all: split; [reflexivity|do 3 eexists; reflexivity].
Qed.

End Journeys.

(** ** The reschedule handler on its success path *)

Section Reschedule.

Context {parser : IsoParser}.

(** X18. The success path of a reschedule, whatever the calendar and the
    database do: when the handler, for a stored booking and a valid new
    range, answers 200 with a booking, it first moved the calendar event -
    one [updateEvent] for the stored calendar and event with the new times
    as they were sent - and then wrote the row; the booking it answers
    with is the stored row, now [rescheduled], and its start and end are
    the wall readings of the parsed times. *)
Theorem reschedule_moves_event_then_row
        (env : Env) (payload : ReschedulePayload) (w : World) (b b' : Booking)
        (s e : datetime) :
  parse_range (str_of (r_new_start payload)) (str_of (r_new_end payload))
  = Ok (Some (s, e)) ->
  find (Crud.has_ref (str_of (r_booking_ref payload))) (rows w) = Some b ->
  fst (reschedule_body env payload w) = Ok (BookingBody (Some b'), 200) ->
  id b' = id b /\ start b' = to_column s /\ end_ b' = to_column e
  /\ status b' = "rescheduled"%string
  /\ In b' (rows (snd (reschedule_body env payload w)))
  /\ effects_of (reschedule_body env payload) w
     = [Db Select None;
        CalUpdateEvent (calendar_id b) (event_id b)
          (JObj (time_window (str_of (r_new_start payload))
                   (str_of (r_new_end payload)))) None;
        Db Select None; Db Commit None; Db Refresh None;
        EmailTask (Some (str_of (or_else (customer_id b) (Some EmptyString))))
                  (booking_ref b')].
Proof.
  intros Hp Ef.
  destruct (find_some _ _ Ef) as [Hin Href].
  assert (Hself : Crud.has_id (id b) b = true) by (unfold Crud.has_id; apply Z.eqb_refl).
  destruct (find_present _ _ _ Hin Hself) as [r Hfr].
  destruct (find_some _ _ Hfr) as [Hrin Hrid]. apply Z.eqb_eq in Hrid.
  unfold effects_of. run_io.
  destruct (negb _ || _ || _); [discriminate|]. rewrite Hp.
  case_fault; [discriminate|]. rewrite Ef.
  destruct (gcal_update_event _ _ _ _ _); cbn [fst snd rows trace next_id];
    [discriminate|].
  case_fault; [discriminate|]. rewrite Ef.
  case_fault; [discriminate|].
  case_fault; [discriminate|].
  rewrite find_updated by reflexivity. rewrite Hfr.
  cbn [option_map fst snd rows trace next_id]. show_effects.
  intros Hok. inversion Hok; subst b'. cbn.
  split; [exact Hrid|]. split; [reflexivity|]. split; [reflexivity|].
  split; [reflexivity|]. split; [|reflexivity].
  apply in_map_iff. exists r. split; [|exact Hrin].
  unfold Crud.has_id. now rewrite (proj2 (Z.eqb_eq _ _) Hrid).
Qed.

End Reschedule.

(** ** app/crud.py: bookings *)

(** X19. Create, then look up: a booking that [create_booking] returns
    carries the columns it was given, its start and end as the wall
    readings of the given values (its reference is the given one, or
    ["BK-"] and twelve hex digits when none was given), has no
    [updated_at], is the one row added to the table, and is what
    [get_booking_by_ref] returns for its reference afterwards. *)
Theorem create_booking_round_trip
        (env env2 : Env) (booking_ref0 customer_id0 agent_id0 : option string)
        (calendar_id0 : string) (event_id0 : option string) (service_id0 : string)
        (start0 end0 : datetime) (status0 : string) (idempotency_key0 : option string)
        (paid0 : bool) (w : World) (b : Booking) :
  fresh_ids w ->
  fst (Crud.create_booking env booking_ref0 customer_id0 agent_id0 calendar_id0
         event_id0 service_id0 start0 end0 status0 idempotency_key0 paid0 w) = Ok b ->
  booking_ref b = match booking_ref0 with
                  | Some r => r
                  | None => String.append "BK-" (uuid4_hex12 env w)
                  end
  /\ idempotency_key b = idempotency_key0 /\ customer_id b = customer_id0
  /\ agent_id b = agent_id0 /\ calendar_id b = calendar_id0
  /\ event_id0 = Some (event_id b) /\ service_id b = service_id0
  /\ start b = to_column start0 /\ end_ b = to_column end0
  /\ status b = status0 /\ paid b = paid0
  /\ updated_at b = None
  /\ rows (snd (Crud.create_booking env booking_ref0 customer_id0 agent_id0 calendar_id0
                  event_id0 service_id0 start0 end0 status0 idempotency_key0 paid0 w))
     = rows w ++ [b]
  /\ (db_fault env2
        (snd (Crud.create_booking env booking_ref0 customer_id0 agent_id0 calendar_id0
                event_id0 service_id0 start0 end0 status0 idempotency_key0 paid0 w))
        Select = None ->
      fst (Crud.get_booking_by_ref env2 (booking_ref b)
             (snd (Crud.create_booking env booking_ref0 customer_id0 agent_id0
                     calendar_id0 event_id0 service_id0 start0 end0 status0
                     idempotency_key0 paid0 w)))
      = Ok (Some b)).
Proof.
  intros Hf.
  unfold Crud.create_booking, Crud.commit_insert, Crud.refresh, Crud.get_booking_by_ref,
    Crud.statement, Collab.bind, emit, raise, ret, read.
  destruct booking_ref0 as [ref|]; cbn [fst snd rows trace next_id].
  all: destruct (db_fault env w Commit); cbn [fst snd rows trace next_id];
    [discriminate|].
  all: match goal with
       | |- context [existsb ?p ?l] => destruct (existsb p l) eqn:Hex
       end; cbn [orb fst snd rows trace next_id]; [discriminate|].
  all: destruct event_id0 as [eid|]; cbn [fst snd rows trace next_id]; [|discriminate].
  all: match goal with
       | |- context [db_fault ?env' ?w' Refresh] => destruct (db_fault env' w' Refresh)
       end; cbn [fst snd rows trace next_id]; [discriminate|].
  all: match goal with
       | |- context [find (Crud.has_id (next_id ?w')) (rows ?w' ++ [?new])] =>
           rewrite (find_fresh_id w' new Hf eq_refl)
       end.
  all: cbn [fst snd rows trace next_id].
  all: intros Hb; inversion Hb; subst b; clear Hb; cbn.
  all: repeat (split; [reflexivity|]).
  all: intros Hsel; rewrite Hsel; cbn [fst snd rows trace next_id].
  all: rewrite find_app_none by (apply existsb_false_find_none; exact Hex).
  all: cbn; unfold Crud.has_ref; cbn; now rewrite String.eqb_refl.
Qed.

(** X20. Frame of [reschedule_booking]: it adds and deletes no row and
    makes no calendar call; in every row the columns that identify the
    booking keep their value, and a row that changes at all gets the wall
    readings of the new start and end and the status [rescheduled]; for a
    reference that is not stored the table is unchanged and the result, if
    any, is [None]. *)
Theorem reschedule_booking_frame
        (env : Env) (booking_ref0 : string) (new_start new_end : datetime) (w : World) :
  Forall2 (fun r r' =>
             same_identity r r'
             /\ (r' = r \/ (start r' = to_column new_start
                            /\ end_ r' = to_column new_end
                            /\ status r' = "rescheduled"%string)))
          (rows w)
          (rows (snd (Crud.reschedule_booking env booking_ref0 new_start new_end w)))
  /\ next_id (snd (Crud.reschedule_booking env booking_ref0 new_start new_end w))
     = next_id w
  /\ filter is_calendar_call
       (effects_of (Crud.reschedule_booking env booking_ref0 new_start new_end) w) = []
  /\ (find (Crud.has_ref booking_ref0) (rows w) = None ->
      rows (snd (Crud.reschedule_booking env booking_ref0 new_start new_end w)) = rows w
      /\ forall r, fst (Crud.reschedule_booking env booking_ref0 new_start new_end w)
                   = Ok r -> r = None).
Proof.
  assert (Hsame : Forall2 (fun r r' =>
             same_identity r r'
             /\ (r' = r \/ (start r' = to_column new_start
                            /\ end_ r' = to_column new_end
                            /\ status r' = "rescheduled"%string)))
          (rows w) (rows w)).
  { apply Forall2_same. intros r. split; [|now left].
    unfold same_identity. repeat split. }
  unfold effects_of. run_crud.
  case_fault.
  { show_effects. repeat split; auto. discriminate. }
  destruct (find (Crud.has_ref booking_ref0) (rows w)) as [b|] eqn:Ef;
    cbn [fst snd rows trace next_id].
  - assert (Hmap : forall now,
               Forall2 (fun r r' =>
                 same_identity r r'
                 /\ (r' = r \/ (start r' = to_column new_start
                                /\ end_ r' = to_column new_end
                                /\ status r' = "rescheduled"%string)))
               (rows w)
               (map (fun r => if Crud.has_id (id b) r
                              then set_schedule (to_column new_start)
                                     (to_column new_end) "rescheduled" now r
                              else r) (rows w))).
    { intros now. apply Forall2_map_same. intros r.
      destruct (Crud.has_id (id b) r).
      - split; [unfold same_identity; repeat split|]. right. repeat split.
      - split; [unfold same_identity; repeat split|]. now left. }
    case_fault.
    { show_effects. repeat split; auto; discriminate. }
    case_fault.
    { show_effects. repeat split; auto; discriminate. }
    match goal with
    | |- context [find ?p ?l] => destruct (find p l)
    end; cbn [fst snd rows trace next_id]; show_effects;
      repeat split; auto; discriminate.
  - show_effects. repeat split; auto. intros r Hr. now inversion Hr.
Qed.

(** ** Reading bookings *)

Section Listing.

Variable sql_ge : datetime -> datetime -> bool.
Variable sql_order_by_start : list Booking -> list Booking.
Hypothesis order_is_permutation : forall l, Permutation (sql_order_by_start l) l.

Lemma of_customer_spec (customer_id0 : string) (b : Booking) :
  of_customer customer_id0 b = true <-> customer_id b = Some customer_id0.
Proof.
  unfold of_customer. destruct (customer_id b) as [c|].
  - rewrite String.eqb_eq. split; congruence.
  - split; discriminate.
Qed.

(** X21. The listing handler: it never lets an exception escape and
    changes nothing; when the query fails it answers 500
    [internal_error]; otherwise it answers 200 with a count equal to the
    number of bookings listed, every listed booking is a stored booking of
    that customer (whose end is not before now when only upcoming ones are
    asked for), and every such stored booking is listed. *)
Theorem list_bookings_answers
        (env : Env) (customer_id0 : string) (upcoming_only : bool) (w : World) :
  rows (snd (list_bookings_body sql_ge sql_order_by_start env customer_id0 upcoming_only w))
  = rows w
  /\ (forall e, fst (list_bookings_body sql_ge sql_order_by_start env customer_id0
                       upcoming_only w) <> Raise e)
  /\ match db_fault env w Select with
     | Some _ =>
         fst (list_bookings_body sql_ge sql_order_by_start env customer_id0 upcoming_only w)
         = Ok (ReadError "internal_error", 500)
     | None =>
         exists results,
           fst (list_bookings_body sql_ge sql_order_by_start env customer_id0 upcoming_only w)
           = Ok (ManyBookings customer_id0 (List.length results) results, 200)
           /\ (forall b,
                  In (Some b) results <->
                  (In b (rows w) /\ customer_id b = Some customer_id0
                   /\ (upcoming_only = true ->
                       sql_ge (end_ b) {| wall := clock env w; utcoffset := Some 0 |}
                       = true)))
           /\ ~ In None results
     end.
Proof.
  unfold list_bookings_body, list_bookings_with, async_for,
    list_bookings_for_customer, Crud.statement,
    Collab.try_except, Collab.bind, emit, raise, ret, read, _serialize_booking.
  cbn [fst snd rows trace next_id].
  destruct (db_fault env w Select) as [e|]; cbn [fst snd rows trace next_id].
  - repeat split; discriminate.
  - split; [reflexivity|]. split; [discriminate|].
    eexists. split; [reflexivity|]. split.
    + intros b. rewrite in_map_iff. split.
      * intros (x & Hx & Hin). inversion Hx; subst x.
        apply (Permutation_in _ (order_is_permutation _)) in Hin.
        apply filter_In in Hin. destruct Hin as [Hin Hp].
        apply andb_prop in Hp. destruct Hp as [Hc Hu].
        split; [exact Hin|]. split; [now apply of_customer_spec|].
        intros ->. exact Hu.
      * intros (Hin & Hc & Hu). exists b. split; [reflexivity|].
        apply (Permutation_in _ (Permutation_sym (order_is_permutation _))).
        apply filter_In. split; [exact Hin|].
        apply andb_true_intro. split; [now apply of_customer_spec|].
        destruct upcoming_only; [now apply Hu|reflexivity].
    + rewrite in_map_iff. intros (x & Hx & _). discriminate Hx.
Qed.

End Listing.

(** ** Slots and the end of the working window *)

(** X22. Slots stay inside the working window when no busy interval
    starts after its end: for busy intervals of naive instants with
    [start < end], in any order, none of which starts after [work_end],
    and with room for one more slot before [datetime.max] after the window
    and after every busy time, every slot starts at or after [work_start]
    and ends at or before [work_end]. *)
Theorem slots_stay_inside_window
        (busy : list interval) (start_dt end_dt : datetime) (d : Z) :
  0 < d -> is_aware start_dt = false -> is_aware end_dt = false ->
  roomy d start_dt -> roomy d end_dt ->
  Forall (same_kind false) busy -> Forall proper busy ->
  Forall (roomy_interval d) busy ->
  Forall (fun a => lo a <= utc_key end_dt) busy ->
  exists merged slots,
    merge_busy busy = Ok merged
    /\ generate_slots merged start_dt end_dt d = Ok slots
    /\ Forall (fun s => utc_key start_dt <= slot_lo s /\ slot_hi s <= utc_key end_dt)
              slots.
Proof.
  intros Hd Hs He Hrs Hre Hk Hp Hr Hend.
  destruct (merge_busy_returns false busy Hk Hp)
    as (merged & Hm & Hkm & Hpm & Hsm & _ & Hstart).
  destruct (generate_slots_sound merged start_dt end_dt d Hd Hs He Hrs Hre Hkm Hpm
              (merged_roomy d busy merged Hr Hstart) Hsm)
    as (slots & Hg & _ & Hlo & _ & _ & Hhi).
  exists merged, slots. split; [exact Hm|]. split; [exact Hg|].
  assert (Hin : Forall (fun J => lo J <= utc_key end_dt) merged).
  { apply Forall_forall. intros J HJ. destruct (Hstart J HJ) as ((a & Ha & Hfst) & _).
    rewrite Forall_forall in Hend. specialize (Hend a Ha).
    unfold lo in *. now rewrite <- Hfst. }
  specialize (Hhi Hin). rewrite Forall_forall in *.
  intros s Hs'. split; auto.
Qed.

Lemma slots_stay_inside_window_witness :
  exists merged slots,
    merge_busy Doubles.touching_busy = Ok merged
    /\ generate_slots merged (IsoFragment.naive 2025 12 1 9 0)
         (IsoFragment.naive 2025 12 1 11 0) 30 = Ok slots
    /\ Forall (fun s => utc_key (IsoFragment.naive 2025 12 1 9 0) <= slot_lo s
                        /\ slot_hi s <= utc_key (IsoFragment.naive 2025 12 1 11 0))
              slots.
Proof.
  apply (slots_stay_inside_window Doubles.touching_busy
           (IsoFragment.naive 2025 12 1 9 0) (IsoFragment.naive 2025 12 1 11 0) 30).
  - reflexivity.
  - reflexivity.
  - reflexivity.
  - split; [vm_compute; discriminate|vm_compute; reflexivity].
  - split; [vm_compute; discriminate|vm_compute; reflexivity].
  - repeat constructor.
  - repeat constructor.
  - repeat constructor; vm_compute; discriminate.
  - repeat constructor; vm_compute; discriminate.
Defined.

(** ** The properties above on concrete runs *)

Lemma insert_by_start_perm (b : Booking) (l : list Booking) :
  Permutation (Booked.insert_by_start b l) (b :: l).
Proof.
  induction l as [|x l IH]; cbn; auto.
  destruct (utc_key (start x) <=? utc_key (start b)); auto.
  rewrite IH. apply perm_swap.
Qed.

Lemma order_by_start_perm (l : list Booking) : Permutation (Booked.order_by_start l) l.
Proof.
  induction l as [|b l IH]; cbn; auto.
  rewrite insert_by_start_perm. now constructor.
Qed.

Section RunExamples.

Local Open Scope string_scope.
Local Existing Instance IsoFragment.iso_fragment.

Lemma empty_world_fresh : fresh_ids Doubles.empty_world.
Proof. constructor. Qed.

Lemma rejected_requests_touch_nothing_witness :
  snd (book_body Doubles.healthy Booked.no_start_request Doubles.confirmed_world)
  = Doubles.confirmed_world
  /\ snd (reschedule_body Doubles.healthy Booked.no_ref_move Doubles.confirmed_world)
     = Doubles.confirmed_world
  /\ snd (cancel_body Doubles.healthy None Doubles.confirmed_world) = Doubles.confirmed_world.
Proof.
  destruct (rejected_requests_touch_nothing Doubles.healthy Doubles.confirmed_world)
    as (Hb & Hr & Hc).
  split; [|split].
  - apply (Hb Booked.no_start_request (ErrorBody "missing_fields" None)). reflexivity.
  - apply (Hr Booked.no_ref_move
             (ErrorBody "booking_ref_new_start_new_end_required" None)). reflexivity.
  - apply (Hc None (ErrorBody "booking_ref_required" None)). reflexivity.
Defined.

Lemma handlers_raise_only_at_lookup_witness :
  effects_of (cancel_body Booked.unreachable (Some "BK-1")) Doubles.confirmed_world
  = [Db Select (Some Doubles.connection_lost)]
  /\ rows (snd (cancel_body Booked.unreachable (Some "BK-1") Doubles.confirmed_world))
     = rows Doubles.confirmed_world.
Proof.
  apply (proj2 (proj2 (handlers_raise_only_at_lookup Booked.unreachable
                         Doubles.confirmed_world)) (Some "BK-1")).
  reflexivity.
Defined.

Lemma writes_follow_the_calendar_witness :
  existsb ok_create
    (before_first is_write
       (effects_of (book_body Doubles.healthy Doubles.plain_request) Doubles.empty_world))
  = true
  /\ existsb ok_update
       (before_first is_write
          (effects_of (reschedule_body Doubles.healthy Doubles.move_request)
             Doubles.confirmed_world))
     = true.
Proof.
  destruct (writes_follow_the_calendar Doubles.healthy Doubles.empty_world) as (Hb & _).
  destruct (writes_follow_the_calendar Doubles.healthy Doubles.confirmed_world) as (_ & Hr).
  split.
  - apply Hb. vm_compute. discriminate.
  - apply Hr. vm_compute. discriminate.
Defined.

Lemma handlers_keep_refs_unique_witness :
  unique_refs (snd (book_body Doubles.healthy Doubles.plain_request Doubles.confirmed_world))
  /\ unique_refs (snd (reschedule_body Doubles.healthy Doubles.move_request
                         Doubles.confirmed_world))
  /\ unique_refs (snd (cancel_body Doubles.healthy (Some "BK-1") Doubles.confirmed_world)).
Proof.
  assert (Hu : unique_refs Doubles.confirmed_world)
    by (unfold unique_refs; cbn; repeat constructor; intros []).
  destruct (handlers_keep_refs_unique Doubles.healthy Doubles.confirmed_world Hu)
    as (Hb & Hr & Hc).
  split; [apply Hb|split; [apply Hr|apply Hc]].
Defined.

Lemma handlers_keep_ranges_valid_witness :
  Forall valid_range
    (rows (snd (book_body Doubles.healthy Doubles.plain_request Doubles.confirmed_world)))
  /\ Forall valid_range
       (rows (snd (reschedule_body Doubles.healthy Doubles.move_request
                     Doubles.confirmed_world)))
  /\ Forall valid_range
       (rows (snd (cancel_body Doubles.healthy (Some "BK-1") Doubles.confirmed_world))).
Proof.
  assert (Hv : Forall valid_range (rows Doubles.confirmed_world)).
  { constructor; [|constructor]. split; [reflexivity|vm_compute; reflexivity]. }
  destruct (handlers_keep_ranges_valid Doubles.healthy Doubles.confirmed_world Hv)
    as (Hb & Hr & Hc).
  split; [apply Hb|split; [apply Hr|apply Hc]].
  - intros s e H. vm_compute in H. inversion H. reflexivity.
  - intros s e H. vm_compute in H. inversion H. reflexivity.
Defined.

(** Without the same offset the stored range can be inverted: the request
    from 10:00 at UTC+5 to 09:00 UTC passes the check and is stored as
    10:00 to 09:00. *)
Example mixed_offsets_store_inverted_range :
  map (fun b => (start b, end_ b))
      (rows (snd (book_body Doubles.healthy Booked.mixed_request Doubles.empty_world)))
  = [(IsoFragment.naive 2025 12 1 10 0, IsoFragment.naive 2025 12 1 9 0)]
  /\ ~ Forall valid_range
        (rows (snd (book_body Doubles.healthy Booked.mixed_request Doubles.empty_world))).
Proof.
  split; [vm_compute; reflexivity|].
  intros H. apply Forall_inv in H. destruct H as [_ H]. vm_compute in H. discriminate H.
Qed.

Lemma booked_is_stored_with_its_event_witness :
  rows (snd (book_body Doubles.healthy Doubles.plain_request Doubles.empty_world))
  = (rows Doubles.empty_world ++ [Booked.booking])%list
  /\ status Booked.booking = "confirmed"
  /\ (exists s e,
        parse_range (str_of (p_start Doubles.plain_request))
          (str_of (p_end Doubles.plain_request)) = Ok (Some (s, e))
        /\ start Booked.booking = to_column s /\ end_ Booked.booking = to_column e)
  /\ calendar_id Booked.booking = p_calendar_id Doubles.plain_request
  /\ exists body evt,
      filter is_calendar_call
        (effects_of (book_body Doubles.healthy Doubles.plain_request) Doubles.empty_world)
      = [CalCreateEvent (p_calendar_id Doubles.plain_request) body (inr evt)]
      /\ ev_id evt = Some (event_id Booked.booking).
Proof.
  apply (booked_is_stored_with_its_event Doubles.healthy Doubles.plain_request
           Doubles.empty_world Booked.booking).
  - exact empty_world_fresh.
  - vm_compute. reflexivity.
  - vm_compute. discriminate.
Defined.

Lemma booked_is_found_by_ref_witness :
  fst (get_booking_body Doubles.healthy (booking_ref Booked.booking)
         (snd (book_body Doubles.healthy Doubles.plain_request Doubles.empty_world)))
  = Ok (OneBooking (Some Booked.booking), 200).
Proof.
  apply (booked_is_found_by_ref Doubles.healthy Doubles.healthy Doubles.plain_request
           Doubles.empty_world Booked.booking).
  - exact empty_world_fresh.
  - vm_compute. reflexivity.
  - reflexivity.
Defined.

Lemma cancel_deletes_the_booked_event_witness :
  exists body evt d,
    filter is_calendar_call
      (effects_of (book_body Doubles.healthy Doubles.plain_request) Doubles.empty_world)
    = [CalCreateEvent (p_calendar_id Doubles.plain_request) body (inr evt)]
    /\ filter is_calendar_call
         (effects_of (cancel_body Doubles.healthy (Some (booking_ref Booked.booking)))
            (snd (book_body Doubles.healthy Doubles.plain_request Doubles.empty_world)))
       = [CalDeleteEvent (p_calendar_id Doubles.plain_request) (ev_id evt) d].
Proof.
  apply (cancel_deletes_the_booked_event Doubles.healthy Doubles.healthy
           Doubles.plain_request Doubles.empty_world Booked.booking).
  - exact empty_world_fresh.
  - vm_compute. reflexivity.
  - vm_compute. discriminate.
  - reflexivity.
Defined.

Lemma update_paths_never_compensate_witness :
  (fst (reschedule_body (Doubles.with_failing_commit Doubles.connection_lost Doubles.healthy)
          Doubles.move_request Doubles.confirmed_world)
   = Ok (ErrorBody "db_update_failed" (Some Doubles.connection_lost), 500)
   /\ filter is_calendar_call
        (effects_of (reschedule_body (Doubles.with_failing_commit Doubles.connection_lost
                                   Doubles.healthy) Doubles.move_request)
           Doubles.confirmed_world)
      = [CalUpdateEvent "primary" "evt-0"
           (JObj (time_window "2025-12-02T10:00:00Z" "2025-12-02T10:30:00Z")) None])
  /\ (fst (cancel_body (Doubles.with_failing_commit Doubles.connection_lost Doubles.healthy)
             (Some "BK-1") Doubles.confirmed_world)
      = Ok (ErrorBody "db_update_failed" (Some Doubles.connection_lost), 500)
      /\ exists cal eid d,
          filter is_calendar_call
            (effects_of (cancel_body (Doubles.with_failing_commit Doubles.connection_lost
                                   Doubles.healthy) (Some "BK-1"))
               Doubles.confirmed_world)
          = [CalDeleteEvent cal eid d]).
Proof.
  destruct (update_paths_never_compensate
              (Doubles.with_failing_commit Doubles.connection_lost Doubles.healthy)
              Doubles.confirmed_world) as (Hr & Hc).
  split.
  - apply (Hr Doubles.move_request "primary" "evt-0"
             (JObj (time_window "2025-12-02T10:00:00Z" "2025-12-02T10:30:00Z"))
             Commit Doubles.connection_lost).
    + vm_compute. right. left. reflexivity.
    + vm_compute. right. left. reflexivity.
  - apply (Hc (Some "BK-1") Commit Doubles.connection_lost).
    vm_compute. right. left. reflexivity.
Defined.

Lemma reschedule_moves_event_then_row_witness :
  id Booked.moved = id (Doubles.stored 1 "BK-1" "confirmed")
  /\ start Booked.moved = to_column (IsoFragment.utc 2025 12 2 10 0)
  /\ end_ Booked.moved = to_column (IsoFragment.utc 2025 12 2 10 30)
  /\ status Booked.moved = "rescheduled"
  /\ In Booked.moved (rows (snd (reschedule_body Doubles.healthy Doubles.move_request
                                   Doubles.confirmed_world)))
  /\ effects_of (reschedule_body Doubles.healthy Doubles.move_request) Doubles.confirmed_world
     = [Db Select None;
        CalUpdateEvent (calendar_id (Doubles.stored 1 "BK-1" "confirmed"))
          (event_id (Doubles.stored 1 "BK-1" "confirmed"))
          (JObj (time_window (str_of (r_new_start Doubles.move_request))
                   (str_of (r_new_end Doubles.move_request)))) None;
        Db Select None; Db Commit None; Db Refresh None;
        EmailTask (Some (str_of (or_else (customer_id (Doubles.stored 1 "BK-1" "confirmed"))
                                   (Some EmptyString))))
                  (booking_ref Booked.moved)].
Proof.
  apply (reschedule_moves_event_then_row Doubles.healthy Doubles.move_request
           Doubles.confirmed_world (Doubles.stored 1 "BK-1" "confirmed") Booked.moved
           (IsoFragment.utc 2025 12 2 10 0) (IsoFragment.utc 2025 12 2 10 30)).
  - vm_compute. reflexivity.
  - reflexivity.
  - vm_compute. reflexivity.
Defined.

Lemma create_booking_round_trip_witness :
  booking_ref Booked.direct = "BK-7"
  /\ idempotency_key Booked.direct = None
  /\ customer_id Booked.direct = Some "cust-1"
  /\ agent_id Booked.direct = None /\ calendar_id Booked.direct = "primary"
  /\ Some "evt-7" = Some (event_id Booked.direct)
  /\ service_id Booked.direct = "Consultation"
  /\ start Booked.direct = to_column (IsoFragment.naive 2025 12 1 10 0)
  /\ end_ Booked.direct = to_column (IsoFragment.naive 2025 12 1 10 30)
  /\ status Booked.direct = "confirmed" /\ paid Booked.direct = false
  /\ updated_at Booked.direct = None
  /\ rows (snd (Booked.direct_run Doubles.empty_world))
     = (rows Doubles.empty_world ++ [Booked.direct])%list
  /\ (db_fault Doubles.healthy (snd (Booked.direct_run Doubles.empty_world)) Select = None ->
      fst (Crud.get_booking_by_ref Doubles.healthy (booking_ref Booked.direct)
             (snd (Booked.direct_run Doubles.empty_world)))
      = Ok (Some Booked.direct)).
Proof.
  apply (create_booking_round_trip Doubles.healthy Doubles.healthy
           (Some "BK-7") (Some "cust-1") None "primary" (Some "evt-7")
           "Consultation" (IsoFragment.naive 2025 12 1 10 0)
           (IsoFragment.naive 2025 12 1 10 30) "confirmed" None false
           Doubles.empty_world Booked.direct).
  - exact empty_world_fresh.
  - vm_compute. reflexivity.
Defined.

Lemma reschedule_booking_frame_witness :
  (Forall2 (fun r r' =>
              same_identity r r'
              /\ (r' = r \/ (start r' = to_column (IsoFragment.utc 2025 12 2 10 0)
                             /\ end_ r' = to_column (IsoFragment.utc 2025 12 2 10 30)
                             /\ status r' = "rescheduled")))
           (rows Doubles.confirmed_world)
           (rows (snd (Crud.reschedule_booking Doubles.healthy "BK-1"
                         (IsoFragment.utc 2025 12 2 10 0) (IsoFragment.utc 2025 12 2 10 30)
                         Doubles.confirmed_world)))
   /\ next_id (snd (Crud.reschedule_booking Doubles.healthy "BK-1"
                      (IsoFragment.utc 2025 12 2 10 0) (IsoFragment.utc 2025 12 2 10 30)
                      Doubles.confirmed_world))
      = next_id Doubles.confirmed_world
   /\ filter is_calendar_call
        (effects_of (Crud.reschedule_booking Doubles.healthy "BK-1"
                       (IsoFragment.utc 2025 12 2 10 0) (IsoFragment.utc 2025 12 2 10 30))
           Doubles.confirmed_world) = [])
  /\ map status
       (rows (snd (Crud.reschedule_booking Doubles.healthy "BK-1"
                     (IsoFragment.utc 2025 12 2 10 0) (IsoFragment.utc 2025 12 2 10 30)
                     Doubles.confirmed_world)))
     = ["rescheduled"]
  /\ (rows (snd (Crud.reschedule_booking Doubles.healthy "BK-9"
                   (IsoFragment.utc 2025 12 2 10 0) (IsoFragment.utc 2025 12 2 10 30)
                   Doubles.confirmed_world))
      = rows Doubles.confirmed_world
      /\ forall r,
          fst (Crud.reschedule_booking Doubles.healthy "BK-9"
                 (IsoFragment.utc 2025 12 2 10 0) (IsoFragment.utc 2025 12 2 10 30)
                 Doubles.confirmed_world) = Ok r -> r = None).
Proof.
  split; [|split].
  - destruct (reschedule_booking_frame Doubles.healthy "BK-1"
                (IsoFragment.utc 2025 12 2 10 0) (IsoFragment.utc 2025 12 2 10 30)
                Doubles.confirmed_world) as (H1 & H2 & H3 & _).
    split; [exact H1|]. split; [exact H2|exact H3].
  - vm_compute. reflexivity.
  - apply (reschedule_booking_frame Doubles.healthy "BK-9"
             (IsoFragment.utc 2025 12 2 10 0) (IsoFragment.utc 2025 12 2 10 30)
             Doubles.confirmed_world).
    reflexivity.
Defined.

Lemma list_bookings_answers_witness :
  rows (snd (list_bookings_body Booked.ends_at_or_after Booked.order_by_start Doubles.healthy
               "cust-1" false Doubles.confirmed_world))
  = rows Doubles.confirmed_world
  /\ (forall e, fst (list_bookings_body Booked.ends_at_or_after Booked.order_by_start
                       Doubles.healthy "cust-1" false Doubles.confirmed_world)
                <> Raise e)
  /\ exists results,
      fst (list_bookings_body Booked.ends_at_or_after Booked.order_by_start Doubles.healthy
             "cust-1" false Doubles.confirmed_world)
      = Ok (ManyBookings "cust-1" (List.length results) results, 200)
      /\ (forall b,
             In (Some b) results <->
             (In b (rows Doubles.confirmed_world) /\ customer_id b = Some "cust-1"
              /\ (false = true ->
                  Booked.ends_at_or_after (end_ b)
                    {| wall := clock Doubles.healthy Doubles.confirmed_world;
                       utcoffset := Some 0 |} = true)))
      /\ ~ In None results.
Proof.
  exact (list_bookings_answers Booked.ends_at_or_after Booked.order_by_start
           order_by_start_perm Doubles.healthy "cust-1" false Doubles.confirmed_world).
Defined.

End RunExamples.
